(** * CarDocAI analysis core

    A shallow embedding of the rule-based parts of
    [backend/services/audio_analyzer.py], [backend/services/image_analyzer.py]
    and of the audio route of [backend/routers/diagnosis.py].

    Conventions of the embedding.
    - A Python [float] is a rational [Q], and every value is finite.
      Comparisons are the boolean ones of the source.  Where the outcome of
      a test depends on the last bit of a sum, the rounding of the doubles
      (IEEE 754 binary64) is kept.  The scoring loop of the fault detection
      rounds every literal and every operation with [Py.binary64]: in
      binary64 [0.3 + 0.5 * 0.3] is below [0.3 + 0.75 * 0.2], and the
      threshold test and the sort of the source see that.  The confidence of
      a warning light, which only adds and compares literal constants, is
      computed on the doubles themselves ([float]): [0.2 + 0.1] is above
      [0.3] in binary64.  Elsewhere arithmetic is exact.  A value that the
      source rounds to a number of decimals is kept as that decimal.
    - A Python [dict] with a fixed set of keys is a record; a [dict] used as a
      table is an association list in declaration order (Python keeps the
      insertion order of a [dict]).
    - Whatever librosa, numpy, scipy, OpenCV and the file system compute is not
      re-implemented: it enters as the outcome of the call (a value, or the
      exception it raised). *)

From Stdlib Require Import List String Ascii Bool Arith ZArith QArith Qabs Qround Qminmax.
From Stdlib Require Import Strings.Byte.
From Stdlib Require Import Uint63 PrimFloat SpecFloat FloatOps.
From Stdlib Require Import Qpower Lia Lqa Permutation Sorting.Sorted.
Import ListNotations.

Local Open Scope string_scope.
Local Open Scope list_scope.
Local Open Scope Q_scope.
Set Warnings "-inexact-float,-register-all".

(** ** Python built-ins used by the analyzers *)

Module Py.

(** [x < y] on floats. *)
Definition ltb (x y : Q) : bool := negb (Qle_bool y x).

(** [min(a, b)]: Python returns [a] unless [b < a]. *)
Definition min (a b : Q) : Q := if ltb b a then b else a.

(** [sum(xs)] and the [+=] loop: left to right from [0]. *)
Definition sum (xs : list Q) : Q := fold_left Qplus xs 0.

(** [sum(xs)] on doubles, added left to right from the integer [0], every
    addition followed by the rounding [fl]. *)
Definition float_sum (fl : Q -> Q) (xs : list Q) : Q :=
  fold_left (fun total x => fl (total + x)) xs 0.

(** [len(xs)] as a float operand. *)
Definition len {A} (xs : list A) : Q := inject_Z (Z.of_nat (List.length xs)).

(** [np.mean(xs)] of a non-empty list. *)
Definition mean (xs : list Q) : Q := sum xs / len xs.

(** [d.get(k, default)] on a table. *)
Fixpoint get {V} (d : list (string * V)) (k : string) (default : V) : V :=
  match d with
  | [] => default
  | (k', v) :: rest => if String.eqb k' k then v else get rest k default
  end.

(** [k in d] / [x in xs] for strings. *)
Definition contains (xs : list string) (x : string) : bool :=
  existsb (String.eqb x) xs.

(** [xs.sort(key=..., reverse=True)]: Python's sort is stable, and with
    [reverse=True] elements with equal keys still keep their original
    order.  Insertion from the right: an element goes in front of the first
    element whose key is not greater than its own. *)
Section Sort.
Context {A : Type} (key : A -> Q).

Fixpoint insert_desc (x : A) (l : list A) : list A :=
  match l with
  | [] => [x]
  | y :: l' => if ltb (key x) (key y) then y :: insert_desc x l'
               else x :: l
  end.

Definition sort_desc (l : list A) : list A :=
  fold_right insert_desc [] l.
End Sort.

(** [round(x)]: to the nearest integer, a tie to the even one. *)
Definition round_half_even (x : Q) : Z :=
  let f := Qfloor x in
  let r := x - inject_Z f in
  if ltb r 0.5 then f
  else if ltb 0.5 r then (f + 1)%Z
  else if Z.even f then f else (f + 1)%Z.

(** [round(x, ndigits)]. *)
Definition round (x : Q) (ndigits : nat) : Q :=
  let scale := inject_Z (10 ^ Z.of_nat ndigits) in
  Qred (inject_Z (round_half_even (x * scale)) / scale).

(** [int(x)]: truncation towards zero. *)
Definition int (x : Q) : Z :=
  if ltb x 0 then Z.opp (Qfloor (- x)) else Qfloor x.

(** The rational a finite double stands for. *)
Definition exact (x : float) : Q :=
  match Prim2SF x with
  | S754_finite sign m e =>
      let magnitude := inject_Z (Zpos m) * Qpower 2 e in
      if sign then - magnitude else magnitude
  | _ => 0
  end.

(** Rounding to binary64.  [ilog2 x] is the integer [k] with
    [2^k <= x < 2^(k+1)], for a positive [x]. *)
Definition ilog2 (x : Q) : Z :=
  let k := (Z.log2 (Qnum x) - Z.log2 (Zpos (Qden x)))%Z in
  if Qle_bool (Qpower 2 k) x then k else (k - 1)%Z.

(** The double nearest to [x], a tie going to the even mantissa: 53 bits
    of mantissa down to the exponent -1074 of the subnormal numbers.  The
    result of an operation on doubles is [binary64] of the exact result
    (no number of the analyzers is large enough to overflow). *)
Definition binary64 (x : Q) : Q :=
  if Qeq_bool x 0 then 0
  else
    let e := Z.max (ilog2 (Qabs x) - 52) (-1074) in
    let ulp := Qpower 2 e in
    Qred (inject_Z (round_half_even (x / ulp)) * ulp).

(** No rounding: exact arithmetic. *)
Definition unrounded (x : Q) : Q := x.

(** [float(n)] for an integer below 2^53 in magnitude. *)
Definition float_of_int (n : Z) : float :=
  if (n <? 0)%Z then PrimFloat.opp (of_uint63 (Uint63.of_Z (- n)))
  else of_uint63 (Uint63.of_Z n).

(** [min(a, b)] on doubles: [a] unless [b < a]. *)
Definition fmin (a b : float) : float := if (b <? a)%float then b else a.

(** [s.lower()] on ASCII letters. *)
Definition lower_ascii (c : ascii) : ascii :=
  let n := nat_of_ascii c in
  if (65 <=? n)%nat && (n <=? 90)%nat then ascii_of_nat (n + 32) else c.

Fixpoint lower (s : string) : string :=
  match s with
  | EmptyString => EmptyString
  | String c s' => String (lower_ascii c) (lower s')
  end.

(** [s.startswith(p)]. *)
Definition startswith (s p : string) : bool := String.prefix p s.

(** [s.rfind(c)]: the last index of [c], or [-1]. *)
Fixpoint rfind_from (c : ascii) (s : string) (i last : Z) : Z :=
  match s with
  | EmptyString => last
  | String a s' =>
      rfind_from c s' (i + 1) (if Ascii.eqb a c then i else last)
  end.

Definition rfind (s : string) (c : ascii) : Z := rfind_from c s 0 (-1).

(** [s[i:j]] for [0 <= i]. *)
Definition slice (s : string) (i j : Z) : string :=
  String.substring (Z.to_nat i) (Z.to_nat (j - i)) s.

Fixpoint all_dots (s : string) : bool :=
  match s with
  | EmptyString => true
  | String c s' => Ascii.eqb c "."%char && all_dots s'
  end.

(** [os.path.splitext(p)[1]] (posixpath): the extension starts at the last
    dot, provided that dot comes after the last [/] and is preceded, within
    the file name, by a character that is not a dot. *)
Definition splitext_ext (p : string) : string :=
  let sepIndex := rfind p "/"%char in
  let dotIndex := rfind p "."%char in
  if (sepIndex <? dotIndex)%Z then
    if all_dots (slice p (sepIndex + 1) dotIndex) then EmptyString
    else slice p dotIndex (Z.of_nat (String.length p))
  else EmptyString.

(** [repr(xs)] of a list of plain strings: ['a', 'b']. *)
Definition repr_str (s : string) : string := ("'" ++ s ++ "'")%string.

Definition repr_list (xs : list string) : string :=
  ("[" ++ String.concat ", " (map repr_str xs) ++ "]")%string.

(** Exceptions: a call returns a value or raises; [str(e)] is kept. *)
Inductive Exc (A : Type) : Type :=
| Returned (a : A)
| Raised (e : string).
Arguments Returned {A} a.
Arguments Raised {A} e.

Definition bind {A B} (m : Exc A) (k : A -> Exc B) : Exc B :=
  match m with
  | Returned a => k a
  | Raised e => Raised e
  end.

(** [try: body / except Exception as e: handler(e)]. *)
Definition try_except {A} (body : Exc A) (handler : string -> Exc A) : Exc A :=
  match body with
  | Returned a => Returned a
  | Raised e => handler e
  end.

(** [try: body / finally: cleanup]: the cleanup always runs, and an
    exception it raises replaces the outcome of the body. *)
Definition try_finally {A} (body : Exc A) (cleanup : Exc unit) : Exc A :=
  match cleanup with
  | Returned _ => body
  | Raised e => Raised e
  end.

End Py.

Notation "x <- m ;; k" := (Py.bind m (fun x => k))
  (at level 61, m at next level, right associativity).

(** ** Audio analyzer *)

Module Audio.

(** An entry of [self.engine_fault_patterns]. *)
Record FaultInfo := {
  fi_frequency_range : Z * Z;
  fi_characteristics : list string;
  fi_severity : string;
  fi_urgency : string;
  fi_keywords : list string
}.

Definition engine_fault_patterns : list (string * FaultInfo) :=
  [ ("spark_plug_misfire",
     {| fi_frequency_range := (800, 2500)%Z;
        fi_characteristics := ["irregular"; "popping"; "intermittent"];
        fi_severity := "warning"; fi_urgency := "warning";
        fi_keywords := ["spark plug misfire"; "engine misfire repair";
                        "ignition system fix"] |});
    ("timing_chain_rattle",
     {| fi_frequency_range := (1200, 4000)%Z;
        fi_characteristics := ["metallic"; "startup_noise"; "chain_rattle"];
        fi_severity := "critical"; fi_urgency := "critical";
        fi_keywords := ["timing chain rattle"; "timing chain replacement";
                        "engine timing noise"] |});
    ("worn_engine_bearings",
     {| fi_frequency_range := (500, 2000)%Z;
        fi_characteristics := ["deep_knocking"; "load_dependent"; "metallic"];
        fi_severity := "critical"; fi_urgency := "critical";
        fi_keywords := ["engine bearing noise"; "rod bearing replacement";
                        "engine rebuild"] |});
    ("valve_lifter_noise",
     {| fi_frequency_range := (1000, 3000)%Z;
        fi_characteristics := ["ticking"; "rhythmic"; "top_end"];
        fi_severity := "warning"; fi_urgency := "warning";
        fi_keywords := ["valve lifter noise"; "hydraulic lifter repair";
                        "valve adjustment"] |});
    ("serpentine_belt_squeal",
     {| fi_frequency_range := (2000, 8000)%Z;
        fi_characteristics := ["high_pitched"; "continuous"; "belt_related"];
        fi_severity := "warning"; fi_urgency := "warning";
        fi_keywords := ["serpentine belt squeal"; "belt replacement";
                        "belt tensioner repair"] |});
    ("brake_pad_squeal",
     {| fi_frequency_range := (3000, 10000)%Z;
        fi_characteristics := ["very_high_pitched"; "braking_only"; "metallic"];
        fi_severity := "warning"; fi_urgency := "warning";
        fi_keywords := ["brake pad squeal"; "brake pad replacement";
                        "brake service"] |});
    ("cv_joint_clicking",
     {| fi_frequency_range := (1500, 5000)%Z;
        fi_characteristics := ["clicking"; "turning_only"; "rhythmic"];
        fi_severity := "warning"; fi_urgency := "warning";
        fi_keywords := ["CV joint clicking"; "CV joint replacement";
                        "axle repair"] |});
    ("exhaust_leak",
     {| fi_frequency_range := (100, 1000)%Z;
        fi_characteristics := ["hissing"; "continuous"; "exhaust_related"];
        fi_severity := "normal"; fi_urgency := "normal";
        fi_keywords := ["exhaust leak repair"; "muffler replacement";
                        "exhaust system fix"] |});
    ("turbo_whistle",
     {| fi_frequency_range := (4000, 12000)%Z;
        fi_characteristics := ["whistling"; "boost_dependent"; "high_pitched"];
        fi_severity := "warning"; fi_urgency := "warning";
        fi_keywords := ["turbo whistle"; "turbocharger repair";
                        "boost leak fix"] |});
    ("engine_knock",
     {| fi_frequency_range := (1000, 4000)%Z;
        fi_characteristics := ["knocking"; "load_dependent"; "metallic"];
        fi_severity := "critical"; fi_urgency := "critical";
        fi_keywords := ["engine knock repair"; "carbon cleaning";
                        "octane booster"] |}) ].

Definition supported_formats : list (string * list string) :=
  [ ("audio/wav", [".wav"]);
    ("audio/mpeg", [".mp3"]);
    ("audio/mp4", [".m4a"]);
    ("audio/x-m4a", [".m4a"]);
    ("audio/ogg", [".ogg"]);
    ("audio/flac", [".flac"]) ].

(** [validate_audio_format(content_type, filename)].  Both arguments come
    from the upload and may be [None]; [None.startswith] raises, and the
    [except] clause turns that into the last message. *)
Definition validate_audio_format
    (content_type filename : option string) : bool * string :=
  match content_type with
  | None => (false, "Audio format validation failed")
  | Some content_type =>
      if negb (Py.startswith content_type "audio/") then
        (false, "File must be an audio file")
      else if negb (Py.contains (map fst supported_formats) content_type) then
        let supported_types := map fst supported_formats in
        (false, ("Unsupported audio format. Supported formats: "
                   ++ Py.repr_list supported_types)%string)
      else
        match filename with
        | None | Some EmptyString => (true, "Valid audio format")
        | Some filename =>
            let file_ext := Py.splitext_ext (Py.lower filename) in
            let expected_extensions := Py.get supported_formats content_type [] in
            if negb (Py.contains expected_extensions file_ext) then
              (false, ("File extension " ++ file_ext
                         ++ " doesn't match content type " ++ content_type)%string)
            else (true, "Valid audio format")
        end
  end.

(** What a sub-analysis hands back: its result, or the
    [{"analysis_failed": True, ...}] dict of its [except] clause. *)
Inductive Analysis (A : Type) : Type :=
| Computed (a : A)
| AnalysisFailed (error : option string).
Arguments Computed {A} a.
Arguments AnalysisFailed {A} error.

(** The result of [_analyze_frequency_spectrum]. *)
Record FrequencyProfile := {
  dominant_frequency : Q;
  spectral_centroid : Q;
  spectral_rolloff : Q;
  spectral_bandwidth : Q;
  frequency_bands : list (string * Q);
  band_peaks : list (string * list Q);
  peak_frequencies : list Q;
  peak_magnitudes : list Q;
  dominant_band : string;
  frequency_spread : Q
}.

(** [frequency_analysis.get("dominant_frequency", 0)] and its siblings. *)
Definition get_dominant_frequency (fa : Analysis FrequencyProfile) : Q :=
  match fa with Computed p => dominant_frequency p | AnalysisFailed _ => 0 end.

Definition get_frequency_bands (fa : Analysis FrequencyProfile)
  : list (string * Q) :=
  match fa with Computed p => frequency_bands p | AnalysisFailed _ => [] end.

Definition get_peak_frequencies (fa : Analysis FrequencyProfile) : list Q :=
  match fa with Computed p => peak_frequencies p | AnalysisFailed _ => [] end.

(** An element of [sound_patterns]. *)
Record SoundPattern := {
  pattern_type : string;
  strength : Q;
  tempo : option Q;
  beat_count : option Z;
  duration_ratio : option Q;
  onset_count : option Z;
  pattern_characteristics : list string
}.

(** What [_detect_sound_patterns] measures before it applies its
    thresholds; each strength comes from a helper that returns [0.0] when
    it fails. *)
Record PatternFeatures := {
  pf_tempo : Q;
  pf_beat_count : Z;
  pf_onset_count : Z;
  rhythmic_strength : Q;
  continuity : Q;
  impulsiveness : Q;
  harmonic_strength : Q;
  noise_level : Q
}.

Definition plain_pattern (type : string) (s : Q) (chars : list string)
  : SoundPattern :=
  {| pattern_type := type; strength := s; tempo := None; beat_count := None;
     duration_ratio := None; onset_count := None;
     pattern_characteristics := chars |}.

(** [_detect_sound_patterns]; [Raised] stands for an exception in the
    feature computation, which the [except] clause turns into []. *)
Definition _detect_sound_patterns (features : Py.Exc PatternFeatures)
  : list SoundPattern :=
  match features with
  | Py.Raised _ => []
  | Py.Returned f =>
      let patterns := [] in
      let patterns :=
        if Py.ltb 0.4 (rhythmic_strength f) then
          patterns ++
          [ {| pattern_type := "rhythmic"; strength := rhythmic_strength f;
               tempo := Some (pf_tempo f);
               beat_count := Some (pf_beat_count f);
               duration_ratio := None; onset_count := None;
               pattern_characteristics :=
                 ["regular_intervals"; "engine_related"; "mechanical"] |} ]
        else patterns in
      let patterns :=
        if Py.ltb 0.6 (continuity f) then
          patterns ++
          [ {| pattern_type := "continuous"; strength := continuity f;
               tempo := None; beat_count := None;
               duration_ratio := Some (continuity f); onset_count := None;
               pattern_characteristics :=
                 ["sustained"; "mechanical"; "wear_related"] |} ]
        else patterns in
      let patterns :=
        if Py.ltb 0.3 (impulsiveness f) then
          patterns ++
          [ {| pattern_type := "impulsive"; strength := impulsiveness f;
               tempo := None; beat_count := None; duration_ratio := None;
               onset_count := Some (pf_onset_count f);
               pattern_characteristics :=
                 ["sudden"; "impact"; "combustion_related"] |} ]
        else patterns in
      let patterns :=
        if Py.ltb 0.3 (harmonic_strength f) then
          patterns ++
          [ plain_pattern "harmonic" (harmonic_strength f)
              ["tonal"; "engine_fundamental"; "rpm_related"] ]
        else patterns in
      let patterns :=
        if Py.ltb 0.5 (noise_level f) then
          patterns ++
          [ plain_pattern "noise" (noise_level f)
              ["random"; "wear_related"; "mechanical_stress"] ]
        else patterns in
      patterns
  end.

(** What an evidence string records (the f-string is built from these). *)
Inductive Evidence :=
| EvDominantFrequency (dominant_freq : Q) (fault_name : string)
| EvPeakFrequencies (matching_peaks : list Q) (fault_name : string)
| EvBandEnergy (message : string)
| EvPattern (label : string) (pattern_strength : Q).

(** An element of [detected_faults]. *)
Record Fault := {
  name : string;
  display_name : string;
  confidence : Q;
  severity : string;
  urgency : string;
  keywords : list string;
  evidence : list Evidence;
  frequency_range : Z * Z;
  characteristics : list string
}.

(** [fault_name.replace('_', ' ').title()] on ASCII. *)
Definition is_letter (c : ascii) : bool :=
  let n := nat_of_ascii c in
  ((65 <=? n)%nat && (n <=? 90)%nat) || ((97 <=? n)%nat && (n <=? 122)%nat).

Definition upper_ascii (c : ascii) : ascii :=
  let n := nat_of_ascii c in
  if (97 <=? n)%nat && (n <=? 122)%nat then ascii_of_nat (n - 32) else c.

Fixpoint replace_char (old new : ascii) (s : string) : string :=
  match s with
  | EmptyString => EmptyString
  | String c s' =>
      String (if Ascii.eqb c old then new else c) (replace_char old new s')
  end.

Fixpoint title_from (previous_is_cased : bool) (s : string) : string :=
  match s with
  | EmptyString => EmptyString
  | String c s' =>
      if is_letter c then
        String (if previous_is_cased then Py.lower_ascii c else upper_ascii c)
               (title_from true s')
      else String c (title_from false s')
  end.

Definition title (s : string) : string := title_from false s.

(** [freq_range[0] <= f <= freq_range[1]]. *)
Definition in_range (freq_range : Z * Z) (f : Q) : bool :=
  Qle_bool (inject_Z (fst freq_range)) f
  && Qle_bool f (inject_Z (snd freq_range)).

(** The two locals of the scoring loop: [confidence] and [evidence]. *)
Definition Score : Type := Q * list Evidence.

(** The scoring loop adds, multiplies and compares doubles, and whether a
    fault is reported can depend on the last bit of a sum.  So the
    arithmetic is written with the rounding [fl] that follows every
    operation: a literal [c] of the source is [fl c], a number [x] read
    from the analysis is [fl x] (which is [x] when [x] is a double), and
    [a + b] of the source is [fl (a + b)].  The rounding of the source is
    [Py.binary64]; [Py.unrounded] gives the same loop in exact
    arithmetic.  The numbers of the frequency analysis are Python floats
    ([float(...)] in [_analyze_frequency_spectrum]); the strength of a
    pattern is taken as a Python float as well. *)
Section Scoring.
Variable fl : Q -> Q.

(** [sum] of a list of doubles.  CPython adds them left to right, and from
    version 3.12 on it also compensates the rounding errors of the
    additions; the repository does not fix the interpreter, so the sum
    enters as the outcome of the call. *)
Variable float_sum : list Q -> Q.

(** 1. Frequency range matching: the dominant frequency. *)
Definition dominant_stage (fault_name : string) (freq_range : Z * Z)
    (dominant_freq : Q) (st : Score) : Score :=
  if in_range freq_range (fl dominant_freq) then
    (fl (fst st + fl 0.3),
     snd st ++ [EvDominantFrequency dominant_freq fault_name])
  else st.

(** ... and the peak frequencies. *)
Definition peak_stage (fault_name : string) (freq_range : Z * Z)
    (peak_frequencies : list Q) (st : Score) : Score :=
  let matching_peaks :=
    filter (fun f => in_range freq_range (fl f)) peak_frequencies in
  match matching_peaks with
  | [] => st
  | _ :: _ =>
      (fl (fst st
           + fl (fl 0.2 * Py.min (fl (Py.len matching_peaks / 3)) (fl 1.0))),
       snd st ++ [EvPeakFrequencies matching_peaks fault_name])
  end.

(** [sum(band_energies.values())]. *)
Definition sum_values (band_energies : list (string * Q)) : Q :=
  float_sum (map (fun entry => fl (snd entry)) band_energies).

(** 2. Frequency band energy analysis. *)
Definition band_stage (fault_name : string) (band_energies : list (string * Q))
    (st : Score) : Score :=
  let energy band := fl (Py.get band_energies band 0) in
  if Py.contains ["spark_plug_misfire"; "valve_lifter_noise"] fault_name then
    if Py.ltb (energy "bass") (energy "mid") then
      (fl (fst st + fl 0.2),
       snd st ++ [EvBandEnergy "Mid-frequency energy dominance"])
    else st
  else if Py.contains ["timing_chain_rattle"; "engine_knock"] fault_name then
    if Py.ltb (energy "sub_bass") (energy "high_mid") then
      (fl (fst st + fl 0.2),
       snd st ++ [EvBandEnergy "High-mid frequency energy dominance"])
    else st
  else if Py.contains ["serpentine_belt_squeal"; "brake_pad_squeal"] fault_name
  then
    if Py.ltb (fl (sum_values band_energies * fl 0.3)) (energy "presence") then
      (fl (fst st + fl 0.3),
       snd st ++ [EvBandEnergy "High-frequency energy dominance"])
    else st
  else if Py.contains ["worn_engine_bearings"; "exhaust_leak"] fault_name then
    if Py.ltb (energy "presence") (energy "bass") then
      (fl (fst st + fl 0.2),
       snd st ++ [EvBandEnergy "Low-frequency energy dominance"])
    else st
  else st.

(** 3. Sound pattern matching: the body of [for pattern in sound_patterns]. *)
Definition pattern_step (fault_name : string) (st : Score)
    (pattern : SoundPattern) : Score :=
  let pattern_type := pattern_type pattern in
  let pattern_strength := fl (strength pattern) in
  if Py.contains ["spark_plug_misfire"] fault_name
     && String.eqb pattern_type "impulsive" then
    (fl (fst st + fl (pattern_strength * fl 0.3)),
     snd st ++ [EvPattern "Impulsive" pattern_strength])
  else if Py.contains ["timing_chain_rattle"; "valve_lifter_noise";
                       "cv_joint_clicking"] fault_name
          && String.eqb pattern_type "rhythmic" then
    (fl (fst st + fl (pattern_strength * fl 0.3)),
     snd st ++ [EvPattern "Rhythmic" pattern_strength])
  else if Py.contains ["serpentine_belt_squeal"; "brake_pad_squeal";
                       "turbo_whistle"] fault_name
          && String.eqb pattern_type "continuous" then
    (fl (fst st + fl (pattern_strength * fl 0.3)),
     snd st ++ [EvPattern "Continuous" pattern_strength])
  else if Py.contains ["worn_engine_bearings"; "engine_knock"] fault_name
          && String.eqb pattern_type "noise" then
    (fl (fst st + fl (pattern_strength * fl 0.2)),
     snd st ++ [EvPattern "Noise" pattern_strength])
  else st.

Definition pattern_stage (fault_name : string)
    (sound_patterns : list SoundPattern) (st : Score) : Score :=
  fold_left (pattern_step fault_name) sound_patterns st.

(** The body of [for fault_name, fault_info in ...items()] up to the
    threshold test: [confidence] and [evidence] as accumulated. *)
Definition accumulate (fault_name : string) (fault_info : FaultInfo)
    (dominant_freq : Q) (band_energies : list (string * Q))
    (peak_frequencies : list Q) (sound_patterns : list SoundPattern) : Score :=
  let freq_range := fi_frequency_range fault_info in
  let st : Score := (0.0, []) in
  let st := dominant_stage fault_name freq_range dominant_freq st in
  let st := peak_stage fault_name freq_range peak_frequencies st in
  let st := band_stage fault_name band_energies st in
  pattern_stage fault_name sound_patterns st.

(** "Add fault if confidence is sufficient". *)
Definition add_fault (fault_name : string) (fault_info : FaultInfo)
    (st : Score) (detected_faults : list Fault) : list Fault :=
  if Py.ltb (fl 0.4) (fst st) then
    detected_faults ++
    [ {| name := fault_name;
         display_name := title (replace_char "_" " " fault_name);
         confidence := Py.min (fst st) (fl 1.0);
         severity := fi_severity fault_info;
         urgency := fi_urgency fault_info;
         keywords := fi_keywords fault_info;
         evidence := snd st;
         frequency_range := fi_frequency_range fault_info;
         characteristics := fi_characteristics fault_info |} ]
  else detected_faults.

(** The faults in table order, before the final sort. *)
Definition unsorted_faults (frequency_analysis : Analysis FrequencyProfile)
    (sound_patterns : list SoundPattern) : list Fault :=
  let dominant_freq := get_dominant_frequency frequency_analysis in
  let band_energies := get_frequency_bands frequency_analysis in
  let peak_frequencies := get_peak_frequencies frequency_analysis in
  fold_left
    (fun detected_faults entry =>
       let '(fault_name, fault_info) := entry in
       add_fault fault_name fault_info
         (accumulate fault_name fault_info dominant_freq band_energies
            peak_frequencies sound_patterns)
         detected_faults)
    engine_fault_patterns [].

End Scoring.

(** [_detect_engine_faults] (its [y] and [sr] arguments are not used), in
    the arithmetic of the source, with the [sum] of the interpreter. *)
Definition _detect_engine_faults (builtin_sum : list Q -> Q)
    (frequency_analysis : Analysis FrequencyProfile)
    (sound_patterns : list SoundPattern) : list Fault :=
  Py.sort_desc confidence
    (unsorted_faults Py.binary64 builtin_sum frequency_analysis
       sound_patterns).

(** [for fault in detected_faults: if fault.get('urgency') == u: return ...] *)
Fixpoint has_urgency (u : string) (detected_faults : list Fault) : bool :=
  match detected_faults with
  | [] => false
  | fault :: rest =>
      if String.eqb (urgency fault) u then true else has_urgency u rest
  end.

Definition _determine_urgency_level (detected_faults : list Fault) : string :=
  match detected_faults with
  | [] => "normal"
  | _ =>
      if has_urgency "critical" detected_faults then "critical"
      else if has_urgency "warning" detected_faults then "warning"
      else "normal"
  end.

(** The result of [_analyze_audio_quality]: [score], [rating] and [issues]
    are keys of every variant; the measurements are missing from the
    [except] variant and from a failed analysis. *)
Record QualityDetails := {
  snr_db : Q;
  dynamic_range_db : Q;
  clipping_ratio : Q;
  silence_ratio : Q;
  quality_duration_seconds : Q;
  quality_sample_rate : Z
}.

Record AudioQuality := {
  score : Q;
  rating : string;
  issues : list string;
  recommendations : option (list string);
  quality_details : option QualityDetails
}.

(** The two logarithmic measurements of [_analyze_audio_quality]: [snr]
    (which is the literal 50 when the noise floor is zero) and
    [dynamic_range], both in decibels. *)
Record QualityMeasurements := {
  measured_snr : Q;
  measured_dynamic_range : Q
}.

(** [np.sum(test(y)) / len(y)]. *)
Definition ratio_where (test : Q -> bool) (y : list Q) : Q :=
  Py.len (filter test y) / Py.len y.

Definition _get_quality_recommendations (quality_score : Q)
    (issues : list string) : list string :=
  let recommendations := [] in
  let recommendations :=
    if Py.ltb quality_score 0.5 then
      recommendations ++ ["Consider re-recording in a quieter environment"]
    else recommendations in
  let recommendations :=
    if Py.contains issues "High background noise" then
      recommendations ++ ["Record closer to engine with less background noise"]
    else recommendations in
  let recommendations :=
    if Py.contains issues "Audio clipping detected" then
      recommendations ++ ["Reduce recording volume to avoid distortion"]
    else recommendations in
  let recommendations :=
    if Py.contains issues "Recording too short for reliable analysis" then
      recommendations
      ++ ["Record for at least 5-10 seconds for better analysis"]
    else recommendations in
  let recommendations :=
    if Py.contains issues "Too much silence in recording" then
      recommendations ++ ["Ensure engine is running during recording"]
    else recommendations in
  recommendations.

(** [_analyze_audio_quality]; [Raised] stands for an exception of the
    measurements, which the [except] clause turns into its fixed result. *)
Definition _analyze_audio_quality (measured : Py.Exc QualityMeasurements)
    (y : list Q) (sr : Z) : AudioQuality :=
  match measured with
  | Py.Raised _ =>
      {| score := 0.3; rating := "poor";
         issues := ["Quality analysis failed"];
         recommendations := Some ["Re-record audio in quieter environment"];
         quality_details := None |}
  | Py.Returned m =>
      let snr := measured_snr m in
      let dynamic_range := measured_dynamic_range m in
      let clipping_ratio' := ratio_where (fun s => Py.ltb 0.95 (Qabs s)) y in
      let silence_threshold := 0.01 in
      let silence_ratio' :=
        ratio_where (fun s => Py.ltb (Qabs s) silence_threshold) y in
      let quality_score :=
        Py.min (snr / 30) 1.0 * 0.3
        + Py.min (dynamic_range / 40) 1.0 * 0.3
        + (1.0 - clipping_ratio') * 0.2
        + (1.0 - silence_ratio') * 0.2 in
      let issues' := [] in
      let issues' :=
        if Py.ltb snr 15 then issues' ++ ["High background noise"]
        else issues' in
      let issues' :=
        if Py.ltb dynamic_range 15 then issues' ++ ["Low dynamic range"]
        else issues' in
      let issues' :=
        if Py.ltb 0.01 clipping_ratio' then
          issues' ++ ["Audio clipping detected"]
        else issues' in
      let issues' :=
        if Py.ltb 0.5 silence_ratio' then
          issues' ++ ["Too much silence in recording"]
        else issues' in
      let issues' :=
        if Py.ltb (Py.len y / inject_Z sr) 3 then
          issues' ++ ["Recording too short for reliable analysis"]
        else issues' in
      let quality_rating :=
        if Py.ltb 0.8 quality_score then "excellent"
        else if Py.ltb 0.6 quality_score then "good"
        else if Py.ltb 0.4 quality_score then "fair"
        else "poor" in
      {| score := Py.round quality_score 3;
         rating := quality_rating;
         issues := issues';
         recommendations :=
           Some (_get_quality_recommendations quality_score issues');
         quality_details :=
           Some {| snr_db := Py.round snr 1;
                   dynamic_range_db := Py.round dynamic_range 1;
                   clipping_ratio := Py.round clipping_ratio' 4;
                   silence_ratio := Py.round silence_ratio' 3;
                   quality_duration_seconds :=
                     Py.round (Py.len y / inject_Z sr) 2;
                   quality_sample_rate := sr |} |}
  end.

Record DecibelAnalysis := {
  max_db : Q;
  min_db : Q;
  mean_db : Q;
  std_db : Q;
  decibel_dynamic_range_db : Q;
  volume_category : string;
  rms_values : list Q
}.

Record AnomalyRegion := {
  start_time : Q;
  duration : Q;
  end_time : Q
}.

Record AnomalyAnalysis := {
  anomaly_percentage : Q;
  anomaly_count : Z;
  avg_anomaly_duration : Q;
  max_anomaly_duration : Q;
  total_anomaly_time : Q;
  anomaly_regions : list AnomalyRegion
}.

(** [_calculate_enhanced_confidence].  Every [audio_quality] has a [score],
    every fault a [confidence] and a [severity], every pattern a
    [strength], so the defaults of [.get] are only met for a failed
    frequency analysis. *)
Definition _calculate_enhanced_confidence (detected_faults : list Fault)
    (audio_quality : AudioQuality)
    (frequency_analysis : Analysis FrequencyProfile)
    (sound_patterns : list SoundPattern) : Q :=
  let confidence' := 0.0 in
  let quality_score := score audio_quality in
  let confidence' := confidence' + quality_score * 0.3 in
  let confidence' :=
    match detected_faults with
    | _ :: _ =>
        let fault_confidence :=
          fold_left
            (fun fault_confidence fault =>
               let fault_conf := confidence fault in
               let severity_weight :=
                 if String.eqb (severity fault) "critical" then 1.0 else 0.8 in
               fault_confidence + fault_conf * severity_weight)
            detected_faults 0 in
        let avg_fault_confidence := fault_confidence / Py.len detected_faults in
        confidence' + avg_fault_confidence * 0.4
    | [] => confidence' + 0.2
    end in
  let confidence' :=
    if Py.ltb 0 (get_dominant_frequency frequency_analysis) then
      confidence' + 0.2
    else confidence' in
  let confidence' :=
    match sound_patterns with
    | _ :: _ =>
        let pattern_confidence := Py.mean (map strength sound_patterns) in
        confidence' + pattern_confidence * 0.1
    | [] => confidence'
    end in
  Py.min confidence' 1.0.

(** [analysis_metadata]: the keys differ between the two variants. *)
Record AnalysisMetadata := {
  duration_seconds : option Q;
  sample_rate : option Z;
  total_faults_detected : option nat;
  processing_successful : bool;
  analysis_timestamp : option Q;
  error : option string
}.

(** The dict returned by [analyze_engine_sound]; [analysis_failed] and
    [error_message] are keys of the failure variant only. *)
Record AudioAnalysisResult := {
  analysis_successful : bool;
  analysis_failed : option bool;
  error_message : option string;
  detected_sounds : list string;
  detected_faults : list Fault;
  sound_patterns : list SoundPattern;
  frequency_analysis : Analysis FrequencyProfile;
  decibel_analysis : Analysis DecibelAnalysis;
  anomaly_analysis : Analysis AnomalyAnalysis;
  audio_quality : AudioQuality;
  overall_confidence : Q;
  urgency_level : string;
  repair_keywords : list string;
  analysis_metadata : AnalysisMetadata
}.

Definition _create_failed_analysis (error_message : string)
  : AudioAnalysisResult :=
  {| analysis_successful := false;
     analysis_failed := Some true;
     error_message := Some error_message;
     detected_sounds := [];
     detected_faults := [];
     sound_patterns := [];
     frequency_analysis := AnalysisFailed None;
     decibel_analysis := AnalysisFailed None;
     anomaly_analysis := AnalysisFailed None;
     audio_quality :=
       {| score := 0.0; rating := "failed"; issues := [error_message];
          recommendations := None; quality_details := None |};
     overall_confidence := 0.0;
     urgency_level := "normal";
     repair_keywords := ["audio analysis failed"; "re-record audio"];
     analysis_metadata :=
       {| duration_seconds := None; sample_rate := None;
          total_faults_detected := None; processing_successful := false;
          analysis_timestamp := None; error := Some error_message |} |}.

(** What the analyzer calls outside itself: the temporary file, librosa's
    loader, the signal measurements of the sub-analyses (each of which
    catches its own exceptions), the iteration order of a [set], the [sum]
    of a list of doubles, and the clock of the event loop. *)
Record World := {
  write_temp_file : list byte -> Py.Exc string;
  librosa_load : string -> list byte -> Py.Exc (list Q);
  remove_temp_file : string -> Py.Exc unit;
  quality_measurements : list Q -> Z -> Py.Exc QualityMeasurements;
  _analyze_frequency_spectrum : list Q -> Z -> Analysis FrequencyProfile;
  pattern_features : list Q -> Z -> Py.Exc PatternFeatures;
  _analyze_decibel_levels : list Q -> Z -> Analysis DecibelAnalysis;
  _analyze_anomaly_duration : list Q -> Z -> Analysis AnomalyAnalysis;
  list_of_set : list string -> list string;
  builtin_sum : list Q -> Q;
  loop_time : Q
}.

(** [_extract_repair_keywords]: [list(set(keywords))[:8]]. *)
Definition _extract_repair_keywords (w : World) (detected_faults : list Fault)
  : list string :=
  let keywords' :=
    fold_left (fun keywords' fault => keywords' ++ keywords fault)
      detected_faults [] in
  firstn 8 (list_of_set w keywords').

(** [analyze_engine_sound]; librosa resamples to the rate it is asked for,
    so [sr] is 22050. *)
Definition analyze_engine_sound (w : World) (audio_data : list byte)
  : Py.Exc AudioAnalysisResult :=
  Py.try_except
    (temp_file_path <- write_temp_file w audio_data ;;
     Py.try_finally
       (match librosa_load w temp_file_path audio_data with
        | Py.Raised _ =>
            Py.Returned
              (_create_failed_analysis
                 "Audio file could not be loaded or is corrupted")
        | Py.Returned y =>
            let sr := 22050%Z in
            if (List.length y =? 0)%nat then
              Py.Returned (_create_failed_analysis "Audio file is empty")
            else
              let audio_quality :=
                _analyze_audio_quality (quality_measurements w y sr) y sr in
              let frequency_analysis := _analyze_frequency_spectrum w y sr in
              let sound_patterns :=
                _detect_sound_patterns (pattern_features w y sr) in
              let detected_faults :=
                _detect_engine_faults (builtin_sum w) frequency_analysis
                  sound_patterns in
              let decibel_analysis := _analyze_decibel_levels w y sr in
              let anomaly_analysis := _analyze_anomaly_duration w y sr in
              let overall_confidence :=
                _calculate_enhanced_confidence detected_faults audio_quality
                  frequency_analysis sound_patterns in
              let urgency_level := _determine_urgency_level detected_faults in
              Py.Returned
                {| analysis_successful := true;
                   analysis_failed := None;
                   error_message := None;
                   detected_sounds := map name detected_faults;
                   detected_faults := detected_faults;
                   sound_patterns := sound_patterns;
                   frequency_analysis := frequency_analysis;
                   decibel_analysis := decibel_analysis;
                   anomaly_analysis := anomaly_analysis;
                   audio_quality := audio_quality;
                   overall_confidence := overall_confidence;
                   urgency_level := urgency_level;
                   repair_keywords :=
                     _extract_repair_keywords w detected_faults;
                   analysis_metadata :=
                     {| duration_seconds :=
                          Some (Py.round (Py.len y / inject_Z sr) 2);
                        sample_rate := Some sr;
                        total_faults_detected :=
                          Some (List.length detected_faults);
                        processing_successful := true;
                        analysis_timestamp := Some (loop_time w);
                        error := None |} |}
        end)
       (remove_temp_file w temp_file_path))
    (fun e =>
       Py.Returned (_create_failed_analysis ("Analysis failed: " ++ e)%string)).

(** *** The engine-sound route of [routers/diagnosis.py], up to the point
    where the analysis is handed to the narration service. *)

Inductive Call :=
| VerifyUser
| ValidateAudioFormat
| ReadAudio
| UploadEngineSound
| AnalyzeEngineSound.

Inductive Outcome :=
| HTTPException (status_code : Z) (detail : string)
| Analysed (audio_analysis : AudioAnalysisResult).

Record Request := {
  verify_user_id : string -> bool;
  content_type : option string;
  filename : option string;
  read : Py.Exc (list byte);
  upload_engine_sound : list byte -> Py.Exc unit
}.

(** The route returns what it answers (or goes on with), and the calls it
    made to get there, in order. *)
Definition diagnose_engine_sound (w : World) (audio : Request)
    (user_id : string) : Outcome * list Call :=
  let failed e :=
    HTTPException 500 ("Engine sound diagnosis failed: " ++ e)%string in
  if negb (verify_user_id audio user_id) then
    (HTTPException 404 "User not found", [VerifyUser])
  else
    let '(is_valid, validation_message) :=
      validate_audio_format (content_type audio) (filename audio) in
    if negb is_valid then
      (HTTPException 400 validation_message, [VerifyUser; ValidateAudioFormat])
    else
      match read audio with
      | Py.Raised e => (failed e, [VerifyUser; ValidateAudioFormat; ReadAudio])
      | Py.Returned audio_data =>
          match upload_engine_sound audio audio_data with
          | Py.Raised e =>
              (failed e,
               [VerifyUser; ValidateAudioFormat; ReadAudio; UploadEngineSound])
          | Py.Returned _ =>
              let calls := [VerifyUser; ValidateAudioFormat; ReadAudio;
                            UploadEngineSound; AnalyzeEngineSound] in
              match analyze_engine_sound w audio_data with
              | Py.Raised e => (failed e, calls)
              | Py.Returned audio_analysis =>
                  match analysis_failed audio_analysis with
                  | Some true =>
                      let message :=
                        match error_message audio_analysis with
                        | Some m => m
                        | None => "Unknown error"
                        end in
                      (HTTPException 400
                         ("Audio analysis failed: " ++ message)%string, calls)
                  | _ => (Analysed audio_analysis, calls)
                  end
              end
          end
      end.

(** The next two steps of the route: the narration of the analysis,
    [gemini_analysis = await gemini_service.analyze_engine_sound(audio_analysis)],
    of which only the key "repair_keywords" matters here ([None] when the
    key is missing), and [search_keywords], the argument of
    [youtube_service.search_tutorials].  The result is [None] when the route
    does not come to the search: it has answered before, or the narration
    raised. *)
Definition search_keywords
    (gemini_repair_keywords :
       AudioAnalysisResult -> Py.Exc (option (list string)))
    (w : World) (audio : Request) (user_id : string)
  : option (list string) :=
  match fst (diagnose_engine_sound w audio user_id) with
  | HTTPException _ _ => None
  | Analysed audio_analysis =>
      match gemini_repair_keywords audio_analysis with
      | Py.Raised _ => None
      | Py.Returned (Some keywords) => Some keywords
      | Py.Returned None => Some ["engine diagnostic repair"]
      end
  end.

End Audio.

(** ** Image analyzer *)

Module Image.

(** [self.color_ranges]: HSV bounds per colour, in declaration order. *)
Definition color_ranges : list (string * list (Z * Z * Z)) :=
  [ ("red", [ (0, 50, 50); (10, 255, 255); (170, 50, 50); (180, 255, 255) ]);
    ("yellow", [ (20, 50, 50); (30, 255, 255) ]);
    ("orange", [ (10, 50, 50); (20, 255, 255) ]);
    ("green", [ (40, 50, 50); (80, 255, 255) ]);
    ("blue", [ (100, 50, 50); (130, 255, 255) ]);
    ("amber", [ (15, 50, 50); (25, 255, 255) ]) ]%Z.

(** A decoded image: rows of BGR pixels. *)
Definition Image : Type := list (list (Z * Z * Z)).

(** What OpenCV measures on one contour of a colour mask:
    [cv2.contourArea], [cv2.boundingRect] as [(x, y, w, h)], and
    [np.mean(roi[:, :, 2]) / 255.0]. *)
Record Contour := {
  contour_area : float;
  bounding_rect : Z * Z * Z * Z;
  roi_brightness : float
}.

(** An element of [detected_lights]. *)
Record Light := {
  color : string;
  position : Z * Z;
  bounding_box : Z * Z * Z * Z;
  area : Z;
  aspect_ratio : Q;
  brightness : Q;
  confidence : Q;
  severity : string
}.

Definition _calculate_light_confidence (area aspect_ratio brightness : float)
  : float :=
  (let confidence' := 0.0 in
   let confidence' :=
     if (50 <? area) && (area <? 500) then confidence' + 0.4
     else if (20 <? area) && (area <? 1000) then confidence' + 0.2
     else confidence' in
   let confidence' :=
     if (0.5 <? aspect_ratio) && (aspect_ratio <? 2.0) then confidence' + 0.3
     else if (0.3 <? aspect_ratio) && (aspect_ratio <? 3.0) then
       confidence' + 0.1
     else confidence' in
   let confidence' :=
     if 0.6 <? brightness then confidence' + 0.3
     else if 0.4 <? brightness then confidence' + 0.2
     else if 0.2 <? brightness then confidence' + 0.1
     else confidence' in
   Py.fmin confidence' 1.0)%float.

Definition severity_map : list (string * string) :=
  [ ("red", "critical");
    ("orange", "high");
    ("amber", "high");
    ("yellow", "medium");
    ("blue", "low");
    ("green", "low") ].

Definition _map_color_to_severity (color : string) : string :=
  Py.get severity_map color "medium".

(** The body of [for contour in contours] in [_detect_color_lights].  The
    numbers of a light are rounded, and kept as the decimals they are
    rounded to. *)
Definition contour_step (color_name : string) (lights : list Light)
    (contour : Contour) : list Light :=
  let area' := contour_area contour in
  if ((20 <? area') && (area' <? 2000))%float then
    let '(x, y, w, h) := bounding_rect contour in
    let aspect_ratio' :=
      if (0 <? h)%Z then (Py.float_of_int w / Py.float_of_int h)%float
      else 0%float in
    let center_x := (x + w / 2)%Z in
    let center_y := (y + h / 2)%Z in
    let brightness' := roi_brightness contour in
    let confidence' :=
      _calculate_light_confidence area' aspect_ratio' brightness' in
    if (0.3 <? confidence')%float then
      lights ++
      [ {| color := color_name;
           position := (center_x, center_y);
           bounding_box := (x, y, w, h);
           area := Py.int (Py.exact area');
           aspect_ratio := Py.round (Py.exact aspect_ratio') 2;
           brightness := Py.round (Py.exact brightness') 2;
           confidence := Py.round (Py.exact confidence') 2;
           severity := _map_color_to_severity color_name |} ]
    else lights
  else lights.

(** [_detect_color_lights]; [Raised] stands for an exception of the mask or
    contour extraction, which the [except] clause turns into []. *)
Definition _detect_color_lights (color_name : string)
    (contours : Py.Exc (list Contour)) : list Light :=
  match contours with
  | Py.Raised _ => []
  | Py.Returned contours => fold_left (contour_step color_name) contours []
  end.

(** [np.sqrt(dx**2 + dy**2) < 30] on integer centres.  The square root of
    an integer is below 30 exactly when the integer is below 900. *)
Definition closer_than_30 (light existing_light : Light) : bool :=
  let '(x1, y1) := position light in
  let '(x2, y2) := position existing_light in
  ((x1 - x2) * (x1 - x2) + (y1 - y2) * (y1 - y2) <? 900)%Z.

(** [for existing_light in filtered_lights: ... is_duplicate = True; break]. *)
Fixpoint is_duplicate (light : Light) (filtered_lights : list Light) : bool :=
  match filtered_lights with
  | [] => false
  | existing_light :: rest =>
      if closer_than_30 light existing_light then true
      else is_duplicate light rest
  end.

(** The body of [for light in lights] in [_remove_overlapping_lights]. *)
Definition keep_step (filtered_lights : list Light) (light : Light)
  : list Light :=
  if is_duplicate light filtered_lights then filtered_lights
  else filtered_lights ++ [light].

Definition _remove_overlapping_lights (lights : list Light) : list Light :=
  if (List.length lights <=? 1)%nat then lights
  else
    let lights := Py.sort_desc confidence lights in
    fold_left keep_step lights [].

(** The result of [_analyze_image_quality]; the measurements are missing
    from the [except] variant and from a failed analysis. *)
Record QualityDetails := {
  sharpness : Q;
  quality_brightness : Q;
  contrast : Q
}.

Record ImageQuality := {
  score : Q;
  issues : list string;
  quality_details : option QualityDetails
}.

Definition _calculate_overall_confidence (detected_lights : list Light)
    (dashboard_detected : bool) (image_quality : ImageQuality) : Q :=
  let confidence' := 0.0 in
  let confidence' :=
    if dashboard_detected then confidence' + 0.3 else confidence' in
  let quality_score := score image_quality in
  let confidence' := confidence' + quality_score * 0.3 in
  let confidence' :=
    match detected_lights with
    | _ :: _ =>
        let avg_light_confidence := Py.mean (map confidence detected_lights) in
        confidence' + avg_light_confidence * 0.4
    | [] => confidence' + 0.2
    end in
  Py.min confidence' 1.0.

Record AnalysisMetadata := {
  image_dimensions : option (nat * nat);
  total_lights_found : option nat;
  processing_successful : bool;
  error : option string
}.

(** The dict returned by [analyze_dashboard_image]. *)
Record ImageAnalysisResult := {
  dashboard_detected : bool;
  detected_lights : list Light;
  image_quality : ImageQuality;
  overall_confidence : Q;
  analysis_metadata : AnalysisMetadata
}.

(** What the analyzer calls outside itself: the decoder ([np.frombuffer]
    and [cv2.imdecode], which returns [None] for a buffer it cannot
    decode), the dashboard heuristic and the quality measurement (each of
    which catches its own exceptions), the HSV conversion and, per colour,
    the contours of the mask. *)
Record World := {
  imdecode : list byte -> Py.Exc (option Image);
  _detect_dashboard_area : Image -> bool;
  find_contours : Image -> Py.Exc (string -> Py.Exc (list Contour));
  _analyze_image_quality : Image -> ImageQuality
}.

Definition _detect_warning_lights (w : World) (image : Image) : list Light :=
  match find_contours w image with
  | Py.Raised _ => []
  | Py.Returned contours_of =>
      let detected_lights :=
        fold_left
          (fun detected_lights entry =>
             let '(color_name, ranges) := entry in
             let lights :=
               _detect_color_lights color_name (contours_of color_name) in
             detected_lights ++ lights)
          color_ranges [] in
      let detected_lights := _remove_overlapping_lights detected_lights in
      Py.sort_desc confidence detected_lights
  end.

Definition failed_analysis (e : string) : ImageAnalysisResult :=
  {| dashboard_detected := false;
     detected_lights := [];
     image_quality :=
       {| score := 0.5; issues := ["Analysis failed"];
          quality_details := None |};
     overall_confidence := 0.3;
     analysis_metadata :=
       {| image_dimensions := None; total_lights_found := None;
          processing_successful := false; error := Some e |} |}.

Definition analyze_dashboard_image (w : World) (image_data : list byte)
  : Py.Exc ImageAnalysisResult :=
  Py.try_except
    (image <- imdecode w image_data ;;
     match image with
     | None => Py.Raised "Could not decode image"
     | Some image =>
         let dashboard_detected := _detect_dashboard_area w image in
         let detected_lights := _detect_warning_lights w image in
         let image_quality := _analyze_image_quality w image in
         let overall_confidence :=
           _calculate_overall_confidence detected_lights dashboard_detected
             image_quality in
         Py.Returned
           {| dashboard_detected := dashboard_detected;
              detected_lights := detected_lights;
              image_quality := image_quality;
              overall_confidence := overall_confidence;
              analysis_metadata :=
                {| image_dimensions :=
                     Some (List.length (hd [] image), List.length image);
                   total_lights_found := Some (List.length detected_lights);
                   processing_successful := true;
                   error := None |} |}
     end)
    (fun e => Py.Returned (failed_analysis e)).

End Image.

(** ** Audio analyzer: the anomalous regions of a recording *)

Module AudioFeatures.
Import Audio.

Definition hop_length : Z := 512.

(** [n / sr] for two integers, [sr] positive: the double nearest to the
    quotient. *)
Definition frames_over_rate (n sr : Z) : Q :=
  Py.binary64 (inject_Z n / inject_Z sr).

(** [enumerate(xs)]. *)
Fixpoint enumerate_from {A} (i : Z) (xs : list A) : list (Z * A) :=
  match xs with
  | [] => []
  | x :: rest => (i, x) :: enumerate_from (i + 1) rest
  end.

Definition enumerate {A} (xs : list A) : list (Z * A) := enumerate_from 0 xs.

(** The locals of the region loop of [_analyze_anomaly_duration]. *)
Record RegionLoop := {
  regions : list AnomalyRegion;
  in_anomaly : bool;
  start_frame : Z
}.

(** The body of [for i, is_anomalous in enumerate(anomalous_frames)]. *)
Definition region_step (sr : Z) (st : RegionLoop) (entry : Z * bool)
  : RegionLoop :=
  let '(i, is_anomalous) := entry in
  if is_anomalous && negb (in_anomaly st) then
    {| regions := regions st; in_anomaly := true; start_frame := i |}
  else if negb is_anomalous && in_anomaly st then
    let duration' := frames_over_rate ((i - start_frame st) * hop_length) sr in
    {| regions :=
         regions st ++
         [ {| start_time := frames_over_rate (start_frame st * hop_length) sr;
              duration := duration';
              end_time := frames_over_rate (i * hop_length) sr |} ];
       in_anomaly := false;
       start_frame := start_frame st |}
  else st.

(** The loop, and "Handle case where anomaly continues to end". *)
Definition find_anomaly_regions (y : list Q) (sr : Z)
    (anomalous_frames : list bool) : list AnomalyRegion :=
  let st :=
    fold_left (region_step sr) (enumerate anomalous_frames)
      {| regions := []; in_anomaly := false; start_frame := 0 |} in
  if in_anomaly st then
    let duration' :=
      frames_over_rate
        ((Z.of_nat (List.length anomalous_frames) - start_frame st)
         * hop_length) sr in
    regions st ++
    [ {| start_time := frames_over_rate (start_frame st * hop_length) sr;
         duration := duration';
         end_time := frames_over_rate (Z.of_nat (List.length y)) sr |} ]
  else regions st.

End AudioFeatures.

(** ** Python values, as the routes and the narration service pass them *)

Module Obj.

(** The entries of a numpy array of booleans or numbers. *)
Inductive Scalar :=
| SBool (b : bool)
| SInt (z : Z)
| SFloat (q : Q).

(** An array of any number of dimensions; [NdItem] is an array of
    dimension zero. *)
Inductive NdArray :=
| NdItem (x : Scalar)
| NdAxis (rows : list NdArray).

(** The values met in an analysis: what [json.loads] produces, tuples, and
    numpy's scalars and arrays.  A [dict] has strings as keys and keeps
    the order of insertion. *)
Inductive Value :=
| VNone
| VBool (b : bool)
| VInt (z : Z)
| VFloat (q : Q)
| VStr (s : string)
| VList (items : list Value)
| VTuple (items : list Value)
| VDict (entries : list (string * Value))
| NpBool (b : bool)
| NpInteger (z : Z)
| NpFloating (q : Q)
| VArray (a : NdArray).

(** [a.tolist()]: nested lists of Python scalars. *)
Fixpoint tolist (a : NdArray) : Value :=
  match a with
  | NdItem (SBool b) => VBool b
  | NdItem (SInt z) => VInt z
  | NdItem (SFloat q) => VFloat q
  | NdAxis rows => VList (map tolist rows)
  end.

(** [d.get(k)] and [k in d]. *)
Fixpoint lookup (entries : list (string * Value)) (k : string)
  : option Value :=
  match entries with
  | [] => None
  | (k', v) :: rest => if String.eqb k' k then Some v else lookup rest k
  end.

(** [d[k] = v]: an existing key keeps its place, a new key goes last. *)
Fixpoint assign (entries : list (string * Value)) (k : string) (v : Value)
  : list (string * Value) :=
  match entries with
  | [] => [(k, v)]
  | (k', v') :: rest =>
      if String.eqb k' k then (k, v) :: rest
      else (k', v') :: assign rest k v
  end.

(** [bool(v)], as [if v] and [not v] take it. *)
Definition truthy (v : Value) : bool :=
  match v with
  | VNone => false
  | VBool b | NpBool b => b
  | VInt z | NpInteger z => negb (z =? 0)%Z
  | VFloat q | NpFloating q => negb (Qeq_bool q 0)
  | VStr s => negb (String.eqb s EmptyString)
  | VList items | VTuple items =>
      match items with [] => false | _ => true end
  | VDict entries => match entries with [] => false | _ => true end
  | VArray _ => true
  end.

(** A value as the number it compares as, if it is one: [True] is 1. *)
Definition number (v : Value) : option Q :=
  match v with
  | VBool b | NpBool b => Some (if b then 1 else 0)
  | VInt z | NpInteger z => Some (inject_Z z)
  | VFloat q | NpFloating q => Some q
  | _ => None
  end.

(** A list of strings as a value. *)
Definition strings (xs : list string) : Value := VList (map VStr xs).

(** [v == [s]] for a string [s]: only a list of that one string is equal
    to it. *)
Definition is_the_list_of (v : Value) (s : string) : bool :=
  match v with
  | VList [VStr s'] => String.eqb s' s
  | _ => false
  end.

End Obj.

(** ** The narration service: [services/gemini_service.py] *)

Module Gemini.
Import Obj.

(** [d.get(k)]: [None] for a missing key. *)
Definition get (entries : list (string * Value)) (k : string) : Value :=
  match lookup entries k with
  | Some v => v
  | None => VNone
  end.

(** ["confidence_score" not in analysis or
     analysis["confidence_score"] < threshold]: the literal [threshold] is
    a double; comparing a value that is not a number with a float raises
    [TypeError]. *)
Definition confidence_is_low (entries : list (string * Value))
    (threshold : Q) : Py.Exc bool :=
  match lookup entries "confidence_score" with
  | None => Py.Returned true
  | Some c =>
      match number c with
      | Some q => Py.Returned (Py.ltb q (Py.binary64 threshold))
      | None => Py.Raised "TypeError"
      end
  end.

(** The loop over the lights in [_validate_and_enhance_dashboard_analysis],
    with its [break] at the first red light. *)
Fixpoint lights_urgency (max_urgency : string)
    (detected_lights : list Image.Light) : string :=
  match detected_lights with
  | [] => max_urgency
  | light :: rest =>
      let color := Py.lower (Image.color light) in
      if Py.contains ["red"] color then "critical"
      else if Py.contains ["yellow"; "orange"; "amber"] color then
        lights_urgency "warning" rest
      else if Py.contains ["green"; "blue"] color then
        lights_urgency "normal" rest
      else lights_urgency max_urgency rest
  end.

(** [_validate_and_enhance_dashboard_analysis]; [analysis] is what
    [json.loads] made of the reply.  Item assignment on anything but a
    [dict] raises [TypeError], as does the membership test or the
    subscript that comes before it. *)
Definition _validate_and_enhance_dashboard_analysis (analysis : Value)
    (detected_lights : list Image.Light) : Py.Exc Value :=
  match analysis with
  | VDict analysis =>
      let analysis :=
        match detected_lights with
        | _ :: _ =>
            let max_urgency := lights_urgency "normal" detected_lights in
            assign analysis "urgency_level" (VStr max_urgency)
        | [] => analysis
        end in
      low <- confidence_is_low analysis 0.6 ;;
      let analysis :=
        if low then assign analysis "confidence_score" (VFloat (Py.binary64 0.75))
        else analysis in
      let analysis :=
        if negb (truthy (get analysis "detected_issues"))
           || is_the_list_of (get analysis "detected_issues")
                "Unable to analyze dashboard"
        then
          match detected_lights with
          | _ :: _ =>
              assign analysis "detected_issues"
                (strings
                   (map (fun light =>
                           (Audio.title (Image.color light)
                            ++ " Warning Light Active")%string)
                      detected_lights))
          | [] =>
              assign analysis "detected_issues"
                (strings ["Dashboard Warning System Check Required"])
          end
        else analysis in
      let analysis :=
        if negb (truthy (get analysis "repair_keywords")) then
          assign analysis "repair_keywords"
            (strings ["dashboard warning light fix"; "car diagnostic scan";
                      "warning light meaning"])
        else analysis in
      Py.Returned (VDict analysis)
  | _ => Py.Raised "TypeError"
  end.

(** The locals of the loop of
    [_create_enhanced_fallback_dashboard_analysis]. *)
Record LightsLoop := {
  lights_urgency_level : string;
  lights_issues : list string;
  lights_keywords : list string
}.

Definition fallback_light_step (st : LightsLoop) (light : Image.Light)
  : LightsLoop :=
  let color := Py.lower (Image.color light) in
  if String.eqb color "red" then
    {| lights_urgency_level := "critical";
       lights_issues :=
         lights_issues st
         ++ [("Critical " ++ Audio.title color ++ " Warning Light")%string];
       lights_keywords :=
         lights_keywords st
         ++ [(color ++ " warning light fix")%string;
             (color ++ " dashboard light repair")%string] |}
  else if Py.contains ["yellow"; "orange"; "amber"] color then
    {| lights_urgency_level :=
         if negb (String.eqb (lights_urgency_level st) "critical")
         then "warning" else lights_urgency_level st;
       lights_issues :=
         lights_issues st
         ++ [(Audio.title color ++ " Caution Light Active")%string];
       lights_keywords :=
         lights_keywords st
         ++ [(color ++ " warning light meaning")%string;
             (color ++ " dashboard light fix")%string] |}
  else
    {| lights_urgency_level := lights_urgency_level st;
       lights_issues :=
         lights_issues st ++ [(Audio.title color ++ " Indicator Light")%string];
       lights_keywords :=
         lights_keywords st
         ++ [(color ++ " light meaning")%string; "dashboard indicator"] |}.

(** [_create_enhanced_fallback_dashboard_analysis]; [list_of_set] is the
    order in which [list(set(keywords))] enumerates the keywords. *)
Definition _create_enhanced_fallback_dashboard_analysis
    (list_of_set : list string -> list string)
    (detected_lights : list Image.Light) : Value :=
  match detected_lights with
  | [] =>
      VDict
        [ ("detected_issues", strings ["Dashboard System Check Required"]);
          ("confidence_score", VFloat (Py.binary64 0.70));
          ("urgency_level", VStr "normal");
          ("overall_assessment",
           VDict [ ("severity", VStr "normal");
                   ("safe_to_drive", VBool true);
                   ("immediate_action_required", VBool false);
                   ("estimated_repair_cost", VStr "$0-50") ]);
          ("recommendations",
           strings [ "Perform visual dashboard inspection";
                     "Check owner's manual for warning light meanings";
                     "Schedule routine diagnostic if concerned" ]);
          ("repair_keywords",
           strings [ "dashboard warning lights guide";
                     "car warning lights meaning";
                     "dashboard diagnostic check" ]);
          ("safety_info",
           VDict [ ("driving_safety", VStr "Safe to drive normally");
                   ("immediate_actions",
                    VStr "Monitor dashboard for any new lights");
                   ("warning_signs", VStr "New warning lights appearing") ]) ]
  | _ :: _ =>
      let st :=
        fold_left fallback_light_step detected_lights
          {| lights_urgency_level := "normal"; lights_issues := [];
             lights_keywords := [] |} in
      let urgency_level := lights_urgency_level st in
      let critical := String.eqb urgency_level "critical" in
      VDict
        [ ("detected_issues", strings (lights_issues st));
          ("confidence_score", VFloat (Py.binary64 0.75));
          ("urgency_level", VStr urgency_level);
          ("overall_assessment",
           VDict [ ("severity", VStr urgency_level);
                   ("safe_to_drive", VBool (negb critical));
                   ("immediate_action_required", VBool critical);
                   ("estimated_repair_cost",
                    VStr (if critical then "$50-300" else "$25-150")) ]);
          ("recommendations",
           strings [ "Identify specific warning light meanings";
                     "Check vehicle owner's manual";
                     "Schedule diagnostic scan if multiple lights active";
                     "Do not ignore red warning lights" ]);
          ("repair_keywords",
           strings (firstn 5 (list_of_set (lights_keywords st))));
          ("safety_info",
           VDict [ ("driving_safety",
                    VStr (if critical then "Exercise caution"
                          else "Safe for normal driving"));
                   ("immediate_actions",
                    VStr "Stop and check if red lights are flashing");
                   ("warning_signs",
                    VStr "Multiple warning lights, unusual vehicle behavior")
                 ]) ]
  end.


(** The loop over the faults in [_validate_and_enhance_engine_analysis],
    with its [break] at the first critical fault. *)
Fixpoint faults_urgency (max_urgency : string)
    (detected_faults : list Audio.Fault) : string :=
  match detected_faults with
  | [] => max_urgency
  | fault :: rest =>
      let fault_urgency := Audio.urgency fault in
      if String.eqb fault_urgency "critical" then "critical"
      else if String.eqb fault_urgency "warning"
              && negb (String.eqb max_urgency "critical") then
        faults_urgency "warning" rest
      else faults_urgency max_urgency rest
  end.

(** [_validate_and_enhance_engine_analysis]; [audio_quality_score] is
    [audio_analysis.get("audio_quality", {}).get("score", 0.5)], and every
    audio quality has a score.  The confidence is computed on doubles, with
    the [sum] of the interpreter. *)
Definition _validate_and_enhance_engine_analysis
    (list_of_set : list string -> list string)
    (float_sum : list Q -> Q) (analysis : Value)
    (detected_faults : list Audio.Fault)
    (audio_analysis : Audio.AudioAnalysisResult) : Py.Exc Value :=
  match analysis with
  | VDict analysis =>
      let analysis :=
        match detected_faults with
        | _ :: _ =>
            let max_urgency := faults_urgency "normal" detected_faults in
            assign analysis "urgency_level" (VStr max_urgency)
        | [] => analysis
        end in
      let audio_quality_score :=
        Audio.score (Audio.audio_quality audio_analysis) in
      low <- confidence_is_low analysis 0.5 ;;
      let analysis :=
        if low then
          let base_confidence :=
            Py.binary64 (Py.binary64 audio_quality_score * Py.binary64 0.6) in
          match detected_faults with
          | _ :: _ =>
              let fault_confidence :=
                Py.binary64
                  (float_sum (map Audio.confidence detected_faults)
                   / Py.len detected_faults) in
              assign analysis "confidence_score"
                (VFloat
                   (Py.min
                      (Py.binary64
                         (base_confidence
                          + Py.binary64 (fault_confidence * Py.binary64 0.4)))
                      (Py.binary64 0.95)))
          | [] => assign analysis "confidence_score" (VFloat base_confidence)
          end
        else analysis in
      let analysis :=
        if negb (truthy (get analysis "detected_issues"))
           || is_the_list_of (get analysis "detected_issues")
                "Unable to analyze engine sound"
        then
          match detected_faults with
          | _ :: _ =>
              assign analysis "detected_issues"
                (strings (map Audio.display_name detected_faults))
          | [] =>
              assign analysis "detected_issues"
                (strings ["Engine Sound Analysis Completed - No Critical Issues Detected"])
          end
        else analysis in
      let analysis :=
        if negb (truthy (get analysis "repair_keywords")) then
          match detected_faults with
          | _ :: _ =>
              let keywords :=
                fold_left
                  (fun keywords fault => keywords ++ Audio.keywords fault)
                  detected_faults [] in
              assign analysis "repair_keywords"
                (strings (firstn 6 (list_of_set keywords)))
          | [] =>
              assign analysis "repair_keywords"
                (strings ["engine maintenance"; "engine diagnostic";
                          "car engine inspection"])
          end
        else analysis in
      Py.Returned (VDict analysis)
  | _ => Py.Raised "TypeError"
  end.

(** The locals of the loop of
    [_create_enhanced_fallback_engine_analysis]. *)
Record FaultsLoop := {
  faults_urgency_level : string;
  faults_issues : list string;
  faults_keywords : list string
}.

Definition fallback_fault_step (st : FaultsLoop) (fault : Audio.Fault)
  : FaultsLoop :=
  let fault_urgency := Audio.urgency fault in
  let fault_name := Audio.display_name fault in
  let fault_keywords := Audio.keywords fault in
  let st :=
    if String.eqb fault_urgency "critical" then
      {| faults_urgency_level := "critical";
         faults_issues :=
           faults_issues st ++ [(fault_name ++ " - Critical Issue")%string];
         faults_keywords := faults_keywords st |}
    else if String.eqb fault_urgency "warning"
            && negb (String.eqb (faults_urgency_level st) "critical") then
      {| faults_urgency_level := "warning";
         faults_issues :=
           faults_issues st ++ [(fault_name ++ " - Needs Attention")%string];
         faults_keywords := faults_keywords st |}
    else
      {| faults_urgency_level := faults_urgency_level st;
         faults_issues :=
           faults_issues st ++ [(fault_name ++ " Detected")%string];
         faults_keywords := faults_keywords st |} in
  {| faults_urgency_level := faults_urgency_level st;
     faults_issues := faults_issues st;
     faults_keywords := faults_keywords st ++ fault_keywords |}.

(** [_create_enhanced_fallback_engine_analysis]. *)
Definition _create_enhanced_fallback_engine_analysis
    (list_of_set : list string -> list string)
    (detected_faults : list Audio.Fault)
    (audio_analysis : Audio.AudioAnalysisResult) : Value :=
  match detected_faults with
  | [] =>
      let quality_score := Audio.score (Audio.audio_quality audio_analysis) in
      VDict
        [ ("detected_issues", strings ["Engine Sound Analysis Completed"]);
          ("confidence_score", VFloat quality_score);
          ("urgency_level", VStr "normal");
          ("overall_assessment",
           VDict [ ("severity", VStr "normal");
                   ("safe_to_drive", VBool true);
                   ("immediate_action_required", VBool false);
                   ("estimated_repair_cost", VStr "$0-100") ]);
          ("recommendations",
           strings [ "Continue monitoring engine sounds during operation";
                     "Perform regular engine maintenance";
                     "Schedule routine engine inspection if concerned" ]);
          ("repair_keywords",
           strings [ "engine maintenance guide"; "engine sound diagnosis";
                     "preventive car maintenance" ]);
          ("safety_info",
           VDict [ ("driving_safety", VStr "Safe to drive normally");
                   ("immediate_actions", VStr "Monitor engine performance");
                   ("warning_signs",
                    VStr "Unusual noises, performance changes") ]) ]
  | _ :: _ =>
      let st :=
        fold_left fallback_fault_step detected_faults
          {| faults_urgency_level := "normal"; faults_issues := [];
             faults_keywords := [] |} in
      let urgency_level := faults_urgency_level st in
      let critical := String.eqb urgency_level "critical" in
      VDict
        [ ("detected_issues", strings (faults_issues st));
          ("confidence_score", VFloat (Py.binary64 0.75));
          ("urgency_level", VStr urgency_level);
          ("overall_assessment",
           VDict [ ("severity", VStr urgency_level);
                   ("safe_to_drive", VBool (negb critical));
                   ("immediate_action_required", VBool critical);
                   ("estimated_repair_cost",
                    VStr (if critical then "$200-1000" else "$100-500")) ]);
          ("recommendations",
           strings [ "Have engine inspected by qualified mechanic";
                     "Check engine oil level and condition";
                     (if critical
                      then "Avoid high RPM operation until diagnosed"
                      else "Monitor engine performance");
                     (if negb (String.eqb urgency_level "normal")
                      then "Schedule repair appointment soon"
                      else "Continue regular maintenance") ]);
          ("repair_keywords",
           strings (firstn 6 (list_of_set (faults_keywords st))));
          ("safety_info",
           VDict [ ("driving_safety",
                    VStr (if critical then "Avoid aggressive driving"
                          else "Drive with normal caution"));
                   ("immediate_actions",
                    VStr "Check oil level and coolant before driving");
                   ("warning_signs",
                    VStr "Loss of power, unusual vibrations, smoke, overheating")
                 ]) ]
  end.

(** [analyze_engine_sound]; [generated] as for
    [analyze_dashboard_lights]. *)
Definition analyze_engine_sound
    (list_of_set : list string -> list string)
    (float_sum : list Q -> Q)
    (audio_analysis : Audio.AudioAnalysisResult)
    (generated : Py.Exc (option Value)) : Value :=
  let detected_faults := Audio.detected_faults audio_analysis in
  let fallback :=
    _create_enhanced_fallback_engine_analysis list_of_set detected_faults
      audio_analysis in
  match generated with
  | Py.Returned (Some analysis) =>
      match _validate_and_enhance_engine_analysis list_of_set float_sum
              analysis detected_faults audio_analysis
      with
      | Py.Returned analysis => analysis
      | Py.Raised _ => fallback
      end
  | Py.Returned None => fallback
  | Py.Raised _ => fallback
  end.

End Gemini.

(** ** [utils/database.py] *)

Module Database.

(** [_map_urgency_level]: the [mapping] dict and its default. *)
Definition mapping : list (string * string) :=
  [ ("low", "monitoring");
    ("moderate", "soon");
    ("high", "soon");
    ("critical", "immediate") ].

Definition _map_urgency_level (backend_urgency : string) : string :=
  Py.get mapping backend_urgency "monitoring".

End Database.

(** ** The routes of [routers/diagnosis.py] *)

Module Router.
Import Obj.

(** [convert_numpy_types]: the values of a [dict] and the items of a
    [list] are converted, numpy scalars become Python scalars, an array
    becomes nested lists; anything else, a tuple included, is returned as
    it is. *)
Fixpoint convert_numpy_types (obj : Value) : Value :=
  match obj with
  | VDict entries =>
      VDict (map (fun entry =>
                    match entry with
                    | (key, value) => (key, convert_numpy_types value)
                    end)
               entries)
  | VList items => VList (map convert_numpy_types items)
  | NpBool b => VBool b
  | NpInteger z => VInt z
  | NpFloating q => VFloat q
  | VArray a => tolist a
  | _ => obj
  end.

(** [UrgencyLevel] of [models/schemas.py], a [str] enum. *)
Inductive UrgencyLevel :=
| IMMEDIATE
| SOON
| MONITORING.

Definition value (level : UrgencyLevel) : string :=
  match level with
  | IMMEDIATE => "immediate"
  | SOON => "soon"
  | MONITORING => "monitoring"
  end.

(** The [urgency_mapping] of the dashboard route and of the engine-sound
    route. *)
Definition dashboard_urgency_mapping : list (string * UrgencyLevel) :=
  [ ("critical", IMMEDIATE);
    ("warning", SOON);
    ("normal", MONITORING);
    ("immediate", IMMEDIATE);
    ("soon", SOON);
    ("monitoring", MONITORING) ].

Definition engine_urgency_mapping : list (string * UrgencyLevel) :=
  [ ("critical", IMMEDIATE);
    ("warning", SOON);
    ("normal", MONITORING) ].

(** A value that can be a key of a [dict]. *)
Fixpoint hashable (v : Value) : bool :=
  match v with
  | VList _ | VDict _ | VArray _ => false
  | VTuple items => forallb hashable items
  | _ => true
  end.

(** [gemini_analysis.get("urgency_level", default)]. *)
Definition get_urgency_level (gemini_analysis : list (string * Value))
    (default : string) : Value :=
  match lookup gemini_analysis "urgency_level" with
  | Some v => v
  | None => VStr default
  end.

(** [urgency_mapping.get(level, UrgencyLevel.MONITORING)]: a key that
    cannot be hashed raises [TypeError]; a key that is not a string is not
    in the mapping. *)
Definition response_urgency (urgency_mapping : list (string * UrgencyLevel))
    (level : Value) : Py.Exc UrgencyLevel :=
  if hashable level then
    match level with
    | VStr level => Py.Returned (Py.get urgency_mapping level MONITORING)
    | _ => Py.Returned MONITORING
    end
  else Py.Raised "TypeError".

(** What [db.save_diagnostic_result] stores as urgency level: the [try]
    of that method turns the [TypeError] of a key that cannot be hashed
    into "nothing is stored". *)
Definition stored_urgency (level : Value) : option string :=
  if hashable level then
    match level with
    | VStr level => Some (Database._map_urgency_level level)
    | _ => Some "monitoring"
    end
  else None.

(** [max(a, b)]: Python returns [a] unless [b > a]. *)
Definition max (a b : Q) : Q := if Py.ltb a b then b else a.

(** "Ensure confidence is within valid range", and the rounding of the
    response: [round(max(0.0, min(1.0, confidence_score)), 3)]. *)
Definition response_confidence (confidence_score : Q) : Q :=
  let confidence_score := max 0.0 (Py.min 1.0 confidence_score) in
  Py.round confidence_score 3.

(** *** The dashboard route, up to the point where the analysis is handed
    to the narration service. *)

Inductive Call :=
| VerifyUser
| ReadImage
| UploadDashboardImage
| AnalyzeDashboardImage.

Inductive Outcome :=
| HTTPException (status_code : Z) (detail : string)
| Analysed (image_analysis : Image.ImageAnalysisResult).

Record Request := {
  verify_user_id : string -> bool;
  content_type : option string;
  read : Py.Exc (list byte);
  upload_dashboard_image : list byte -> Py.Exc unit
}.

Definition diagnose_dashboard_image (w : Image.World) (image : Request)
    (user_id : string) : Outcome * list Call :=
  let failed e :=
    HTTPException 500 ("Dashboard diagnosis failed: " ++ e)%string in
  if negb (verify_user_id image user_id) then
    (HTTPException 404 "User not found", [VerifyUser])
  else
    match content_type image with
    | None =>
        (failed "'NoneType' object has no attribute 'startswith'",
         [VerifyUser])
    | Some content_type =>
        if negb (Py.startswith content_type "image/") then
          (HTTPException 400 "File must be an image", [VerifyUser])
        else
          match read image with
          | Py.Raised e => (failed e, [VerifyUser; ReadImage])
          | Py.Returned image_data =>
              match upload_dashboard_image image image_data with
              | Py.Raised e =>
                  (failed e, [VerifyUser; ReadImage; UploadDashboardImage])
              | Py.Returned _ =>
                  let calls := [VerifyUser; ReadImage; UploadDashboardImage;
                                AnalyzeDashboardImage] in
                  match Image.analyze_dashboard_image w image_data with
                  | Py.Raised e => (failed e, calls)
                  | Py.Returned image_analysis =>
                      (Analysed image_analysis, calls)
                  end
              end
          end
    end.

End Router.

(** ** Inputs for examples *)

Module Examples.
Import Audio.

(** A world for examples: the upload is written to [/tmp/engine.wav],
    librosa decodes every byte [0] to a sample [0.0] and refuses any other
    byte; the measurements are those of the [except] clauses. *)
Definition example_world : World :=
  {| write_temp_file := fun _ => Py.Returned "/tmp/engine.wav";
     librosa_load := fun _ audio_data =>
       if forallb (Byte.eqb x00) audio_data
       then Py.Returned (map (fun _ => 0.0) audio_data)
       else Py.Raised "Format not recognised";
     remove_temp_file := fun _ => Py.Returned tt;
     quality_measurements := fun _ _ => Py.Raised "error";
     _analyze_frequency_spectrum := fun _ _ => AnalysisFailed (Some "error");
     pattern_features := fun _ _ => Py.Raised "error";
     _analyze_decibel_levels := fun _ _ => AnalysisFailed None;
     _analyze_anomaly_duration := fun _ _ => AnalysisFailed None;
     list_of_set := fun keywords => nodup string_dec keywords;
     builtin_sum := Py.float_sum Py.binary64;
     loop_time := 0 |}.

(** An upload declared as "audio/wav" by a known user; the storage takes
    it. *)
Definition wav_upload (audio_data : list byte) : Request :=
  {| verify_user_id := fun _ => true;
     content_type := Some "audio/wav";
     filename := Some "engine.wav";
     read := Py.Returned audio_data;
     upload_engine_sound := fun _ => Py.Returned tt |}.

(** An upload declared as "text/plain" by a known user. *)
Definition text_upload : Request :=
  {| verify_user_id := fun _ => true;
     content_type := Some "text/plain";
     filename := Some "notes.txt";
     read := Py.Returned [x68; x69];
     upload_engine_sound := fun _ => Py.Returned tt |}.

(** A recording that is all but silent: a single sample of 1e-30 among
    zeros.  Its 10th-percentile amplitude is zero, so [snr] is the literal
    50; its peak is 1e-30 and its mean amplitude is far below the 1e-10
    added to it, so [dynamic_range] is 20 * log10(1e-30 / 1e-10) = -400. *)
Definition faint_waveform : list Q :=
  [ 0; 0; 0; 0; 1 # 10 ^ 30; 0; 0; 0; 0; 0; 0; 0 ].

Definition faint_measurements : QualityMeasurements :=
  {| measured_snr := 50; measured_dynamic_range := -400 |}.

Definition faint_profile : FrequencyProfile :=
  {| dominant_frequency := 50;
     spectral_centroid := 60;
     spectral_rolloff := 80;
     spectral_bandwidth := 10;
     frequency_bands :=
       [ ("sub_bass", 0); ("bass", 0); ("low_mid", 0); ("mid", 0);
         ("high_mid", 0); ("presence", 0); ("brilliance", 0) ];
     band_peaks := [];
     peak_frequencies := [];
     peak_magnitudes := [];
     dominant_band := "sub_bass";
     frequency_spread := 0 |}.

Definition faint_world : World :=
  {| write_temp_file := fun _ => Py.Returned "/tmp/engine.wav";
     librosa_load := fun _ _ => Py.Returned faint_waveform;
     remove_temp_file := fun _ => Py.Returned tt;
     quality_measurements := fun _ _ => Py.Returned faint_measurements;
     _analyze_frequency_spectrum := fun _ _ => Computed faint_profile;
     pattern_features := fun _ _ =>
       Py.Returned
         {| pf_tempo := 0; pf_beat_count := 0; pf_onset_count := 0;
            rhythmic_strength := 0; continuity := 0; impulsiveness := 0;
            harmonic_strength := 0; noise_level := 0 |};
     _analyze_decibel_levels := fun _ _ => AnalysisFailed None;
     _analyze_anomaly_duration := fun _ _ => AnalysisFailed None;
     list_of_set := fun keywords => nodup string_dec keywords;
     builtin_sum := Py.float_sum Py.binary64;
     loop_time := 0 |}.

(** A frequency profile with its energy around 1500 Hz. *)
Definition mid_profile : FrequencyProfile :=
  {| dominant_frequency := 1500;
     spectral_centroid := 1600;
     spectral_rolloff := 3200;
     spectral_bandwidth := 900;
     frequency_bands :=
       [ ("sub_bass", 0.1); ("bass", 1); ("low_mid", 1); ("mid", 5);
         ("high_mid", 2); ("presence", 0.5); ("brilliance", 0.1) ];
     band_peaks := [ ("mid", [1500; 1600]) ];
     peak_frequencies := [1500; 1600; 3000];
     peak_magnitudes := [5; 3; 2];
     dominant_band := "mid";
     frequency_spread := 400 |}.

(** A profile with its dominant frequency and band energies given, and no
    peak. *)
Definition tone (dominant : Q) (bands : list (string * Q))
  : FrequencyProfile :=
  {| dominant_frequency := dominant;
     spectral_centroid := dominant;
     spectral_rolloff := dominant;
     spectral_bandwidth := 0;
     frequency_bands := bands;
     band_peaks := [];
     peak_frequencies := [];
     peak_magnitudes := [];
     dominant_band := "mid";
     frequency_spread := 0 |}.

(** A regular beat, some noise, nothing else above its threshold. *)
Definition rhythmic_features : PatternFeatures :=
  {| pf_tempo := 120; pf_beat_count := 10; pf_onset_count := 3;
     rhythmic_strength := 0.9; continuity := 0.5; impulsiveness := 0.1;
     harmonic_strength := 0.2; noise_level := 0.6 |}.

Definition rhythmic_patterns : list SoundPattern :=
  _detect_sound_patterns (Py.Returned rhythmic_features).

Definition fair_quality : AudioQuality :=
  {| score := 0.55; rating := "fair"; issues := [];
     recommendations := Some []; quality_details := None |}.

(** A red region of area 200 with a square bounding box, and the light the
    detector makes of it. *)
Definition red_contour : Image.Contour :=
  {| Image.contour_area := 200%float;
     Image.bounding_rect := (100, 60, 16, 16)%Z;
     Image.roi_brightness := 0.8%float |}.

(** A small, elongated, dark region, a rectangle of 5 by 11 pixels: its
    scores are 0.2, 0.1 and 0. *)
Definition faint_contour : Image.Contour :=
  {| Image.contour_area := 40%float;
     Image.bounding_rect := (40, 40, 5, 11)%Z;
     Image.roi_brightness := 0.1%float |}.


Definition red_light : Image.Light :=
  Eval vm_compute in
    hd {| Image.color := EmptyString; Image.position := (0, 0)%Z;
          Image.bounding_box := (0, 0, 0, 0)%Z; Image.area := 0;
          Image.aspect_ratio := 0; Image.brightness := 0;
          Image.confidence := 0; Image.severity := EmptyString |}
       (Image._detect_color_lights "red" (Py.Returned [red_contour])).

(** Red lights in a row: [light_a], [light_b] and [light_c] are 20 pixels
    from one to the next, with falling confidence; [light_d] is exactly 30
    pixels from [light_a]. *)
Definition light_at (x y : Z) (confidence : Q) : Image.Light :=
  {| Image.color := "red"; Image.position := (x, y);
     Image.bounding_box := (x - 8, y - 8, 16, 16)%Z; Image.area := 200;
     Image.aspect_ratio := 1; Image.brightness := 0.8;
     Image.confidence := confidence; Image.severity := "critical" |}.

Definition light_a : Image.Light := light_at 100 50 0.9.
Definition light_b : Image.Light := light_at 120 50 0.8.
Definition light_c : Image.Light := light_at 140 50 0.7.
Definition light_d : Image.Light := light_at 118 74 0.7.

(** A world for examples: no buffer decodes. *)
Definition no_decoder : Image.World :=
  {| Image.imdecode := fun _ => Py.Returned None;
     Image._detect_dashboard_area := fun _ => false;
     Image.find_contours := fun _ => Py.Raised "error";
     Image._analyze_image_quality := fun _ =>
       {| Image.score := 0.5; Image.issues := ["Quality analysis failed"];
          Image.quality_details := None |} |}.

(** A critical and a warning fault, as [_detect_engine_faults] records
    them, and an analysis that detected the second. *)
Definition rattle : Fault :=
  {| name := "timing_chain_rattle";
     display_name := "Timing Chain Rattle";
     confidence := 0.75;
     severity := "critical";
     urgency := "critical";
     keywords := ["timing chain rattle"; "timing chain replacement";
                  "engine timing noise"];
     evidence := [];
     frequency_range := (1200, 4000)%Z;
     characteristics := ["metallic"; "startup_noise"; "chain_rattle"] |}.

Definition ticking : Fault :=
  {| name := "valve_lifter_noise";
     display_name := "Valve Lifter Noise";
     confidence := 0.5;
     severity := "warning";
     urgency := "warning";
     keywords := ["valve lifter noise"; "hydraulic lifter repair";
                  "valve adjustment"];
     evidence := [];
     frequency_range := (1000, 3000)%Z;
     characteristics := ["ticking"; "rhythmic"; "top_end"] |}.

Definition ticking_analysis : AudioAnalysisResult :=
  {| analysis_successful := true;
     analysis_failed := None;
     error_message := None;
     detected_sounds := ["valve_lifter_noise"];
     detected_faults := [ticking];
     sound_patterns := [];
     frequency_analysis := Computed mid_profile;
     decibel_analysis := AnalysisFailed None;
     anomaly_analysis := AnalysisFailed None;
     audio_quality := fair_quality;
     overall_confidence := 0.5;
     urgency_level := "warning";
     repair_keywords := ["valve lifter noise"; "hydraulic lifter repair";
                         "valve adjustment"];
     analysis_metadata :=
       {| duration_seconds := None; sample_rate := None;
          total_faults_detected := Some 1%nat; processing_successful := true;
          analysis_timestamp := None; error := None |} |}.

(** A light of a colour, with the measurements of [light_at]. *)
Definition colored (color : string) : Image.Light :=
  {| Image.color := color; Image.position := (100, 50)%Z;
     Image.bounding_box := (92, 42, 16, 16)%Z; Image.area := 200;
     Image.aspect_ratio := 1; Image.brightness := 0.8;
     Image.confidence := 0.9;
     Image.severity := Image._map_color_to_severity color |}.

(** An upload declared as "image/png" by a known user; the storage takes
    it. *)
Definition png_upload (image_data : list byte) : Router.Request :=
  {| Router.verify_user_id := fun _ => true;
     Router.content_type := Some "image/png";
     Router.read := Py.Returned image_data;
     Router.upload_dashboard_image := fun _ => Py.Returned tt |}.

End Examples.

(** * Properties *)

(** ** Comparisons, [min] and the stable descending sort *)

Module PyFacts.

Lemma ltb_true (x y : Q) : Py.ltb x y = true <-> x < y.
Proof.
  unfold Py.ltb. rewrite negb_true_iff.
  split; intro H.
  - apply Qnot_le_lt. intro Hle. apply Qle_bool_iff in Hle. congruence.
  - apply not_true_is_false. intro Hle. apply Qle_bool_iff in Hle.
    apply (Qlt_not_le _ _ H Hle).
Qed.

Lemma ltb_false (x y : Q) : Py.ltb x y = false <-> y <= x.
Proof.
  unfold Py.ltb. rewrite negb_false_iff. apply Qle_bool_iff.
Qed.

Lemma ltb_cases (x y : Q) :
  (Py.ltb x y = true /\ x < y) \/ (Py.ltb x y = false /\ y <= x).
Proof.
  destruct (Py.ltb x y) eqn:E.
  - left. split; [reflexivity | now apply ltb_true].
  - right. split; [reflexivity | now apply ltb_false].
Qed.

Lemma min_le_r (a b : Q) : Py.min a b <= b.
Proof.
  unfold Py.min. destruct (ltb_cases b a) as [[-> H] | [-> H]]; lra.
Qed.

Lemma min_le_l (a b : Q) : Py.min a b <= a.
Proof.
  unfold Py.min. destruct (ltb_cases b a) as [[-> H] | [-> H]]; lra.
Qed.

Lemma min_glb (a b c : Q) : c <= a -> c <= b -> c <= Py.min a b.
Proof.
  unfold Py.min. destruct (Py.ltb b a); auto.
Qed.

Lemma min_mono (a a' b : Q) : a <= a' -> Py.min a b <= Py.min a' b.
Proof.
  intro H. apply min_glb.
  - pose proof (min_le_l a b). lra.
  - apply min_le_r.
Qed.

Lemma StronglySorted_weaken {A} (R R' : A -> A -> Prop) (l : list A) :
  (forall a b, In a l -> In b l -> R a b -> R' a b) ->
  StronglySorted R l -> StronglySorted R' l.
Proof.
  intros Himp Hs. induction Hs as [| a l Hs IH Ha].
  - constructor.
  - constructor.
    + apply IH. intros x y Hx Hy. apply Himp; now right.
    + rewrite Forall_forall in *. intros b Hb.
      apply Himp; [now left | now right | now apply Ha].
Qed.

Section Sort.
Context {A : Type} (key : A -> Q).

Lemma insert_desc_perm (x : A) (l : list A) :
  Permutation (Py.insert_desc key x l) (x :: l).
Proof.
  induction l as [| y l IH]; simpl.
  - reflexivity.
  - destruct (Py.ltb (key x) (key y)).
    + rewrite IH. apply perm_swap.
    + reflexivity.
Qed.

Lemma sort_desc_perm (l : list A) : Permutation (Py.sort_desc key l) l.
Proof.
  induction l as [| x l IH]; simpl.
  - reflexivity.
  - rewrite insert_desc_perm. now constructor.
Qed.

Lemma sort_desc_In (l : list A) (x : A) :
  In x (Py.sort_desc key l) <-> In x l.
Proof.
  split; apply Permutation_in;
    [ | symmetry ]; apply sort_desc_perm.
Qed.

(** The order the sort establishes, given an order [before] that the
    input respects: greater keys first, and [before] among equal keys. *)
Definition desc_then (before : A -> A -> Prop) (x y : A) : Prop :=
  key y < key x \/ (key x == key y /\ before x y).

Lemma desc_then_key (before : A -> A -> Prop) (x y : A) :
  desc_then before x y -> key y <= key x.
Proof.
  intros [H | [H _]]; lra.
Qed.

Lemma insert_desc_sorted (before : A -> A -> Prop) (x : A) (l : list A) :
  StronglySorted (desc_then before) l ->
  Forall (before x) l ->
  StronglySorted (desc_then before) (Py.insert_desc key x l).
Proof.
  induction l as [| y l IH]; intros Hs Hb; simpl.
  - repeat constructor.
  - inversion Hs as [| ? ? Hs' Hy]; subst.
    inversion Hb as [| ? ? Hxy Hb']; subst.
    destruct (ltb_cases (key x) (key y)) as [[-> Hlt] | [-> Hle]].
    + constructor.
      * now apply IH.
      * apply (Permutation_Forall
                 (Permutation_sym (insert_desc_perm x l))).
        constructor; [now left | assumption].
    + constructor; [assumption |].
      constructor.
      * destruct (Qlt_le_dec (key y) (key x)) as [Hlt | Hge].
        -- now left.
        -- right. split; [lra | assumption].
      * rewrite Forall_forall in *. intros z Hz.
        pose proof (desc_then_key _ _ _ (Hy z Hz)) as Hzy.
        destruct (Qlt_le_dec (key z) (key x)) as [Hlt | Hge].
        -- now left.
        -- right. split; [lra | now apply Hb'].
Qed.

Lemma sort_desc_sorted (before : A -> A -> Prop) (l : list A) :
  StronglySorted before l ->
  StronglySorted (desc_then before) (Py.sort_desc key l).
Proof.
  induction 1 as [| x l Hs IH Hx]; simpl.
  - constructor.
  - apply insert_desc_sorted; [assumption |].
    apply (Permutation_Forall (Permutation_sym (sort_desc_perm l))).
    assumption.
Qed.
End Sort.

End PyFacts.

(** ** Rounding *)

Module RoundingFacts.
Import PyFacts.

Lemma round_half_even_bounds (x : Q) :
  x - (1 # 2) <= inject_Z (Py.round_half_even x)
  /\ inject_Z (Py.round_half_even x) <= x + (1 # 2).
Proof.
  unfold Py.round_half_even. cbv zeta.
  pose proof (Qfloor_le x) as Hlo.
  pose proof (Qlt_floor x) as Hhi.
  assert (Hone : inject_Z (Qfloor x + 1) == inject_Z (Qfloor x) + 1)
    by (rewrite inject_Z_plus; reflexivity).
  destruct (ltb_cases (x - inject_Z (Qfloor x)) 0.5) as [[-> H1] | [-> H1]];
    [| destruct (ltb_cases 0.5 (x - inject_Z (Qfloor x))) as [[-> H2] | [-> H2]];
       [| destruct (Z.even (Qfloor x))]];
    revert Hlo Hhi Hone; try revert H2; revert H1;
    generalize (inject_Z (Qfloor x + 1)); generalize (inject_Z (Qfloor x));
    intros; split; lra.
Qed.

Lemma round_half_even_proper (x y : Q) :
  x == y -> Py.round_half_even x = Py.round_half_even y.
Proof.
  intros Heq. unfold Py.round_half_even, Py.ltb. cbv zeta.
  rewrite (Qfloor_comp _ _ Heq).
  assert (E : x - inject_Z (Qfloor y) == y - inject_Z (Qfloor y))
    by (rewrite Heq; reflexivity).
  rewrite !E. reflexivity.
Qed.

(** Rounding to the nearest integer is monotone. *)
Lemma round_half_even_mono (x y : Q) :
  x <= y -> (Py.round_half_even x <= Py.round_half_even y)%Z.
Proof.
  intros Hxy.
  destruct (Z_le_gt_dec (Py.round_half_even x) (Py.round_half_even y))
    as [H | H]; [exact H | exfalso].
  destruct (round_half_even_bounds x) as [_ Hx].
  destruct (round_half_even_bounds y) as [Hy _].
  assert (Hge : (Py.round_half_even y + 1 <= Py.round_half_even x)%Z) by lia.
  rewrite Zle_Qle, inject_Z_plus in Hge.
  assert (Heq : x == y).
  { change (inject_Z 1) with 1 in Hge. revert Hx Hy Hge.
    generalize (inject_Z (Py.round_half_even x)).
    generalize (inject_Z (Py.round_half_even y)). intros; lra. }
  rewrite (round_half_even_proper _ _ Heq) in H. lia.
Qed.

Lemma round_half_even_inject_Z (k : Z) : Py.round_half_even (inject_Z k) = k.
Proof.
  unfold Py.round_half_even. cbv zeta. rewrite Qfloor_Z.
  assert (E : inject_Z k - inject_Z k == 0) by ring.
  unfold Py.ltb. rewrite !E. reflexivity.
Qed.

(** Rounding to the nearest integer commutes with the change of sign: a tie
    goes to the even neighbour on both sides of zero. *)
Lemma round_half_even_opp (x : Q) :
  Py.round_half_even (- x) = (- Py.round_half_even x)%Z.
Proof.
  pose proof (Qfloor_le x) as Hlo.
  pose proof (Qlt_floor x) as Hhi.
  pose proof (Qfloor_le (- x)) as Hlo'.
  pose proof (Qlt_floor (- x)) as Hhi'.
  rewrite inject_Z_plus in Hhi, Hhi'. change (inject_Z 1) with 1 in *.
  assert (Hn : Qfloor (- x) = (- Qfloor x)%Z /\ x == inject_Z (Qfloor x)
               \/ Qfloor (- x) = (- Qfloor x - 1)%Z
                  /\ inject_Z (Qfloor x) < x).
  { destruct (Qlt_le_dec (inject_Z (Qfloor x)) x) as [Hr | Hr].
    - right. split; [| assumption].
      assert (H1 : (Qfloor (- x) < - Qfloor x)%Z).
      { rewrite Zlt_Qlt, inject_Z_opp. revert Hlo' Hr.
        generalize (inject_Z (Qfloor (- x))), (inject_Z (Qfloor x)).
        intros; lra. }
      assert (H2 : (- Qfloor x - 2 < Qfloor (- x))%Z).
      { rewrite Zlt_Qlt. unfold Z.sub. rewrite inject_Z_plus, inject_Z_opp.
        change (inject_Z (- (2))) with (- (2)). revert Hhi' Hhi.
        generalize (inject_Z (Qfloor (- x))), (inject_Z (Qfloor x)).
        intros; lra. }
      lia.
    - left. assert (E : x == inject_Z (Qfloor x)) by lra.
      split; [| assumption].
      rewrite (Qfloor_comp (- x) (inject_Z (- Qfloor x))).
      + apply Qfloor_Z.
      + rewrite inject_Z_opp, <- E. reflexivity. }
  unfold Py.round_half_even. cbv zeta.
  destruct Hn as [[E Hx] | [E Hx]]; rewrite E.
  - assert (E1 : - x - inject_Z (- Qfloor x) == 0)
      by (rewrite inject_Z_opp; lra).
    assert (E2 : x - inject_Z (Qfloor x) == 0) by lra.
    unfold Py.ltb. rewrite !E1, !E2. reflexivity.
  - assert (E1 : - x - inject_Z (- Qfloor x - 1)
                 == 1 - (x - inject_Z (Qfloor x))).
    { unfold Z.sub. rewrite inject_Z_plus, inject_Z_opp.
      change (inject_Z (- (1))) with (- (1)). ring. }
    assert (Hlt : x - inject_Z (Qfloor x) < 1) by lra.
    assert (Hgt : 0 < x - inject_Z (Qfloor x)) by lra.
    unfold Py.ltb at 1 2. rewrite !E1.
    fold (Py.ltb (1 - (x - inject_Z (Qfloor x))) 0.5).
    fold (Py.ltb 0.5 (1 - (x - inject_Z (Qfloor x)))).
    revert Hlt Hgt. generalize (x - inject_Z (Qfloor x)) as r. intros r Hlt Hgt.
    repeat match goal with
           | |- context [Py.ltb ?a ?b] =>
               destruct (ltb_cases a b) as [[-> ?] | [-> ?]]
           end; try (exfalso; lra); try lia.
    replace (- Qfloor x - 1)%Z with (- (Qfloor x + 1))%Z by lia.
    rewrite Z.even_opp, Z.even_add. simpl (Z.even 1).
    destruct (Z.even (Qfloor x)); simpl; lia.
Qed.

(** Rounding to a number of decimals. *)
Definition scale (ndigits : nat) : Q := inject_Z (10 ^ Z.of_nat ndigits).

Lemma scale_pos (ndigits : nat) : 0 < scale ndigits.
Proof.
  unfold scale. change 0 with (inject_Z 0). rewrite <- Zlt_Qlt.
  apply Z.pow_pos_nonneg; lia.
Qed.

Lemma round_value (x : Q) (ndigits : nat) :
  Py.round x ndigits
  == inject_Z (Py.round_half_even (x * scale ndigits)) / scale ndigits.
Proof. unfold Py.round. cbv zeta. apply Qred_correct. Qed.

(** [round(x, n)] is monotone in [x]. *)
Lemma round_mono (x y : Q) (ndigits : nat) :
  x <= y -> Py.round x ndigits <= Py.round y ndigits.
Proof.
  intros Hxy. rewrite !round_value.
  pose proof (scale_pos ndigits) as Hs.
  apply Qmult_le_compat_r; [| apply Qlt_le_weak, Qinv_lt_0_compat, Hs].
  rewrite <- Zle_Qle. apply round_half_even_mono.
  apply Qmult_le_compat_r; [exact Hxy | apply Qlt_le_weak, Hs].
Qed.

(** [round(x, n)] leaves a decimal of [n] digits as it is. *)
Lemma round_decimal (k : Z) (ndigits : nat) :
  Py.round (inject_Z k / scale ndigits) ndigits == inject_Z k / scale ndigits.
Proof.
  rewrite round_value.
  pose proof (scale_pos ndigits) as Hs.
  assert (E : inject_Z k / scale ndigits * scale ndigits == inject_Z k)
    by (field; lra).
  rewrite (round_half_even_proper _ _ E), round_half_even_inject_Z.
  reflexivity.
Qed.

(** Equal numbers round to the same decimal. *)
Lemma round_proper (x y : Q) (ndigits : nat) :
  x == y -> Py.round x ndigits = Py.round y ndigits.
Proof.
  intros Heq. unfold Py.round. cbv zeta. apply Qred_complete.
  assert (E : x * inject_Z (10 ^ Z.of_nat ndigits)
              == y * inject_Z (10 ^ Z.of_nat ndigits))
    by (rewrite Heq; reflexivity).
  rewrite (round_half_even_proper _ _ E). reflexivity.
Qed.

(** A number between two decimals of [n] digits rounds to a decimal between
    them. *)
Lemma round_between (lo hi : Z) (x : Q) (ndigits : nat) :
  inject_Z lo / scale ndigits <= x -> x <= inject_Z hi / scale ndigits ->
  inject_Z lo / scale ndigits <= Py.round x ndigits
  /\ Py.round x ndigits <= inject_Z hi / scale ndigits.
Proof.
  intros Hlo Hhi. split.
  - rewrite <- (round_decimal lo ndigits). now apply round_mono.
  - rewrite <- (round_decimal hi ndigits). now apply round_mono.
Qed.

(** Powers of two. *)
Lemma pow2_pos (e : Z) : 0 < 2 ^ e.
Proof. apply Qpower_0_lt. reflexivity. Qed.

Lemma pow2_le (a b : Z) : (a <= b)%Z -> 2 ^ a <= 2 ^ b.
Proof. intro H. apply Qpower_le_compat_l; [assumption | discriminate]. Qed.

Lemma pow2_lt (a b : Z) : (a < b)%Z -> 2 ^ a < 2 ^ b.
Proof. intro H. apply Qpower_lt_compat_l; [assumption | reflexivity]. Qed.

Lemma pow2_lt_inv (a b : Z) : 2 ^ a < 2 ^ b -> (a < b)%Z.
Proof. intro H. apply (Qpower_lt_compat_l_inv 2); [assumption | reflexivity]. Qed.

Lemma pow2_plus (a b : Z) : 2 ^ (a + b) == 2 ^ a * 2 ^ b.
Proof. apply Qpower_plus. discriminate. Qed.

Lemma pow2_inject (n : Z) : (0 <= n)%Z -> inject_Z (2 ^ n) == 2 ^ n.
Proof. intro H. now rewrite Zpower_Qpower. Qed.

(** [ilog2] is the binary logarithm, rounded down. *)
Lemma ilog2_spec (x : Q) :
  0 < x -> 2 ^ Py.ilog2 x <= x /\ x < 2 ^ (Py.ilog2 x + 1).
Proof.
  intro Hx. destruct x as [n d].
  assert (Hn : (0 < n)%Z).
  { unfold Qlt in Hx. simpl in Hx. lia. }
  unfold Py.ilog2. cbv zeta. cbn [Qnum Qden].
  destruct (Z.log2_spec n Hn) as [Hn1 Hn2].
  destruct (Z.log2_spec (Z.pos d) (Pos2Z.is_pos d)) as [Hd1 Hd2].
  pose proof (Z.log2_nonneg n) as Hln.
  pose proof (Z.log2_nonneg (Z.pos d)) as Hld.
  set (ln := Z.log2 n) in *. set (ld := Z.log2 (Z.pos d)) in *.
  rewrite Zle_Qle, pow2_inject in Hn1, Hd1 by lia.
  rewrite Zlt_Qlt, pow2_inject in Hn2, Hd2 by lia.
  assert (Ex : (n # d) * inject_Z (Z.pos d) == inject_Z n).
  { rewrite (Qmake_Qdiv n d). field. discriminate. }
  assert (Hdpos : 0 < inject_Z (Z.pos d)) by reflexivity.
  pose proof (pow2_pos ld) as Hpld.
  pose proof (pow2_pos (Z.succ ld)) as Hpld'.
  assert (Hup : (n # d) < 2 ^ (ln - ld + 1)).
  { apply (Qmult_lt_r _ _ (2 ^ ld) Hpld).
    rewrite <- pow2_plus.
    replace (ln - ld + 1 + ld)%Z with (Z.succ ln) by lia.
    apply Qle_lt_trans with (2 := Hn2). rewrite <- Ex.
    apply Qmult_le_l; [assumption | assumption]. }
  assert (Hdown : 2 ^ (ln - ld - 1) < (n # d)).
  { apply (Qmult_lt_r _ _ (2 ^ Z.succ ld) Hpld').
    rewrite <- pow2_plus.
    replace (ln - ld - 1 + Z.succ ld)%Z with ln by lia.
    apply Qle_lt_trans with (1 := Hn1). rewrite <- Ex.
    apply Qmult_lt_l; [assumption | assumption]. }
  destruct (Qle_bool (2 ^ (ln - ld)) (n # d)) eqn:E.
  - apply Qle_bool_iff in E. split; assumption.
  - replace (ln - ld - 1 + 1)%Z with (ln - ld)%Z by lia.
    split; [now apply Qlt_le_weak |].
    apply Qnot_le_lt. intro H. apply Qle_bool_iff in H. congruence.
Qed.

Lemma ilog2_unique (x : Q) (k : Z) :
  2 ^ k <= x -> x < 2 ^ (k + 1) -> Py.ilog2 x = k.
Proof.
  intros H1 H2.
  assert (Hx : 0 < x) by (pose proof (pow2_pos k); lra).
  destruct (ilog2_spec x Hx) as [H3 H4].
  assert (Py.ilog2 x < k + 1)%Z by (apply pow2_lt_inv; lra).
  assert (k < Py.ilog2 x + 1)%Z by (apply pow2_lt_inv; lra).
  lia.
Qed.

Lemma ilog2_proper (x y : Q) : 0 < x -> x == y -> Py.ilog2 x = Py.ilog2 y.
Proof.
  intros Hx E. symmetry.
  destruct (ilog2_spec x Hx) as [H1 H2].
  apply ilog2_unique; rewrite <- E; assumption.
Qed.

Lemma ilog2_mono (x y : Q) : 0 < x -> x <= y -> (Py.ilog2 x <= Py.ilog2 y)%Z.
Proof.
  intros Hx Hxy.
  destruct (ilog2_spec x Hx) as [H1 _].
  destruct (ilog2_spec y) as [_ H2]; [lra |].
  assert (Py.ilog2 x < Py.ilog2 y + 1)%Z by (apply pow2_lt_inv; lra).
  lia.
Qed.

(** The exponent of the last mantissa bit of the double nearest to [x]. *)
Definition exponent (x : Q) : Z := Z.max (Py.ilog2 (Qabs x) - 52) (-1074).

(** Rounding to a multiple of [2^e]. *)
Definition at_exponent (e : Z) (x : Q) : Q :=
  inject_Z (Py.round_half_even (x / 2 ^ e)) * 2 ^ e.

Lemma binary64_value (x : Q) :
  ~ x == 0 -> Py.binary64 x == at_exponent (exponent x) x.
Proof.
  intro H. unfold Py.binary64.
  destruct (Qeq_bool x 0) eqn:E.
  - apply Qeq_bool_iff in E. contradiction.
  - cbv zeta. apply Qred_correct.
Qed.

Lemma binary64_zero (x : Q) : x == 0 -> Py.binary64 x = 0.
Proof.
  intro H. unfold Py.binary64. apply Qeq_bool_iff in H. now rewrite H.
Qed.

Lemma exponent_proper (x y : Q) : ~ x == 0 -> x == y -> exponent x = exponent y.
Proof.
  intros Hx E. unfold exponent. f_equal. f_equal.
  apply ilog2_proper; [| now rewrite E].
  pose proof (Qabs_nonneg x).
  destruct (Qeq_dec (Qabs x) 0) as [H0 | H0]; [| lra].
  exfalso. apply Hx. 
  pose proof (Qle_Qabs x). pose proof (Qle_Qabs (- x)) as Hm.
  rewrite Qabs_opp in Hm. lra.
Qed.

Lemma at_exponent_proper (e : Z) (x y : Q) :
  x == y -> at_exponent e x == at_exponent e y.
Proof.
  intro E. unfold at_exponent.
  assert (E' : x / 2 ^ e == y / 2 ^ e) by (rewrite E; reflexivity).
  now rewrite (round_half_even_proper _ _ E').
Qed.

(** Equal numbers round to the same double. *)
Lemma binary64_proper (x y : Q) : x == y -> Py.binary64 x == Py.binary64 y.
Proof.
  intro E. destruct (Qeq_dec x 0) as [H0 | H0].
  - rewrite (binary64_zero x H0), (binary64_zero y); [reflexivity |].
    now rewrite <- E.
  - rewrite (binary64_value x H0), (binary64_value y).
    + rewrite (exponent_proper x y H0 E). now apply at_exponent_proper.
    + now rewrite <- E.
Qed.

Lemma at_exponent_mono (e : Z) (x y : Q) :
  x <= y -> at_exponent e x <= at_exponent e y.
Proof.
  intro H. unfold at_exponent. pose proof (pow2_pos e) as Hp.
  apply Qmult_le_compat_r; [| lra].
  rewrite <- Zle_Qle. apply round_half_even_mono.
  apply Qmult_le_compat_r; [assumption |].
  apply Qlt_le_weak, Qinv_lt_0_compat, Hp.
Qed.

(** A multiple of [2^e] is left as it is. *)
Lemma at_exponent_multiple (e m : Z) :
  at_exponent e (inject_Z m * 2 ^ e) == inject_Z m * 2 ^ e.
Proof.
  unfold at_exponent. pose proof (pow2_pos e) as Hp.
  assert (E : inject_Z m * 2 ^ e / 2 ^ e == inject_Z m) by (field; lra).
  now rewrite (round_half_even_proper _ _ E), round_half_even_inject_Z.
Qed.

Lemma binary64_opp (x : Q) : Py.binary64 (- x) == - Py.binary64 x.
Proof.
  destruct (Qeq_dec x 0) as [H0 | H0].
  - rewrite (binary64_zero x H0), (binary64_zero (- x)); [reflexivity | lra].
  - rewrite (binary64_value x H0), (binary64_value (- x)) by lra.
    assert (E : exponent (- x) = exponent x).
    { unfold exponent. f_equal. f_equal. apply ilog2_proper.
      - rewrite Qabs_opp. pose proof (Qabs_nonneg x).
        destruct (Qeq_dec (Qabs x) 0) as [Ha | Ha]; [| lra].
        exfalso. apply H0.
        pose proof (Qle_Qabs x). pose proof (Qle_Qabs (- x)) as Hm.
        rewrite Qabs_opp in Hm. lra.
      - apply Qabs_opp. }
    rewrite E. unfold at_exponent. pose proof (pow2_pos (exponent x)) as Hp.
    assert (E' : - x / 2 ^ exponent x == - (x / 2 ^ exponent x))
      by (field; lra).
    rewrite (round_half_even_proper _ _ E'), round_half_even_opp,
      inject_Z_opp.
    ring.
Qed.

(** Where a positive number lies, given the exponent of its double. *)
Lemma exponent_bounds (x : Q) :
  0 < x ->
  x < 2 ^ (exponent x + 53)
  /\ ((-1074 < exponent x)%Z -> 2 ^ (exponent x + 52) <= x)
  /\ (-1074 <= exponent x)%Z.
Proof.
  intro Hx. unfold exponent.
  rewrite (ilog2_proper (Qabs x) x) by
    (rewrite Qabs_pos; [assumption || reflexivity | lra]).
  destruct (ilog2_spec x Hx) as [H1 H2].
  split; [| split].
  - apply Qlt_le_trans with (1 := H2). apply pow2_le. lia.
  - intro H. replace (Z.max (Py.ilog2 x - 52) (-1074) + 52)%Z
      with (Py.ilog2 x) by lia. assumption.
  - lia.
Qed.

Lemma exponent_mono (x y : Q) :
  0 < x -> x <= y -> (exponent x <= exponent y)%Z.
Proof.
  intros Hx Hxy. unfold exponent.
  assert (Py.ilog2 (Qabs x) <= Py.ilog2 (Qabs y))%Z; [| lia].
  apply ilog2_mono.
  - rewrite Qabs_pos; lra.
  - rewrite !Qabs_pos; lra.
Qed.

Lemma binary64_mono_pos (x y : Q) :
  0 < x -> x <= y -> Py.binary64 x <= Py.binary64 y.
Proof.
  intros Hx Hxy.
  rewrite (binary64_value x), (binary64_value y) by lra.
  pose proof (exponent_mono x y Hx Hxy) as He.
  destruct (exponent_bounds x Hx) as [Hx1 [Hx2 Hx3]].
  destruct (exponent_bounds y) as [Hy1 [Hy2 Hy3]]; [lra |].
  destruct (Z.eq_dec (exponent x) (exponent y)) as [E | E].
  - rewrite E. now apply at_exponent_mono.
  - (* a power of two separates the two numbers *)
    apply Qle_trans with (2 ^ (exponent y + 52)).
    + apply Qle_trans with (2 ^ (exponent x + 53)); [| apply pow2_le; lia].
      rewrite (pow2_plus (exponent x) 53), Qmult_comm.
      rewrite <- (pow2_inject 53) by lia.
      rewrite <- at_exponent_multiple. apply at_exponent_mono.
      rewrite pow2_inject, Qmult_comm, <- pow2_plus by lia. lra.
    + rewrite (pow2_plus (exponent y) 52), Qmult_comm.
      rewrite <- (pow2_inject 52) by lia.
      rewrite <- at_exponent_multiple at 1. apply at_exponent_mono.
      rewrite pow2_inject, Qmult_comm, <- pow2_plus by lia.
      apply Hy2. lia.
Qed.

Lemma binary64_nonneg (x : Q) : 0 <= x -> 0 <= Py.binary64 x.
Proof.
  intro Hx. destruct (Qeq_dec x 0) as [H0 | H0].
  - rewrite (binary64_zero x H0). lra.
  - rewrite (binary64_value x H0).
    assert (E : 0 == inject_Z 0 * 2 ^ exponent x) by ring.
    rewrite E at 1. rewrite <- at_exponent_multiple.
    apply at_exponent_mono. rewrite <- E. assumption.
Qed.

(** Rounding to binary64 is monotone. *)
Lemma binary64_mono (x y : Q) : x <= y -> Py.binary64 x <= Py.binary64 y.
Proof.
  intro Hxy.
  destruct (Qlt_le_dec 0 x) as [Hx | Hx]; [now apply binary64_mono_pos |].
  destruct (Qlt_le_dec y 0) as [Hy | Hy].
  - assert (H : Py.binary64 (- y) <= Py.binary64 (- x))
      by (apply binary64_mono_pos; lra).
    rewrite !binary64_opp in H. lra.
  - pose proof (binary64_nonneg y Hy).
    assert (H' : 0 <= Py.binary64 (- x)) by (apply binary64_nonneg; lra).
    rewrite binary64_opp in H'. lra.
Qed.

(** A number with a mantissa of at most 53 bits and an exponent of at least
    -1074 is a double. *)
Lemma binary64_representable_pos (m e : Z) :
  (0 < m < 2 ^ 53)%Z -> (-1074 <= e)%Z ->
  Py.binary64 (inject_Z m * 2 ^ e) == inject_Z m * 2 ^ e.
Proof.
  intros Hm He. pose proof (pow2_pos e) as Hp.
  assert (Hm1 : 0 < inject_Z m)
    by (change 0 with (inject_Z 0); rewrite <- Zlt_Qlt; lia).
  assert (Hm2 : inject_Z m < 2 ^ 53)
    by (rewrite <- pow2_inject by lia; rewrite <- Zlt_Qlt; lia).
  set (y := inject_Z m * 2 ^ e).
  assert (Hy : 0 < y) by (unfold y; apply Qmult_lt_0_compat; assumption).
  rewrite (binary64_value y) by lra.
  destruct (exponent_bounds y Hy) as [Hy1 [Hy2 Hy3]].
  assert (Hle : (exponent y <= e)%Z).
  { destruct (Z_le_gt_dec (exponent y) e) as [H | H]; [assumption | exfalso].
    assert (H' : 2 ^ (e + 53) <= y).
    { apply Qle_trans with (2 ^ (exponent y + 52));
        [apply pow2_le; lia | apply Hy2; lia]. }
    rewrite pow2_plus in H'. unfold y in H'.
    assert (inject_Z m * 2 ^ e < 2 ^ 53 * 2 ^ e)
      by (apply Qmult_lt_r; assumption).
    lra. }
  assert (E : y == inject_Z (m * 2 ^ (e - exponent y)) * 2 ^ exponent y).
  { revert Hle. generalize (exponent y) as ey. intros ey Hle. unfold y.
    rewrite inject_Z_mult. rewrite (pow2_inject (e - ey)) by lia.
    rewrite <- Qmult_assoc, <- pow2_plus.
    replace (e - ey + ey)%Z with e by lia. reflexivity. }
  rewrite (at_exponent_proper _ _ _ E), at_exponent_multiple.
  symmetry. exact E.
Qed.

Lemma binary64_idempotent_pos (x : Q) :
  0 < x -> Py.binary64 (Py.binary64 x) == Py.binary64 x.
Proof.
  intro Hx. destruct (exponent_bounds x Hx) as [Hx1 [Hx2 Hx3]].
  pose proof (binary64_value x) as Ev.
  set (e := exponent x) in *. pose proof (pow2_pos e) as Hp.
  set (m := Py.round_half_even (x / 2 ^ e)).
  assert (Ey : Py.binary64 x == inject_Z m * 2 ^ e) by (apply Ev; lra).
  assert (Hm0 : (0 <= m)%Z).
  { unfold m. rewrite <- (round_half_even_inject_Z 0).
    apply round_half_even_mono.
    apply Qle_shift_div_l; [assumption |].
    change (inject_Z 0) with 0. lra. }
  assert (Hm1 : (m <= 2 ^ 53)%Z).
  { unfold m. rewrite <- (round_half_even_inject_Z (2 ^ 53)).
    apply round_half_even_mono.
    apply Qle_shift_div_r; [assumption |].
    rewrite pow2_inject, <- pow2_plus, Z.add_comm by lia. lra. }
  destruct (Z.eq_dec m 0) as [Z0 | Z0];
    [| destruct (Z.eq_dec m (2 ^ 53)) as [Z1 | Z1]].
  - assert (E0 : Py.binary64 x == 0) by (rewrite Ey, Z0; ring).
    rewrite (binary64_proper _ _ E0), E0. reflexivity.
  - assert (E1 : Py.binary64 x == inject_Z (2 ^ 52) * 2 ^ (e + 1)).
    { rewrite Ey, Z1, !pow2_inject, <- !pow2_plus by lia.
      replace (53 + e)%Z with (52 + (e + 1))%Z by lia. reflexivity. }
    rewrite (binary64_proper _ _ E1), E1.
    apply binary64_representable_pos; [split; reflexivity | lia].
  - rewrite (binary64_proper _ _ Ey), Ey.
    apply binary64_representable_pos; [lia | assumption].
Qed.

(** Rounding a double gives it back. *)
Lemma binary64_idempotent (x : Q) :
  Py.binary64 (Py.binary64 x) == Py.binary64 x.
Proof.
  destruct (Qlt_le_dec 0 x) as [Hx | Hx];
    [now apply binary64_idempotent_pos |].
  destruct (Qeq_dec x 0) as [H0 | H0].
  - rewrite (binary64_zero x H0). reflexivity.
  - assert (H : Py.binary64 (Py.binary64 (- x)) == Py.binary64 (- x))
      by (apply binary64_idempotent_pos; lra).
    rewrite (binary64_proper _ _ (binary64_opp x)), !binary64_opp in H.
    lra.
Qed.

End RoundingFacts.

(** ** Urgency of an audio analysis *)

Module UrgencyFacts.
Import Audio.

Definition is_critical (fault : Fault) : Prop := urgency fault = "critical".
Definition is_warning (fault : Fault) : Prop := urgency fault = "warning".

Lemma has_urgency_Exists (u : string) (detected_faults : list Fault) :
  has_urgency u detected_faults = true
  <-> Exists (fun fault => urgency fault = u) detected_faults.
Proof.
  induction detected_faults as [| fault rest IH]; simpl.
  - split; [discriminate | intro H; inversion H].
  - destruct (String.eqb_spec (urgency fault) u) as [E | N].
    + split; [intros _; now left | reflexivity].
    + rewrite IH. split; intro H.
      * now right.
      * inversion H; subst; [contradiction | assumption].
Qed.

Lemma has_urgency_false (u : string) (detected_faults : list Fault) :
  has_urgency u detected_faults = false
  <-> ~ Exists (fun fault => urgency fault = u) detected_faults.
Proof.
  rewrite <- has_urgency_Exists.
  destruct (has_urgency u detected_faults); split; congruence.
Qed.

Lemma level_cases (detected_faults : list Fault) :
  _determine_urgency_level detected_faults =
    if has_urgency "critical" detected_faults then "critical"
    else if has_urgency "warning" detected_faults then "warning"
    else "normal".
Proof.
  destruct detected_faults; reflexivity.
Qed.

Lemma has_urgency_perm (u : string) (l l' : list Fault) :
  Permutation l l' -> has_urgency u l = has_urgency u l'.
Proof.
  intro P.
  destruct (has_urgency u l) eqn:E; symmetry.
  - apply has_urgency_Exists. apply has_urgency_Exists in E.
    rewrite Exists_exists in *. destruct E as [x [Hin Hx]].
    exists x. split; [eapply Permutation_in; eassumption | assumption].
  - apply has_urgency_false. apply has_urgency_false in E.
    intro H. apply E. rewrite Exists_exists in *.
    destruct H as [x [Hin Hx]]. exists x.
    split; [eapply Permutation_in; [symmetry |]; eassumption | assumption].
Qed.

(** C3.  The aggregate urgency of a list of detected faults is "critical"
    exactly when some fault has urgency critical; it is "warning" exactly
    when none is critical and some fault has urgency warning; it is
    "normal" exactly when none is critical and none is warning, which
    includes the empty list.  The order of the faults does not matter. *)
Theorem urgency_level_critical_dominates (detected_faults : list Fault) :
  (_determine_urgency_level detected_faults = "critical"
   <-> Exists is_critical detected_faults)
  /\ (_determine_urgency_level detected_faults = "warning"
      <-> ~ Exists is_critical detected_faults
          /\ Exists is_warning detected_faults)
  /\ (_determine_urgency_level detected_faults = "normal"
      <-> ~ Exists is_critical detected_faults
          /\ ~ Exists is_warning detected_faults)
  /\ _determine_urgency_level [] = "normal"
  /\ (forall reordered,
        Permutation detected_faults reordered ->
        _determine_urgency_level reordered
        = _determine_urgency_level detected_faults).
Proof.
  unfold is_critical, is_warning.
  rewrite level_cases.
  destruct (has_urgency "critical" detected_faults) eqn:C;
    [ apply has_urgency_Exists in C
    | destruct (has_urgency "warning" detected_faults) eqn:W;
      [ apply has_urgency_Exists in W | apply has_urgency_false in W ];
      apply has_urgency_false in C ].
  all: split; [ | split; [ | split; [ | split ] ] ].
  all: try reflexivity.
  all: try (split; [ try discriminate; tauto
                   | try tauto; intros; exfalso; tauto ]).
  all: intros reordered P; rewrite !level_cases;
    rewrite <- !(has_urgency_perm _ _ _ P).
  - apply has_urgency_Exists in C. now rewrite C.
  - apply has_urgency_false in C. apply has_urgency_Exists in W.
    now rewrite C, W.
  - apply has_urgency_false in C. apply has_urgency_false in W.
    now rewrite C, W.
Qed.

End UrgencyFacts.

(** ** The failure variant of the audio analysis *)

Module FailureFacts.
Import Audio.

(** The waveform librosa loads for an upload, if it loads one. *)
Definition loaded_waveform (w : World) (audio_data : list byte)
  : option (list Q) :=
  match write_temp_file w audio_data with
  | Py.Returned temp_file_path =>
      match librosa_load w temp_file_path audio_data with
      | Py.Returned y => Some y
      | Py.Raised _ => None
      end
  | Py.Raised _ => None
  end.

(** The temporary file is removed without an exception. *)
Definition cleanup_succeeds (w : World) (audio_data : list byte) : Prop :=
  forall temp_file_path,
    write_temp_file w audio_data = Py.Returned temp_file_path ->
    remove_temp_file w temp_file_path = Py.Returned tt.

Definition silent (y : list Q) : Prop := Forall (fun sample => sample == 0) y.

Lemma analyze_cases (w : World) (audio_data : list byte) :
  (exists message,
      analyze_engine_sound w audio_data
      = Py.Returned (_create_failed_analysis message))
  \/ (exists r,
        analyze_engine_sound w audio_data = Py.Returned r
        /\ analysis_successful r = true
        /\ analysis_failed r = None).
Proof.
  unfold analyze_engine_sound.
  destruct (write_temp_file w audio_data) as [temp_file_path | e]; simpl.
  2: { left. eexists. reflexivity. }
  destruct (remove_temp_file w temp_file_path) as [[] | e]; simpl.
  2: { left. eexists. reflexivity. }
  destruct (librosa_load w temp_file_path audio_data) as [y | e]; simpl.
  2: { left. eexists. reflexivity. }
  destruct (List.length y =? 0)%nat; simpl.
  - left. eexists. reflexivity.
  - right. eexists. repeat split.
Qed.

Lemma nonempty_waveform_succeeds
    (w : World) (audio_data : list byte) (y : list Q) :
  loaded_waveform w audio_data = Some y ->
  y <> [] ->
  cleanup_succeeds w audio_data ->
  exists r,
    analyze_engine_sound w audio_data = Py.Returned r
    /\ analysis_successful r = true.
Proof.
  intros Hy Hne Hclean.
  unfold loaded_waveform, cleanup_succeeds, analyze_engine_sound in *.
  destruct (write_temp_file w audio_data) as [p | e]; [| discriminate].
  cbn [Py.bind]. rewrite (Hclean p eq_refl).
  destruct (librosa_load w p audio_data) as [y' | e]; [| discriminate].
  injection Hy as ->. simpl.
  destruct y as [| s y]; [contradiction |]. simpl.
  eexists. split; reflexivity.
Qed.

(** The route hands a result on only when the analysis succeeded. *)
Lemma route_hands_on_successful_analyses
    (w : World) (audio : Request) (user_id : string)
    (audio_analysis : AudioAnalysisResult) :
  fst (diagnose_engine_sound w audio user_id) = Analysed audio_analysis ->
  analysis_successful audio_analysis = true.
Proof.
  unfold diagnose_engine_sound.
  destruct (negb (verify_user_id audio user_id)); [discriminate |].
  destruct (validate_audio_format (content_type audio) (filename audio))
    as [is_valid validation_message].
  destruct (negb is_valid); [discriminate |].
  destruct (read audio) as [audio_data | e]; [| discriminate].
  destruct (upload_engine_sound audio audio_data) as [[] | e];
    [| discriminate].
  destruct (analyze_cases w audio_data) as [[message E] | [r [E [S F]]]];
    rewrite E.
  - discriminate.
  - rewrite F. cbn [fst]. now intros [= <-].
Qed.

(** C10, as the source has it.  Whenever the audio analysis returns a
    result with [analysis_successful = false], that result has urgency level
    "normal", overall confidence 0.0, audio quality rating "failed" with
    score 0.0, and the fixed repair keywords "audio analysis failed" and
    "re-record audio", a list that is not empty.  The route does not pass
    the list on: when the analysis of an upload it has accepted and stored
    returns such a result, the route answers 400 with the message of the
    result and never comes to the tutorial search; and whenever the route
    does come to the search, the analysis had succeeded. *)
Theorem failure_variant_placeholders
    (w : World) (audio_data : list byte) (r : AudioAnalysisResult) :
  analyze_engine_sound w audio_data = Py.Returned r ->
  analysis_successful r = false ->
  urgency_level r = "normal"
  /\ overall_confidence r = 0.0
  /\ rating (audio_quality r) = "failed"
  /\ score (audio_quality r) = 0.0
  /\ repair_keywords r = ["audio analysis failed"; "re-record audio"]
  /\ repair_keywords r <> []
  /\ (exists message,
        error_message r = Some message
        /\ forall audio user_id gemini_repair_keywords,
             verify_user_id audio user_id = true ->
             fst (validate_audio_format (content_type audio)
                    (filename audio)) = true ->
             read audio = Py.Returned audio_data ->
             upload_engine_sound audio audio_data = Py.Returned tt ->
             diagnose_engine_sound w audio user_id
             = (HTTPException 400
                  ("Audio analysis failed: " ++ message)%string,
                [VerifyUser; ValidateAudioFormat; ReadAudio;
                 UploadEngineSound; AnalyzeEngineSound])
             /\ search_keywords gemini_repair_keywords w audio user_id
                = None)
  /\ (forall audio user_id gemini_repair_keywords keywords,
        search_keywords gemini_repair_keywords w audio user_id
        = Some keywords ->
        exists audio_analysis,
          fst (diagnose_engine_sound w audio user_id)
          = Analysed audio_analysis
          /\ analysis_successful audio_analysis = true
          /\ (gemini_repair_keywords audio_analysis
              = Py.Returned (Some keywords)
              \/ (gemini_repair_keywords audio_analysis = Py.Returned None
                  /\ keywords = ["engine diagnostic repair"]))).
Proof.
  intros Hr Hfail.
  assert (Hsearch :
            forall audio user_id gemini_repair_keywords keywords,
              search_keywords gemini_repair_keywords w audio user_id
              = Some keywords ->
              exists audio_analysis,
                fst (diagnose_engine_sound w audio user_id)
                = Analysed audio_analysis
                /\ analysis_successful audio_analysis = true
                /\ (gemini_repair_keywords audio_analysis
                    = Py.Returned (Some keywords)
                    \/ (gemini_repair_keywords audio_analysis
                        = Py.Returned None
                        /\ keywords = ["engine diagnostic repair"]))).
  { intros audio user_id gemini_repair_keywords keywords.
    unfold search_keywords.
    destruct (fst (diagnose_engine_sound w audio user_id))
      as [status_code detail | audio_analysis] eqn:E; [discriminate |].
    intro H. exists audio_analysis.
    split; [reflexivity |].
    split; [now apply (route_hands_on_successful_analyses w audio user_id) |].
    destruct (gemini_repair_keywords audio_analysis) as [[ks |] | e];
      [left | right | discriminate]; now injection H as <-. }
  destruct (analyze_cases w audio_data) as [[message E] | [r' [E [S _]]]];
    rewrite E in Hr; injection Hr as <-; [| congruence].
  cbn [_create_failed_analysis urgency_level overall_confidence
         audio_quality rating score repair_keywords error_message].
  repeat match goal with |- _ /\ _ => split end;
    try reflexivity; try discriminate; try exact Hsearch.
  exists message. split; [reflexivity |].
  intros audio user_id gemini_repair_keywords Huser Hvalid Hread Hupload.
  assert (Hroute :
            diagnose_engine_sound w audio user_id
            = (HTTPException 400
                 ("Audio analysis failed: " ++ message)%string,
               [VerifyUser; ValidateAudioFormat; ReadAudio;
                UploadEngineSound; AnalyzeEngineSound])).
  { unfold diagnose_engine_sound. rewrite Huser. cbn [negb].
    destruct (validate_audio_format (content_type audio) (filename audio))
      as [is_valid validation_message].
    cbn [fst] in Hvalid. subst is_valid. cbn [negb].
    rewrite Hread, Hupload, E. reflexivity. }
  split; [exact Hroute |].
  unfold search_keywords. rewrite Hroute. reflexivity.
Qed.

Definition corrupted : AudioAnalysisResult :=
  _create_failed_analysis "Audio file could not be loaded or is corrupted".

Lemma failure_variant_placeholders_witness :
  urgency_level corrupted = "normal"
  /\ overall_confidence corrupted = 0.0
  /\ rating (audio_quality corrupted) = "failed"
  /\ score (audio_quality corrupted) = 0.0
  /\ repair_keywords corrupted = ["audio analysis failed"; "re-record audio"]
  /\ repair_keywords corrupted <> []
  /\ search_keywords (fun r => Py.Returned (Some (repair_keywords r)))
       Examples.example_world (Examples.wav_upload [x52; x49]) "driver"
     = None.
Proof.
  destruct (failure_variant_placeholders Examples.example_world [x52; x49]
              corrupted eq_refl eq_refl)
    as (H1 & H2 & H3 & H4 & H5 & H6 & [message [Hm Hroute]] & _).
  repeat match goal with |- _ /\ _ => split end; try assumption.
  apply (Hroute (Examples.wav_upload [x52; x49]) "driver"); reflexivity.
Defined.

(** C10 as the specification states it fails.  An upload that librosa
    cannot decode gives the failure variant with its two repair keywords;
    the route answers 400, and the tutorial search is not called, not even
    by a narration that would hand the keywords of the analysis on.  And
    when the analysis succeeds, the search gets the keywords of the
    narration, or "engine diagnostic repair" when the narration has none:
    not the keywords of the analysis. *)
Lemma failed_analysis_does_not_reach_the_tutorial_search :
  analyze_engine_sound Examples.example_world [x52; x49]
  = Py.Returned corrupted
  /\ analysis_successful corrupted = false
  /\ repair_keywords corrupted = ["audio analysis failed"; "re-record audio"]
  /\ diagnose_engine_sound Examples.example_world
       (Examples.wav_upload [x52; x49]) "driver"
     = (HTTPException 400
          "Audio analysis failed: Audio file could not be loaded or is corrupted",
        [VerifyUser; ValidateAudioFormat; ReadAudio; UploadEngineSound;
         AnalyzeEngineSound])
  /\ search_keywords (fun r => Py.Returned (Some (repair_keywords r)))
       Examples.example_world (Examples.wav_upload [x52; x49]) "driver"
     = None
  /\ search_keywords (fun _ => Py.Returned None)
       Examples.example_world (Examples.wav_upload [x00; x00; x00]) "driver"
     = Some ["engine diagnostic repair"].
Proof.
  repeat split.
Qed.

(** C1, as the source has it.  The analysis never raises: it always
    returns a result.  When the loaded waveform is empty, the result has
    [analysis_successful = false], no detected faults, no sound patterns,
    and an audio quality of score 0.0 whose rating is "failed".  A
    waveform that is not empty is analysed whatever its samples are, also
    when all of them are zero: once the temporary file is removed the
    result has [analysis_successful = true]. *)
Theorem empty_waveform_fails_and_nothing_raises
    (w : World) (audio_data : list byte) :
  (exists r, analyze_engine_sound w audio_data = Py.Returned r)
  /\ (loaded_waveform w audio_data = Some [] ->
      exists r,
        analyze_engine_sound w audio_data = Py.Returned r
        /\ analysis_successful r = false
        /\ detected_faults r = []
        /\ sound_patterns r = []
        /\ score (audio_quality r) = 0.0
        /\ rating (audio_quality r) = "failed")
  /\ (forall y,
        loaded_waveform w audio_data = Some y ->
        y <> [] ->
        cleanup_succeeds w audio_data ->
        exists r,
          analyze_engine_sound w audio_data = Py.Returned r
          /\ analysis_successful r = true).
Proof.
  split; [| split].
  - destruct (analyze_cases w audio_data) as [[m E] | [r [E _]]];
      eexists; exact E.
  - unfold loaded_waveform, analyze_engine_sound.
    destruct (write_temp_file w audio_data) as [p | e]; [| discriminate].
    cbn [Py.bind].
    destruct (librosa_load w p audio_data) as [y | e]; [| discriminate].
    intros [= ->]. simpl.
    destruct (remove_temp_file w p) as [[] | e]; simpl;
      (eexists; split; [reflexivity | simpl; intuition reflexivity]).
  - intros y. apply nonempty_waveform_succeeds.
Qed.

Lemma empty_waveform_fails_and_nothing_raises_witness :
  (exists r,
      analyze_engine_sound Examples.example_world [] = Py.Returned r
      /\ analysis_successful r = false
      /\ detected_faults r = []
      /\ sound_patterns r = []
      /\ score (audio_quality r) = 0.0
      /\ rating (audio_quality r) = "failed")
  /\ (exists r,
        analyze_engine_sound Examples.example_world [x00; x00; x00] = Py.Returned r
        /\ analysis_successful r = true).
Proof.
  split.
  - apply (empty_waveform_fails_and_nothing_raises Examples.example_world []).
    reflexivity.
  - apply (empty_waveform_fails_and_nothing_raises Examples.example_world
             [x00; x00; x00]) with (y := [0.0; 0.0; 0.0]).
    + reflexivity.
    + discriminate.
    + intros p _. reflexivity.
Defined.

(** C1 as the specification states it fails twice.  A silent waveform of
    three zero samples is analysed like any other one: whatever the
    measurements are, the result has [analysis_successful = true].  And for
    the empty waveform the rating of the audio quality is "failed", not
    "poor". *)
Lemma silent_waveform_is_analysed :
  silent [0.0; 0.0; 0.0]
  /\ (forall (w : World) (audio_data : list byte),
        loaded_waveform w audio_data = Some [0.0; 0.0; 0.0] ->
        cleanup_succeeds w audio_data ->
        exists r,
          analyze_engine_sound w audio_data = Py.Returned r
          /\ analysis_successful r = true)
  /\ loaded_waveform Examples.example_world [x00; x00; x00] = Some [0.0; 0.0; 0.0]
  /\ (exists r,
        analyze_engine_sound Examples.example_world [x00; x00; x00] = Py.Returned r
        /\ analysis_successful r = true)
  /\ loaded_waveform Examples.example_world [] = Some []
  /\ (exists r,
        analyze_engine_sound Examples.example_world [] = Py.Returned r
        /\ rating (audio_quality r) = "failed"
        /\ String.eqb (rating (audio_quality r)) "poor" = false).
Proof.
  split; [| split; [| split; [| split; [| split]]]].
  - repeat constructor.
  - intros w audio_data Hy Hclean.
    apply (nonempty_waveform_succeeds w audio_data _ Hy);
      [discriminate | assumption].
  - reflexivity.
  - eexists. split; reflexivity.
  - reflexivity.
  - eexists. split; [reflexivity | split; reflexivity].
Qed.

End FailureFacts.

(** ** Validation of the declared audio format *)

Module ValidationFacts.
Import Audio.

(** The declared content type is a key of [supported_formats]. *)
Definition whitelisted (content_type : option string) : bool :=
  match content_type with
  | Some content_type => Py.contains (map fst supported_formats) content_type
  | None => false
  end.

(** The three messages of a rejected content type. *)
Definition rejection_messages : list string :=
  [ "File must be an audio file";
    ("Unsupported audio format. Supported formats: "
     ++ "['audio/wav', 'audio/mpeg', 'audio/mp4', 'audio/x-m4a', "
     ++ "'audio/ogg', 'audio/flac']")%string;
    "Audio format validation failed" ].

(** The detail the route answers with when the analyzer could not decode
    the upload starts with this. *)
Definition decode_failure_prefix : string := "Audio analysis failed: ".

Lemma rejected_content_type (content_type filename : option string) :
  whitelisted content_type = false ->
  fst (validate_audio_format content_type filename) = false
  /\ In (snd (validate_audio_format content_type filename))
        rejection_messages.
Proof.
  intro H. unfold validate_audio_format.
  destruct content_type as [ct |]; simpl in H.
  - destruct (Py.startswith ct "audio/"); simpl.
    + rewrite H. simpl. split; [reflexivity | right; left; reflexivity].
    + split; [reflexivity | left; reflexivity].
  - split; [reflexivity | right; right; left; reflexivity].
Qed.

Lemma rejection_is_not_a_decode_failure (message : string) :
  In message rejection_messages ->
  String.prefix decode_failure_prefix message = false.
Proof.
  intros [<- | [<- | [<- | []]]]; reflexivity.
Qed.

(** C9.  A declared content type that is not one of the supported audio
    types is rejected by the format validation with one of its validation
    messages, whatever the file name is.  The route then answers 400 with
    that message after the user check and the validation alone: the upload
    is neither read nor stored nor handed to the analyzer, so no decoding
    is attempted.  The message never has the form of the detail that
    reports a decode failure. *)
Theorem unsupported_content_type_rejected_before_decoding
    (w : World) (audio : Request) (user_id : string) :
  whitelisted (content_type audio) = false ->
  let verdict := validate_audio_format (content_type audio) (filename audio) in
  fst verdict = false
  /\ In (snd verdict) rejection_messages
  /\ String.prefix decode_failure_prefix (snd verdict) = false
  /\ ~ In ReadAudio (snd (diagnose_engine_sound w audio user_id))
  /\ ~ In AnalyzeEngineSound (snd (diagnose_engine_sound w audio user_id))
  /\ (verify_user_id audio user_id = true ->
      diagnose_engine_sound w audio user_id
      = (HTTPException 400 (snd verdict),
         [VerifyUser; ValidateAudioFormat])).
Proof.
  intros H verdict.
  destruct (rejected_content_type _ (filename audio) H) as [Hv Hm].
  fold verdict in Hv, Hm.
  assert (Hroute :
            diagnose_engine_sound w audio user_id
            = if verify_user_id audio user_id
              then (HTTPException 400 (snd verdict),
                    [VerifyUser; ValidateAudioFormat])
              else (HTTPException 404 "User not found", [VerifyUser])).
  { unfold diagnose_engine_sound. fold verdict.
    destruct (verify_user_id audio user_id); simpl; [| reflexivity].
    destruct verdict as [is_valid message]. simpl in Hv. subst is_valid.
    reflexivity. }
  split; [assumption |].
  split; [assumption |].
  split; [now apply rejection_is_not_a_decode_failure |].
  rewrite Hroute.
  destruct (verify_user_id audio user_id); simpl.
  - repeat split; try reflexivity; intros [E | [E | []]]; discriminate.
  - repeat split; try discriminate; intros [E | []]; discriminate.
Qed.

Lemma unsupported_content_type_rejected_before_decoding_witness :
  fst (validate_audio_format (Some "text/plain") (Some "notes.txt")) = false
  /\ diagnose_engine_sound Examples.example_world Examples.text_upload "user-1"
     = (HTTPException 400 "File must be an audio file",
        [VerifyUser; ValidateAudioFormat]).
Proof.
  pose proof (unsupported_content_type_rejected_before_decoding
                Examples.example_world Examples.text_upload "user-1" eq_refl)
    as [Hv [_ [_ [_ [_ Hroute]]]]].
  split; [exact Hv | exact (Hroute eq_refl)].
Defined.

End ValidationFacts.

(** ** The failure result of the image analysis *)

Module ImageFailureFacts.
Import Image.

(** The buffer cannot be decoded: [cv2.imdecode] returns [None], or the
    decoder raises. *)
Definition not_decodable (w : World) (image_data : list byte) : Prop :=
  match imdecode w image_data with
  | Py.Returned (Some _) => False
  | Py.Returned None | Py.Raised _ => True
  end.

Lemma analyze_returns (w : World) (image_data : list byte) :
  exists r, analyze_dashboard_image w image_data = Py.Returned r.
Proof.
  unfold analyze_dashboard_image.
  destruct (imdecode w image_data) as [[image |] | e]; simpl;
    eexists; reflexivity.
Qed.

Lemma not_decodable_result (w : World) (image_data : list byte) :
  not_decodable w image_data ->
  exists e, analyze_dashboard_image w image_data
            = Py.Returned (failed_analysis e).
Proof.
  unfold not_decodable, analyze_dashboard_image.
  destruct (imdecode w image_data) as [[image |] | e]; simpl;
    [contradiction | |]; intros _; eexists; reflexivity.
Qed.

(** C2, as the source has it.  The image analysis never raises: it always
    returns a result.  For a buffer that cannot be decoded the result is
    complete, with [dashboard_detected = false], no detected lights,
    [processing_successful = false] and an error message, and its scores
    are the fixed placeholders of the source: image quality score 0.5 and
    overall confidence 0.3. *)
Theorem undecodable_image_placeholders
    (w : World) (image_data : list byte) :
  (exists r, analyze_dashboard_image w image_data = Py.Returned r)
  /\ (not_decodable w image_data ->
      exists r,
        analyze_dashboard_image w image_data = Py.Returned r
        /\ dashboard_detected r = false
        /\ detected_lights r = []
        /\ score (image_quality r) = 0.5
        /\ issues (image_quality r) = ["Analysis failed"]
        /\ overall_confidence r = 0.3
        /\ processing_successful (analysis_metadata r) = false
        /\ error (analysis_metadata r) <> None).
Proof.
  split; [apply analyze_returns |].
  intro H. destruct (not_decodable_result w image_data H) as [e E].
  eexists. split; [exact E |]. simpl. intuition discriminate.
Qed.

Lemma undecodable_image_placeholders_witness :
  exists r,
    analyze_dashboard_image Examples.no_decoder [x6e; x6f] = Py.Returned r
    /\ dashboard_detected r = false
    /\ detected_lights r = []
    /\ score (image_quality r) = 0.5
    /\ issues (image_quality r) = ["Analysis failed"]
    /\ overall_confidence r = 0.3
    /\ processing_successful (analysis_metadata r) = false
    /\ error (analysis_metadata r) <> None.
Proof.
  apply (undecodable_image_placeholders Examples.no_decoder [x6e; x6f]).
  exact I.
Defined.

(** C2 as the specification states it fails: for a buffer that does not
    decode, neither score of the result is zero. *)
Lemma undecodable_image_scores_are_not_zero :
  imdecode Examples.no_decoder [x6e; x6f] = Py.Returned None
  /\ exists r,
       analyze_dashboard_image Examples.no_decoder [x6e; x6f] = Py.Returned r
       /\ dashboard_detected r = false
       /\ score (image_quality r) = 0.5
       /\ overall_confidence r = 0.3
       /\ 0 < score (image_quality r)
       /\ 0 < overall_confidence r.
Proof.
  split; [reflexivity |].
  eexists. split; [reflexivity |].
  simpl. repeat split; reflexivity.
Qed.

End ImageFailureFacts.

(** ** Overall confidence of an audio analysis *)

Module ConfidenceFacts.
Import Audio.

(** The overall confidence in the words of the specification: the sum of
    four terms, capped at 1. *)
Definition total (xs : list Q) : Q := fold_right Qplus 0 xs.

Definition average (xs : list Q) : Q := total xs / Py.len xs.

Definition severity_factor (fault : Fault) : Q :=
  if String.eqb (severity fault) "critical" then 1.0 else 0.8.

Definition quality_term (audio_quality : AudioQuality) : Q :=
  score audio_quality * 0.3.

Definition fault_term (detected_faults : list Fault) : Q :=
  match detected_faults with
  | [] => 0.2
  | _ =>
      average
        (map (fun fault => confidence fault * severity_factor fault)
           detected_faults) * 0.4
  end.

Definition frequency_term (frequency_analysis : Analysis FrequencyProfile) : Q :=
  if Qlt_le_dec 0 (get_dominant_frequency frequency_analysis) then 0.2 else 0.

Definition pattern_term (sound_patterns : list SoundPattern) : Q :=
  match sound_patterns with
  | [] => 0
  | _ => average (map strength sound_patterns) * 0.1
  end.

Definition spec_overall_confidence (detected_faults : list Fault)
    (audio_quality : AudioQuality)
    (frequency_analysis : Analysis FrequencyProfile)
    (sound_patterns : list SoundPattern) : Q :=
  Qmin (quality_term audio_quality + fault_term detected_faults
        + frequency_term frequency_analysis + pattern_term sound_patterns)
       1.

Lemma fold_left_total {A} (g : A -> Q) (l : list A) (a : Q) :
  fold_left (fun acc x => acc + g x) l a == a + total (map g l).
Proof.
  revert a. induction l as [| x l IH]; intro a; simpl.
  - lra.
  - rewrite IH. lra.
Qed.

Lemma fold_left_Qplus (xs : list Q) (a : Q) :
  fold_left Qplus xs a == a + total xs.
Proof.
  revert a. induction xs as [| x xs IH]; intro a; simpl.
  - lra.
  - rewrite IH. lra.
Qed.

Lemma sum_total (xs : list Q) : Py.sum xs == total xs.
Proof.
  unfold Py.sum. rewrite fold_left_Qplus. lra.
Qed.

Lemma mean_average (xs : list Q) : Py.mean xs == average xs.
Proof.
  unfold Py.mean, average. now rewrite sum_total.
Qed.

Lemma min_Qmin (a b : Q) : Py.min a b == Qmin a b.
Proof.
  unfold Py.min.
  destruct (PyFacts.ltb_cases b a) as [[-> H] | [-> H]].
  - rewrite Q.min_r; [reflexivity | lra].
  - rewrite Q.min_l; [reflexivity | assumption].
Qed.

Lemma total_nonneg (xs : list Q) : Forall (fun x => 0 <= x) xs -> 0 <= total xs.
Proof.
  induction 1 as [| x xs Hx _ IH]; simpl; lra.
Qed.

Lemma len_nonneg {A} (xs : list A) : 0 <= Py.len xs.
Proof.
  unfold Py.len. change 0 with (inject_Z 0). rewrite <- Zle_Qle. lia.
Qed.

Lemma average_nonneg (xs : list Q) :
  Forall (fun x => 0 <= x) xs -> 0 <= average xs.
Proof.
  intro H. unfold average, Qdiv.
  apply Qmult_le_0_compat.
  - now apply total_nonneg.
  - apply Qinv_le_0_compat. apply len_nonneg.
Qed.

Lemma severity_factor_nonneg (fault : Fault) : 0 <= severity_factor fault.
Proof.
  unfold severity_factor. destruct (String.eqb _ _); lra.
Qed.

Lemma fault_term_nonneg (detected_faults : list Fault) :
  Forall (fun fault => 0 <= confidence fault) detected_faults ->
  0 <= fault_term detected_faults.
Proof.
  intro H. unfold fault_term.
  destruct detected_faults as [| f fs]; [lra |].
  apply Qmult_le_0_compat; [| lra].
  apply average_nonneg. rewrite Forall_map.
  revert H. apply Forall_impl. intros fault Hc.
  apply Qmult_le_0_compat; [assumption | apply severity_factor_nonneg].
Qed.

Lemma frequency_term_nonneg (frequency_analysis : Analysis FrequencyProfile) :
  0 <= frequency_term frequency_analysis.
Proof.
  unfold frequency_term. destruct (Qlt_le_dec _ _); lra.
Qed.

Lemma pattern_term_nonneg (sound_patterns : list SoundPattern) :
  Forall (fun pattern => 0 <= strength pattern) sound_patterns ->
  0 <= pattern_term sound_patterns.
Proof.
  intro H. unfold pattern_term.
  destruct sound_patterns as [| p ps]; [lra |].
  apply Qmult_le_0_compat; [| lra].
  apply average_nonneg. now rewrite Forall_map.
Qed.

Lemma len_cons {A} (x : A) (xs : list A) : Py.len (x :: xs) == 1 + Py.len xs.
Proof.
  unfold Py.len. cbn [List.length].
  rewrite Nat2Z.inj_succ, <- Z.add_1_l, inject_Z_plus. reflexivity.
Qed.

Lemma total_le_len (xs : list Q) :
  Forall (fun x => x <= 1) xs -> total xs <= Py.len xs.
Proof.
  induction 1 as [| x xs Hx _ IH].
  - discriminate.
  - rewrite len_cons. simpl. lra.
Qed.

Lemma average_le_one (xs : list Q) :
  xs <> [] -> Forall (fun x => x <= 1) xs -> average xs <= 1.
Proof.
  intros Hne H. unfold average.
  apply Qle_shift_div_r.
  - destruct xs as [| x xs]; [contradiction |].
    rewrite len_cons. pose proof (len_nonneg xs). lra.
  - pose proof (total_le_len xs H). lra.
Qed.

Lemma fault_term_le (detected_faults : list Fault) :
  Forall (fun fault => 0 <= confidence fault <= 1) detected_faults ->
  fault_term detected_faults <= 0.4.
Proof.
  intro H. unfold fault_term.
  destruct detected_faults as [| f fs]; [lra |].
  assert (average
            (map (fun fault => confidence fault * severity_factor fault)
               (f :: fs)) <= 1).
  { apply average_le_one; [discriminate |].
    rewrite Forall_map. revert H. apply Forall_impl.
    intros fault [H0 H1]. unfold severity_factor.
    destruct (String.eqb _ _); lra. }
  lra.
Qed.

Lemma pattern_term_le (sound_patterns : list SoundPattern) :
  Forall (fun pattern => strength pattern <= 1) sound_patterns ->
  pattern_term sound_patterns <= 0.1.
Proof.
  intro H. unfold pattern_term.
  destruct sound_patterns as [| p ps]; [lra |].
  assert (average (map strength (p :: ps)) <= 1).
  { apply average_le_one; [discriminate | now rewrite Forall_map]. }
  lra.
Qed.

Lemma frequency_term_le (frequency_analysis : Analysis FrequencyProfile) :
  frequency_term frequency_analysis <= 0.2.
Proof.
  unfold frequency_term. destruct (Qlt_le_dec _ _); lra.
Qed.

Lemma len_map {A B} (g : A -> B) (l : list A) : Py.len (map g l) = Py.len l.
Proof.
  unfold Py.len. now rewrite length_map.
Qed.

Lemma weighted_faults (detected_faults : list Fault) :
  fold_left
    (fun fault_confidence fault =>
       let fault_conf := confidence fault in
       let severity_weight :=
         if String.eqb (severity fault) "critical" then 1.0 else 0.8 in
       fault_confidence + fault_conf * severity_weight)
    detected_faults 0
  / Py.len detected_faults
  == average
       (map (fun fault => confidence fault * severity_factor fault)
          detected_faults).
Proof.
  unfold average. rewrite len_map.
  rewrite (fold_left_total
             (fun fault => confidence fault * severity_factor fault)).
  now rewrite Qplus_0_l.
Qed.

Lemma confidence_is_spec (detected_faults : list Fault)
    (audio_quality : AudioQuality)
    (frequency_analysis : Analysis FrequencyProfile)
    (sound_patterns : list SoundPattern) :
  _calculate_enhanced_confidence detected_faults audio_quality
    frequency_analysis sound_patterns
  == spec_overall_confidence detected_faults audio_quality
       frequency_analysis sound_patterns.
Proof.
  unfold _calculate_enhanced_confidence, spec_overall_confidence.
  rewrite min_Qmin. apply Q.min_compat; [| lra].
  unfold quality_term, fault_term, frequency_term, pattern_term.
  destruct (PyFacts.ltb_cases 0 (get_dominant_frequency frequency_analysis))
    as [[-> Hd] | [-> Hd]];
    destruct (Qlt_le_dec 0 (get_dominant_frequency frequency_analysis))
      as [Hd' | Hd']; try lra;
    destruct detected_faults as [| f fs]; destruct sound_patterns as [| p ps];
    rewrite ?weighted_faults, ?mean_average; lra.
Qed.

(** C4, as the source has it.  The overall audio confidence is the quality
    score times 0.3, plus 0.4 times the mean over the detected faults of
    confidence times 1.0 for a critical fault and 0.8 for any other (0.2
    when no fault is detected), plus 0.2 when the dominant frequency is
    positive, plus 0.1 times the mean pattern strength (nothing when there
    is no pattern), the whole capped at 1.  It is therefore at most 1; it is
    at least 0 when the quality score, the fault confidences and the
    pattern strengths are not negative. *)
Theorem overall_confidence_formula_and_range
    (detected_faults : list Fault) (audio_quality : AudioQuality)
    (frequency_analysis : Analysis FrequencyProfile)
    (sound_patterns : list SoundPattern) :
  _calculate_enhanced_confidence detected_faults audio_quality
    frequency_analysis sound_patterns
  == spec_overall_confidence detected_faults audio_quality
       frequency_analysis sound_patterns
  /\ _calculate_enhanced_confidence detected_faults audio_quality
       frequency_analysis sound_patterns <= 1
  /\ (0 <= score audio_quality ->
      Forall (fun fault => 0 <= confidence fault) detected_faults ->
      Forall (fun pattern => 0 <= strength pattern) sound_patterns ->
      0 <= _calculate_enhanced_confidence detected_faults audio_quality
             frequency_analysis sound_patterns).
Proof.
  split; [apply confidence_is_spec |].
  split.
  - unfold _calculate_enhanced_confidence.
    match goal with
    | |- Py.min ?c _ <= _ => pose proof (PyFacts.min_le_r c 1.0)
    end.
    lra.
  - intros Hq Hf Hp. rewrite confidence_is_spec.
    unfold spec_overall_confidence. apply Q.min_glb; [| lra].
    pose proof (fault_term_nonneg _ Hf).
    pose proof (frequency_term_nonneg frequency_analysis).
    pose proof (pattern_term_nonneg _ Hp).
    unfold quality_term. lra.
Qed.

Lemma overall_confidence_formula_and_range_witness :
  0 <= _calculate_enhanced_confidence
         (_detect_engine_faults (Py.float_sum Py.binary64)
            (Computed Examples.mid_profile)
            Examples.rhythmic_patterns)
         Examples.fair_quality (Computed Examples.mid_profile)
         Examples.rhythmic_patterns.
Proof.
  apply (overall_confidence_formula_and_range
           (_detect_engine_faults (Py.float_sum Py.binary64)
              (Computed Examples.mid_profile)
              Examples.rhythmic_patterns)
           Examples.fair_quality (Computed Examples.mid_profile)
           Examples.rhythmic_patterns).
  - simpl. lra.
  - vm_compute. repeat constructor; discriminate.
  - vm_compute. repeat constructor; discriminate.
Defined.

(** C4 as the specification states it fails in its last part: the quality
    score has no lower bound.  For the all but silent recording of the
    examples the analysis succeeds with the quality score -2.5, and the
    overall confidence, 0.3 * -2.5 + 0.2 + 0.2, is negative; with that
    quality score it is negative whatever faults, frequencies and patterns
    come with it. *)
Lemma faint_recording_has_negative_confidence :
  FailureFacts.loaded_waveform Examples.faint_world [x52; x49; x46; x46]
  = Some Examples.faint_waveform
  /\ score (_analyze_audio_quality (Py.Returned Examples.faint_measurements)
              Examples.faint_waveform 22050) == -2.5
  /\ (forall detected_faults frequency_analysis sound_patterns,
        Forall (fun fault => 0 <= confidence fault <= 1) detected_faults ->
        Forall (fun pattern => strength pattern <= 1) sound_patterns ->
        _calculate_enhanced_confidence detected_faults
          (_analyze_audio_quality (Py.Returned Examples.faint_measurements)
             Examples.faint_waveform 22050)
          frequency_analysis sound_patterns < 0)
  /\ exists r,
       analyze_engine_sound Examples.faint_world [x52; x49; x46; x46]
       = Py.Returned r
       /\ analysis_successful r = true
       /\ detected_faults r = []
       /\ sound_patterns r = []
       /\ score (audio_quality r) == -2.5
       /\ overall_confidence r
          = _calculate_enhanced_confidence (detected_faults r)
              (audio_quality r) (frequency_analysis r) (sound_patterns r)
       /\ overall_confidence r == -0.35
       /\ overall_confidence r < 0.
Proof.
  split; [reflexivity |]. split; [reflexivity |]. split.
  { intros detected_faults frequency_analysis sound_patterns Hf Hp.
    rewrite confidence_is_spec. unfold spec_overall_confidence.
    pose proof (fault_term_le _ Hf).
    pose proof (frequency_term_le frequency_analysis).
    pose proof (pattern_term_le _ Hp).
    assert (Hq : quality_term
                   (_analyze_audio_quality
                      (Py.Returned Examples.faint_measurements)
                      Examples.faint_waveform 22050) == -0.75)
      by reflexivity.
    match goal with
    | |- Qmin ?a 1 < 0 => pose proof (Q.le_min_l a 1)
    end.
    lra. }
  eexists. split; [reflexivity |].
  vm_compute. repeat split.
Qed.

End ConfidenceFacts.

(** ** Scoring of the fault signatures *)

Module FaultFacts.
Import Audio.

(** *** The arithmetic of the scoring loop *)

(** What the scoring loop needs of its arithmetic: rounding respects equality
    and order, and leaves zero and its own results as they are. *)
Record Rounding (fl : Q -> Q) : Prop := {
  rounding_proper : forall x y, x == y -> fl x == fl y;
  rounding_mono : forall x y, x <= y -> fl x <= fl y;
  rounding_idempotent : forall x, fl (fl x) == fl x;
  rounding_zero : fl 0 == 0
}.

Lemma unrounded_rounding : Rounding Py.unrounded.
Proof.
  split; unfold Py.unrounded; intros; try assumption; reflexivity.
Qed.

Lemma binary64_rounding : Rounding Py.binary64.
Proof.
  split.
  - apply RoundingFacts.binary64_proper.
  - apply RoundingFacts.binary64_mono.
  - apply RoundingFacts.binary64_idempotent.
  - reflexivity.
Qed.

(** The literal [1.0] is a double. *)
Lemma binary64_one : Py.binary64 1.0 == 1.
Proof. reflexivity. Qed.

(** What the band rule adds to the confidence of a signature. *)
Definition band_amount (fl : Q -> Q) (float_sum : list Q -> Q)
    (fault_name : string) (band_energies : list (string * Q)) : Q :=
  fst (band_stage fl float_sum fault_name band_energies (0, [])).

(** What the peak rule adds for a number of matching peaks. *)
Definition peak_amount (fl : Q -> Q) (count : nat) : Q :=
  match count with
  | O => 0
  | S _ =>
      fl (fl 0.2 * Py.min (fl (inject_Z (Z.of_nat count) / 3)) (fl 1.0))
  end.

Ltac branches :=
  repeat match goal with
         | |- context [if ?c then _ else _] => destruct c
         end.

Section Monotone.
Variable fl : Q -> Q.
Variable float_sum : list Q -> Q.
Hypothesis Hfl : Rounding fl.

Lemma rounding_nonneg (x : Q) : 0 <= x -> 0 <= fl x.
Proof.
  intro H. rewrite <- (rounding_zero fl Hfl). now apply rounding_mono.
Qed.

Lemma add_proper (a a' c c' : Q) :
  a == a' -> c == c' -> fl (a + c) == fl (a' + c').
Proof.
  intros Ha Hc. apply rounding_proper; [assumption |]. now rewrite Ha, Hc.
Qed.

Lemma add_mono (a a' c c' : Q) :
  a <= a' -> c <= c' -> fl (a + c) <= fl (a' + c').
Proof.
  intros Ha Hc. apply rounding_mono; [assumption | lra].
Qed.

(** Adding a non-negative amount to a number the arithmetic holds does not
    lower it. *)
Lemma add_increases (a c : Q) : fl a == a -> 0 <= c -> a <= fl (a + c).
Proof.
  intros Ha Hc. rewrite <- Ha at 1. apply rounding_mono; [assumption | lra].
Qed.

Lemma literal_nonneg (c : Q) : 0 <= c -> 0 <= fl c.
Proof. apply rounding_nonneg. Qed.

Lemma product_nonneg (x c : Q) : 0 <= x -> 0 <= c -> 0 <= fl (fl x * fl c).
Proof.
  intros Hx Hc. apply rounding_nonneg, Qmult_le_0_compat;
    now apply rounding_nonneg.
Qed.

(** **** Each stage leaves a confidence the arithmetic holds *)

Lemma dominant_stage_held fault_name freq_range dominant_freq (st : Score) :
  fl (fst st) == fst st ->
  fl (fst (dominant_stage fl fault_name freq_range dominant_freq st))
  == fst (dominant_stage fl fault_name freq_range dominant_freq st).
Proof.
  intro H. unfold dominant_stage. branches; cbn [fst];
    [apply rounding_idempotent | ]; assumption.
Qed.

Lemma peak_stage_fst fault_name freq_range peak_frequencies (st : Score) :
  fst (peak_stage fl fault_name freq_range peak_frequencies st)
  = match filter (fun f => in_range freq_range (fl f)) peak_frequencies with
    | [] => fst st
    | matching_peaks =>
        fl (fst st + peak_amount fl (List.length matching_peaks))
    end.
Proof.
  unfold peak_stage. cbv zeta.
  destruct (filter _ peak_frequencies); reflexivity.
Qed.

Lemma peak_stage_held fault_name freq_range peak_frequencies (st : Score) :
  fl (fst st) == fst st ->
  fl (fst (peak_stage fl fault_name freq_range peak_frequencies st))
  == fst (peak_stage fl fault_name freq_range peak_frequencies st).
Proof.
  intro H. rewrite peak_stage_fst.
  destruct (filter _ peak_frequencies);
    [| apply rounding_idempotent]; assumption.
Qed.

Lemma band_stage_held fault_name band_energies (st : Score) :
  fl (fst st) == fst st ->
  fl (fst (band_stage fl float_sum fault_name band_energies st))
  == fst (band_stage fl float_sum fault_name band_energies st).
Proof.
  intro H. unfold band_stage. branches; cbn [fst];
    assumption || (apply rounding_idempotent; assumption).
Qed.

Lemma pattern_step_held fault_name (st : Score) pattern :
  fl (fst st) == fst st ->
  fl (fst (pattern_step fl fault_name st pattern))
  == fst (pattern_step fl fault_name st pattern).
Proof.
  intro H. unfold pattern_step. cbv zeta. branches; cbn [fst];
    assumption || (apply rounding_idempotent; assumption).
Qed.

Lemma pattern_stage_held fault_name sound_patterns (st : Score) :
  fl (fst st) == fst st ->
  fl (fst (pattern_stage fl fault_name sound_patterns st))
  == fst (pattern_stage fl fault_name sound_patterns st).
Proof.
  unfold pattern_stage. revert st.
  induction sound_patterns as [| p ps IH]; intros st H; simpl.
  - assumption.
  - apply IH. now apply pattern_step_held.
Qed.

(** **** Each stage raises the confidence or leaves it *)

Lemma dominant_stage_increases fault_name freq_range dominant_freq
    (st : Score) :
  fl (fst st) == fst st ->
  fst st <= fst (dominant_stage fl fault_name freq_range dominant_freq st).
Proof.
  intro H. unfold dominant_stage. branches; cbn [fst]; [| lra].
  apply add_increases; [assumption | apply literal_nonneg; lra].
Qed.

Lemma peak_amount_nonneg (count : nat) : 0 <= peak_amount fl count.
Proof.
  destruct count as [| n]; [apply Qle_refl |]. unfold peak_amount.
  apply rounding_nonneg, Qmult_le_0_compat.
  - apply literal_nonneg. lra.
  - apply PyFacts.min_glb; apply rounding_nonneg; [| lra].
    apply Qle_shift_div_l; [reflexivity |].
    rewrite Qmult_0_l. change 0 with (inject_Z 0). rewrite <- Zle_Qle. lia.
Qed.

Lemma peak_amount_mono (n m : nat) :
  (n <= m)%nat -> peak_amount fl n <= peak_amount fl m.
Proof.
  intro H. destruct n as [| n]; [apply peak_amount_nonneg |].
  destruct m as [| m]; [lia |]. unfold peak_amount.
  apply rounding_mono; [assumption |].
  rewrite !(Qmult_comm (fl 0.2)).
  apply Qmult_le_compat_r; [| apply literal_nonneg; lra].
  apply PyFacts.min_mono, rounding_mono; [assumption |].
  apply Qmult_le_compat_r; [| discriminate].
  rewrite <- Zle_Qle. lia.
Qed.

Lemma peak_stage_increases fault_name freq_range peak_frequencies
    (st : Score) :
  fl (fst st) == fst st ->
  fst st <= fst (peak_stage fl fault_name freq_range peak_frequencies st).
Proof.
  intro H. rewrite peak_stage_fst.
  destruct (filter _ peak_frequencies); [lra |].
  apply add_increases; [assumption | apply peak_amount_nonneg].
Qed.

Lemma band_stage_increases fault_name band_energies (st : Score) :
  fl (fst st) == fst st ->
  fst st <= fst (band_stage fl float_sum fault_name band_energies st).
Proof.
  intro H. unfold band_stage. branches; cbn [fst]; try lra;
    (apply add_increases; [assumption | apply literal_nonneg; lra]).
Qed.

Lemma pattern_step_increases fault_name (st : Score) pattern :
  fl (fst st) == fst st -> 0 <= strength pattern ->
  fst st <= fst (pattern_step fl fault_name st pattern).
Proof.
  intros H Hs. unfold pattern_step. cbv zeta. branches; cbn [fst]; try lra;
    (apply add_increases; [assumption | apply product_nonneg; lra]).
Qed.

(** **** Each stage keeps the order of two confidences *)

Lemma dominant_stage_mono fault_name freq_range dominant_freq
    (st st' : Score) :
  fst st <= fst st' ->
  fst (dominant_stage fl fault_name freq_range dominant_freq st)
  <= fst (dominant_stage fl fault_name freq_range dominant_freq st').
Proof.
  intro H. unfold dominant_stage. branches; cbn [fst]; [| assumption].
  apply add_mono; [assumption | lra].
Qed.

Lemma peak_stage_mono fault_name freq_range peak_frequencies
    (st st' : Score) :
  fst st <= fst st' ->
  fst (peak_stage fl fault_name freq_range peak_frequencies st)
  <= fst (peak_stage fl fault_name freq_range peak_frequencies st').
Proof.
  intro H. rewrite !peak_stage_fst.
  destruct (filter _ peak_frequencies); [assumption |].
  apply add_mono; [assumption | lra].
Qed.

Lemma band_stage_mono fault_name band_energies (st st' : Score) :
  fst st <= fst st' ->
  fst (band_stage fl float_sum fault_name band_energies st)
  <= fst (band_stage fl float_sum fault_name band_energies st').
Proof.
  intro H. unfold band_stage. branches; cbn [fst]; try assumption;
    (apply add_mono; [assumption | lra]).
Qed.

Lemma pattern_step_mono fault_name (st st' : Score) pattern :
  fst st <= fst st' ->
  fst (pattern_step fl fault_name st pattern)
  <= fst (pattern_step fl fault_name st' pattern).
Proof.
  intro H. unfold pattern_step. cbv zeta. branches; cbn [fst];
    try assumption; (apply add_mono; [assumption | lra]).
Qed.

Lemma pattern_stage_mono fault_name sound_patterns (st st' : Score) :
  fst st <= fst st' ->
  fst (pattern_stage fl fault_name sound_patterns st)
  <= fst (pattern_stage fl fault_name sound_patterns st').
Proof.
  unfold pattern_stage. revert st st'.
  induction sound_patterns as [| p ps IH]; intros st st' H; simpl.
  - assumption.
  - apply IH. now apply pattern_step_mono.
Qed.

(** The band rule adds [band_amount] to a confidence the arithmetic
    holds. *)
Lemma band_stage_adds fault_name band_energies (st : Score) :
  fl (fst st) == fst st ->
  fst (band_stage fl float_sum fault_name band_energies st)
  == fl (fst st + band_amount fl float_sum fault_name band_energies).
Proof.
  intro H. unfold band_amount, band_stage.
  assert (Hnone : fst st == fl (fst st + 0)).
  { rewrite <- H at 1. apply rounding_proper; [assumption | lra]. }
  assert (Hsome : forall c, fl (fst st + fl c) == fl (fst st + fl (0 + fl c))).
  { intro c. apply add_proper; [reflexivity |].
    rewrite <- (rounding_idempotent fl Hfl c) at 1.
    apply rounding_proper; [assumption | lra]. }
  branches; cbn [fst]; solve [apply Hnone | apply Hsome].
Qed.

(** **** The accumulated confidence *)

Lemma start_held : fl (fst ((0.0, []) : Score)) == fst ((0.0, []) : Score).
Proof.
  cbn [fst]. assert (E : 0.0 == 0) by reflexivity.
  rewrite (rounding_proper fl Hfl _ _ E), (rounding_zero fl Hfl).
  reflexivity.
Qed.

Lemma accumulate_dominant fault_name fault_info dominant_freq matching_freq
    band_energies peak_frequencies sound_patterns :
  in_range (fi_frequency_range fault_info) (fl matching_freq) = true ->
  fst (accumulate fl float_sum fault_name fault_info dominant_freq band_energies
         peak_frequencies sound_patterns)
  <= fst (accumulate fl float_sum fault_name fault_info matching_freq band_energies
            peak_frequencies sound_patterns).
Proof.
  intro H. unfold accumulate. cbv zeta.
  apply pattern_stage_mono, band_stage_mono, peak_stage_mono.
  unfold dominant_stage at 2. rewrite H.
  unfold dominant_stage. branches; [apply Qle_refl |].
  cbn [fst]. apply add_increases; [apply start_held |].
  apply literal_nonneg. lra.
Qed.

Lemma accumulate_peak fault_name fault_info dominant_freq band_energies
    peak before after sound_patterns :
  fst (accumulate fl float_sum fault_name fault_info dominant_freq band_energies
         (before ++ after) sound_patterns)
  <= fst (accumulate fl float_sum fault_name fault_info dominant_freq band_energies
            (before ++ peak :: after) sound_patterns).
Proof.
  unfold accumulate. cbv zeta.
  apply pattern_stage_mono, band_stage_mono.
  set (st := dominant_stage fl fault_name (fi_frequency_range fault_info)
               dominant_freq (0.0, [])).
  assert (Hst : fl (fst st) == fst st)
    by (apply dominant_stage_held, start_held).
  rewrite !peak_stage_fst.
  set (matches := fun f => in_range (fi_frequency_range fault_info) (fl f)).
  assert (Hlen : (List.length (filter matches (before ++ after))
                  <= List.length (filter matches (before ++ peak :: after)))%nat).
  { rewrite !filter_app, !length_app. simpl.
    destruct (matches peak); simpl; lia. }
  destruct (filter matches (before ++ after)) as [| f fs] eqn:E1;
    destruct (filter matches (before ++ peak :: after)) as [| g gs] eqn:E2.
  - apply Qle_refl.
  - apply add_increases; [assumption | apply peak_amount_nonneg].
  - simpl in Hlen. lia.
  - apply add_mono; [apply Qle_refl | now apply peak_amount_mono].
Qed.

Lemma accumulate_band fault_name fault_info dominant_freq band_energies
    richer_bands peak_frequencies sound_patterns :
  band_amount fl float_sum fault_name band_energies
  <= band_amount fl float_sum fault_name richer_bands ->
  fst (accumulate fl float_sum fault_name fault_info dominant_freq band_energies
         peak_frequencies sound_patterns)
  <= fst (accumulate fl float_sum fault_name fault_info dominant_freq richer_bands
            peak_frequencies sound_patterns).
Proof.
  intro H. unfold accumulate. cbv zeta. apply pattern_stage_mono.
  set (st := peak_stage fl fault_name (fi_frequency_range fault_info)
               peak_frequencies _).
  assert (Hst : fl (fst st) == fst st)
    by (apply peak_stage_held, dominant_stage_held, start_held).
  rewrite !band_stage_adds by assumption.
  apply add_mono; [apply Qle_refl | assumption].
Qed.

Lemma pattern_stage_app fault_name before after (st : Score) :
  pattern_stage fl fault_name (before ++ after) st
  = pattern_stage fl fault_name after
      (pattern_stage fl fault_name before st).
Proof. unfold pattern_stage. apply fold_left_app. Qed.

Lemma accumulate_pattern fault_name fault_info dominant_freq band_energies
    peak_frequencies pattern before after :
  0 <= strength pattern ->
  fst (accumulate fl float_sum fault_name fault_info dominant_freq band_energies
         peak_frequencies (before ++ after))
  <= fst (accumulate fl float_sum fault_name fault_info dominant_freq band_energies
            peak_frequencies (before ++ pattern :: after)).
Proof.
  intro H. unfold accumulate. cbv zeta.
  rewrite !pattern_stage_app.
  change (pattern_stage fl fault_name (pattern :: after) ?s)
    with (pattern_stage fl fault_name after
            (pattern_step fl fault_name s pattern)).
  apply pattern_stage_mono, pattern_step_increases; [| assumption].
  apply pattern_stage_held, band_stage_held, peak_stage_held,
    dominant_stage_held, start_held.
Qed.

End Monotone.

(** The patterns the detector reports all have a positive strength: each is
    above its own threshold. *)
Lemma detected_patterns_positive (features : Py.Exc PatternFeatures) :
  Forall (fun pattern => 0 < strength pattern)
    (_detect_sound_patterns features).
Proof.
  unfold _detect_sound_patterns.
  destruct features as [f | e]; [| constructor].
  destruct (PyFacts.ltb_cases 0.4 (rhythmic_strength f)) as [[-> H1] | [-> H1]];
  destruct (PyFacts.ltb_cases 0.6 (continuity f)) as [[-> H2] | [-> H2]];
  destruct (PyFacts.ltb_cases 0.3 (impulsiveness f)) as [[-> H3] | [-> H3]];
  destruct (PyFacts.ltb_cases 0.3 (harmonic_strength f)) as [[-> H4] | [-> H4]];
  destruct (PyFacts.ltb_cases 0.5 (noise_level f)) as [[-> H5] | [-> H5]];
  simpl; repeat constructor; simpl; lra.
Qed.

(** *** The list of candidates *)

(** The candidate of one table entry: a singleton, or nothing. *)
Definition candidate (float_sum : list Q -> Q)
    (frequency_analysis : Analysis FrequencyProfile)
    (sound_patterns : list SoundPattern) (entry : string * FaultInfo)
  : list Fault :=
  add_fault Py.binary64 (fst entry) (snd entry)
    (accumulate Py.binary64 float_sum (fst entry) (snd entry)
       (get_dominant_frequency frequency_analysis)
       (get_frequency_bands frequency_analysis)
       (get_peak_frequencies frequency_analysis) sound_patterns)
    [].

(** The accumulated confidence of a signature for the extracted features. *)
Definition accumulated (float_sum : list Q -> Q)
    (frequency_analysis : Analysis FrequencyProfile)
    (sound_patterns : list SoundPattern) (fault_name : string)
    (fault_info : FaultInfo) : Q :=
  fst (accumulate Py.binary64 float_sum fault_name fault_info
         (get_dominant_frequency frequency_analysis)
         (get_frequency_bands frequency_analysis)
         (get_peak_frequencies frequency_analysis) sound_patterns).

(** Where a signature stands in the table. *)
Fixpoint position (fault_name : string) (names : list string) : nat :=
  match names with
  | [] => 0
  | n :: rest => if String.eqb n fault_name then 0 else S (position fault_name rest)
  end.

Definition table_position (fault_name : string) : nat :=
  position fault_name (map fst engine_fault_patterns).

Lemma add_fault_app (fault_name : string) (fault_info : FaultInfo)
    (st : Score) (detected_faults : list Fault) :
  add_fault Py.binary64 fault_name fault_info st detected_faults
  = detected_faults ++ add_fault Py.binary64 fault_name fault_info st [].
Proof.
  unfold add_fault. destruct (Py.ltb (Py.binary64 0.4) (fst st)).
  - reflexivity.
  - now rewrite app_nil_r.
Qed.

Lemma scoring_loop (float_sum : list Q -> Q)
    (frequency_analysis : Analysis FrequencyProfile)
    (sound_patterns : list SoundPattern) (table : list (string * FaultInfo))
    (detected_faults : list Fault) :
  fold_left
    (fun detected_faults entry =>
       let '(fault_name, fault_info) := entry in
       add_fault Py.binary64 fault_name fault_info
         (accumulate Py.binary64 float_sum fault_name fault_info
            (get_dominant_frequency frequency_analysis)
            (get_frequency_bands frequency_analysis)
            (get_peak_frequencies frequency_analysis) sound_patterns)
         detected_faults)
    table detected_faults
  = detected_faults
    ++ flat_map (candidate float_sum frequency_analysis sound_patterns) table.
Proof.
  revert detected_faults.
  induction table as [| [fault_name fault_info] table IH];
    intro detected_faults; simpl.
  - now rewrite app_nil_r.
  - rewrite IH, add_fault_app, <- app_assoc. reflexivity.
Qed.

Lemma unsorted_faults_flat_map (float_sum : list Q -> Q)
    (frequency_analysis : Analysis FrequencyProfile)
    (sound_patterns : list SoundPattern) :
  unsorted_faults Py.binary64 float_sum frequency_analysis sound_patterns
  = flat_map (candidate float_sum frequency_analysis sound_patterns)
      engine_fault_patterns.
Proof.
  unfold unsorted_faults. now rewrite scoring_loop.
Qed.

Lemma candidate_cases (float_sum : list Q -> Q)
    (frequency_analysis : Analysis FrequencyProfile)
    (sound_patterns : list SoundPattern) (entry : string * FaultInfo) :
  (Py.binary64 0.4
   < accumulated float_sum frequency_analysis sound_patterns (fst entry) (snd entry)
   /\ exists fault,
        candidate float_sum frequency_analysis sound_patterns entry = [fault]
        /\ name fault = fst entry
        /\ confidence fault
           = Py.min (accumulated float_sum frequency_analysis sound_patterns
                       (fst entry) (snd entry)) (Py.binary64 1.0)
        /\ severity fault = fi_severity (snd entry)
        /\ urgency fault = fi_urgency (snd entry))
  \/ (accumulated float_sum frequency_analysis sound_patterns (fst entry) (snd entry)
      <= Py.binary64 0.4
      /\ candidate float_sum frequency_analysis sound_patterns entry = []).
Proof.
  unfold candidate, accumulated, add_fault.
  destruct (PyFacts.ltb_cases (Py.binary64 0.4)
              (fst (accumulate Py.binary64 float_sum (fst entry) (snd entry)
                      (get_dominant_frequency frequency_analysis)
                      (get_frequency_bands frequency_analysis)
                      (get_peak_frequencies frequency_analysis)
                      sound_patterns))) as [[-> H] | [-> H]].
  - left. split; [assumption |]. eexists. split; [reflexivity |].
    simpl. repeat split.
  - right. split; [assumption | reflexivity].
Qed.

Lemma table_names_distinct : NoDup (map fst engine_fault_patterns).
Proof.
  rewrite <- (eq_refl : nodup string_dec (map fst engine_fault_patterns)
                        = map fst engine_fault_patterns).
  apply NoDup_nodup.
Qed.

Lemma table_functional (fault_name : string) (i i' : FaultInfo) :
  In (fault_name, i) engine_fault_patterns ->
  In (fault_name, i') engine_fault_patterns ->
  i = i'.
Proof.
  pose proof table_names_distinct as Hnd. revert Hnd.
  generalize engine_fault_patterns as table.
  induction table as [| [n v] table IH]; simpl; intros Hnd H1 H2.
  - contradiction.
  - inversion Hnd as [| ? ? Hnotin Hnd']; subst.
    destruct H1 as [[= -> ->] | H1]; destruct H2 as [[= E] | H2].
    + now subst.
    + exfalso. apply Hnotin. now apply (in_map fst) in H2.
    + subst. exfalso. apply Hnotin. now apply (in_map fst) in H1.
    + now apply IH.
Qed.

Lemma position_head (n : string) (names : list string) :
  position n (n :: names) = 0%nat.
Proof.
  simpl. now rewrite String.eqb_refl.
Qed.

Lemma position_tail (n m : string) (names : list string) :
  n <> m -> position m (n :: names) = S (position m names).
Proof.
  intro H. simpl. apply String.eqb_neq in H. now rewrite H.
Qed.

(** Candidates drawn entry by entry from a table with distinct names stand
    in table order. *)
Lemma candidates_in_table_order {V} (table : list (string * V))
    (draw : string * V -> list Fault) :
  NoDup (map fst table) ->
  (forall entry, draw entry = []
                 \/ exists fault, draw entry = [fault]
                                  /\ name fault = fst entry) ->
  StronglySorted
    (fun a b => (position (name a) (map fst table)
                 < position (name b) (map fst table))%nat)
    (flat_map draw table)
  /\ Forall (fun fault => In (name fault) (map fst table))
       (flat_map draw table).
Proof.
  intros Hnd Hdraw.
  induction table as [| [n v] table IH]; cbn [flat_map map fst].
  - split; constructor.
  - inversion Hnd as [| ? ? Hnotin Hnd']; subst.
    destruct (IH Hnd') as [Hs Hin].
    assert (Hs' : StronglySorted
                    (fun a b =>
                       (position (name a) (n :: map fst table)
                        < position (name b) (n :: map fst table))%nat)
                    (flat_map draw table)).
    { revert Hs. apply PyFacts.StronglySorted_weaken. intros a b Ha Hb Hab.
      rewrite Forall_forall in Hin.
      rewrite !position_tail; [lia | |];
        intros ->; apply Hnotin; now apply Hin. }
    assert (Hin' : Forall (fun fault => In (name fault) (n :: map fst table))
                     (flat_map draw table)).
    { revert Hin. apply Forall_impl. intros a Ha. now right. }
    destruct (Hdraw (n, v)) as [-> | [fault [-> Hname]]];
      cbn [app fst] in *.
    + split; assumption.
    + split.
      * constructor; [assumption |].
        rewrite Forall_forall in *. intros b Hb.
        rewrite Hname, position_head, position_tail; [lia |].
        intros ->. apply Hnotin. now apply Hin.
      * constructor; [left; now rewrite Hname | assumption].
Qed.

Lemma candidate_draw (float_sum : list Q -> Q)
    (frequency_analysis : Analysis FrequencyProfile)
    (sound_patterns : list SoundPattern) (entry : string * FaultInfo) :
  candidate float_sum frequency_analysis sound_patterns entry = []
  \/ exists fault,
       candidate float_sum frequency_analysis sound_patterns entry = [fault]
       /\ name fault = fst entry.
Proof.
  destruct (candidate_cases float_sum frequency_analysis sound_patterns entry)
    as [[_ [fault [E [Hn _]]]] | [_ E]].
  - right. now exists fault.
  - now left.
Qed.

(** A fault is reported exactly when it is the candidate of a table entry
    whose accumulated confidence exceeds 0.4. *)
Lemma detected_fault_iff (float_sum : list Q -> Q)
    (frequency_analysis : Analysis FrequencyProfile)
    (sound_patterns : list SoundPattern) (fault : Fault) :
  In fault (_detect_engine_faults float_sum frequency_analysis sound_patterns)
  <-> exists entry,
        In entry engine_fault_patterns
        /\ candidate float_sum frequency_analysis sound_patterns entry = [fault].
Proof.
  unfold _detect_engine_faults.
  rewrite PyFacts.sort_desc_In, unsorted_faults_flat_map, in_flat_map.
  split; intros [entry [Hin H]]; exists entry; split; try assumption.
  - destruct (candidate_draw float_sum frequency_analysis sound_patterns entry)
      as [E | [fault' [E _]]]; rewrite E in *.
    + contradiction.
    + destruct H as [-> | []]. reflexivity.
  - rewrite H. now left.
Qed.

(** The rounding of the model is the one of the doubles: on the literals of
    the scoring loop, and on sums and products that fall next to the
    threshold. *)
Example binary64_agrees_with_the_doubles :
  Py.binary64 0.4 == Py.exact 0.4%float
  /\ Py.binary64 0.3 == Py.exact 0.3%float
  /\ Py.binary64 0.2 == Py.exact 0.2%float
  /\ Py.binary64 1.0 == Py.exact 1.0%float
  /\ Py.binary64 (Py.binary64 0.3
                  + Py.binary64 (Py.binary64 0.33333333333333337
                                 * Py.binary64 0.3))
     == Py.exact (0.3 + 0.33333333333333337 * 0.3)%float
  /\ Py.binary64 (Py.binary64 0.3
                  + Py.binary64 (Py.binary64 0.5 * Py.binary64 0.3))
     == Py.exact (0.3 + 0.5 * 0.3)%float
  /\ Py.binary64 (Py.binary64 0.7 + Py.binary64 0.3)
     == Py.exact (0.7 + 0.3)%float
  /\ Py.binary64 (Py.binary64 2 / Py.binary64 3) == Py.exact (2 / 3)%float.
Proof. vm_compute. repeat split. Qed.

(** Three analyses whose sums fall next to a threshold.  With a dominant
    frequency of 1000 Hz and an impulsive pattern of strength
    0.33333333333333337 the confidence of a spark plug misfire is the double
    0.4 and the fault is not reported; with 3500 Hz, a rhythmic pattern of
    strength 0.5 and noise of strength 0.75 the engine knock, at 0.45, stands
    before the two faults at 0.44999999999999996; with 2500 Hz and
    band energies 0.7 and 0.3 the presence band is not above 0.3 times their
    sum, and no squeal is reported: the two faults reported are those of the
    mid band. *)
Example sums_next_to_a_threshold :
  map name
    (_detect_engine_faults (Py.float_sum Py.binary64)
       (Computed (Examples.tone 1000 []))
       [plain_pattern "impulsive" 0.33333333333333337 []])
  = []
  /\ map name
       (_detect_engine_faults (Py.float_sum Py.binary64)
          (Computed (Examples.tone 3500 []))
          [plain_pattern "rhythmic" 0.5 []; plain_pattern "noise" 0.75 []])
     = ["engine_knock"; "timing_chain_rattle"; "cv_joint_clicking"]
  /\ map name
       (_detect_engine_faults (Py.float_sum Py.binary64)
          (Computed (Examples.tone 2500 [("mid", 0.7); ("presence", 0.3)]))
          [])
     = ["spark_plug_misfire"; "valve_lifter_noise"].
Proof. vm_compute. repeat split. Qed.

(** C5.  For every frequency analysis and every list of sound patterns, in
    the binary64 arithmetic of the source and whatever the [sum] of the
    interpreter gives for the band energies: a signature of the table has a
    candidate among the detected faults if and only if its accumulated
    confidence exceeds the double 0.4; every detected fault carries that
    confidence, capped at 1; and the detected faults are in descending order
    of confidence, two faults of equal confidence standing in the order in
    which the table declares their signatures. *)
Theorem candidates_pass_threshold_in_stable_descending_order
    (float_sum : list Q -> Q)
    (frequency_analysis : Analysis FrequencyProfile)
    (sound_patterns : list SoundPattern) :
  (forall fault_name fault_info,
      In (fault_name, fault_info) engine_fault_patterns ->
      (In fault_name
          (map name
             (_detect_engine_faults float_sum frequency_analysis
                sound_patterns))
       <-> Py.binary64 0.4
           < accumulated float_sum frequency_analysis sound_patterns
               fault_name fault_info))
  /\ (forall fault,
        In fault
          (_detect_engine_faults float_sum frequency_analysis
             sound_patterns) ->
        exists fault_info,
          In (name fault, fault_info) engine_fault_patterns
          /\ confidence fault
             = Py.min (accumulated float_sum frequency_analysis sound_patterns
                         (name fault) fault_info) (Py.binary64 1.0))
  /\ StronglySorted (fun a b => confidence b <= confidence a)
       (_detect_engine_faults float_sum frequency_analysis sound_patterns)
  /\ StronglySorted
       (fun a b =>
          confidence b < confidence a
          \/ (confidence a == confidence b
              /\ (table_position (name a) < table_position (name b))%nat))
       (_detect_engine_faults float_sum frequency_analysis sound_patterns).
Proof.
  assert (Hsorted :
            StronglySorted
              (fun a b =>
                 confidence b < confidence a
                 \/ (confidence a == confidence b
                     /\ (table_position (name a)
                         < table_position (name b))%nat))
              (_detect_engine_faults float_sum frequency_analysis sound_patterns)).
  { unfold _detect_engine_faults.
    apply (PyFacts.sort_desc_sorted confidence
             (fun a b =>
                (table_position (name a) < table_position (name b))%nat)).
    rewrite unsorted_faults_flat_map.
    apply candidates_in_table_order;
      [apply table_names_distinct | apply (candidate_draw float_sum)]. }
  split; [| split; [| split]].
  - intros fault_name fault_info Hentry. split.
    + rewrite in_map_iff. intros [fault [Hname Hin]].
      apply detected_fault_iff in Hin. destruct Hin as [entry [Hin E]].
      destruct (candidate_cases float_sum frequency_analysis sound_patterns entry)
        as [[Hacc [fault' [E' [Hn _]]]] | [_ E']];
        rewrite E in E'; [| discriminate].
      injection E' as <-.
      destruct entry as [n i]. simpl in *. subst n. subst fault_name.
      now rewrite (table_functional _ _ _ Hentry Hin).
    + intro Hacc.
      destruct (candidate_cases float_sum frequency_analysis sound_patterns
                  (fault_name, fault_info))
        as [[_ [fault [E [Hn _]]]] | [Hle _]]; cbn [fst snd] in *;
        [| exfalso; apply (Qlt_not_le _ _ Hacc Hle)].
      rewrite in_map_iff. exists fault. split; [assumption |].
      apply detected_fault_iff. exists (fault_name, fault_info).
      split; [exact Hentry | exact E].
  - intros fault Hin. apply detected_fault_iff in Hin.
    destruct Hin as [[n i] [Hin E]].
    destruct (candidate_cases float_sum frequency_analysis sound_patterns (n, i))
      as [[_ [fault' [E' [Hn [Hc _]]]]] | [_ E']];
      rewrite E in E'; [| discriminate].
    injection E' as <-. cbn [fst snd] in *. subst n. now exists i.
  - revert Hsorted. apply PyFacts.StronglySorted_weaken.
    intros a b _ _ [H | [H _]]; lra.
  - exact Hsorted.
Qed.

Lemma candidates_pass_threshold_in_stable_descending_order_witness :
  In "timing_chain_rattle"
    (map name (_detect_engine_faults (Py.float_sum Py.binary64)
                 (Computed Examples.mid_profile)
                 Examples.rhythmic_patterns)).
Proof.
  apply (proj1 (candidates_pass_threshold_in_stable_descending_order
                  (Py.float_sum Py.binary64)
                  (Computed Examples.mid_profile) Examples.rhythmic_patterns)
           "timing_chain_rattle"
           {| fi_frequency_range := (1200, 4000)%Z;
              fi_characteristics :=
                ["metallic"; "startup_noise"; "chain_rattle"];
              fi_severity := "critical"; fi_urgency := "critical";
              fi_keywords := ["timing chain rattle";
                              "timing chain replacement";
                              "engine timing noise"] |}).
  - right. left. reflexivity.
  - vm_compute. reflexivity.
Defined.

(** C6.  For every signature and all extracted features, in exact arithmetic
    and in the binary64 arithmetic of the source alike (there with whatever
    the [sum] of the interpreter gives for the band energies): each of the four
    evidence stages leaves the confidence where it was or raises it (the
    pattern stage for every pattern of non-negative strength, hence for
    every pattern the detector reports); the accumulated confidence does not
    decrease when the dominant frequency is replaced by one inside the
    range, when a peak frequency is added, when the band energies are
    replaced by ones for which the band rule adds at least as much, or when
    a pattern of non-negative strength, hence any pattern the detector
    reports, is added; and the confidence recorded on a detected fault, the
    accumulated one capped by [min], does not decrease with it and is at
    most 1.  In binary64 a stage is applied to a confidence that is a
    double, as every confidence of the loop is. *)
Theorem confidence_accumulation_is_monotone_and_capped
    (float_sum : list Q -> Q)
    (fault_name : string) (fault_info : FaultInfo) (dominant_freq : Q)
    (band_energies : list (string * Q)) (peak_frequencies : list Q)
    (sound_patterns : list SoundPattern) :
  ((forall st,
      fst st <= fst (dominant_stage Py.unrounded fault_name
                       (fi_frequency_range fault_info) dominant_freq st))
   /\ (forall st,
         fst st <= fst (peak_stage Py.unrounded fault_name
                          (fi_frequency_range fault_info)
                          peak_frequencies st))
   /\ (forall st,
         fst st
         <= fst (band_stage Py.unrounded Py.sum fault_name band_energies st))
   /\ (forall st pattern,
         0 <= strength pattern ->
         fst st <= fst (pattern_step Py.unrounded fault_name st pattern))
   /\ (forall st features pattern,
         In pattern (_detect_sound_patterns features) ->
         fst st <= fst (pattern_step Py.unrounded fault_name st pattern))
   /\ (forall matching_freq,
         in_range (fi_frequency_range fault_info) matching_freq = true ->
         fst (accumulate Py.unrounded Py.sum fault_name fault_info dominant_freq
                band_energies peak_frequencies sound_patterns)
         <= fst (accumulate Py.unrounded Py.sum fault_name fault_info matching_freq
                   band_energies peak_frequencies sound_patterns))
   /\ (forall peak before after,
         peak_frequencies = before ++ after ->
         fst (accumulate Py.unrounded Py.sum fault_name fault_info dominant_freq
                band_energies peak_frequencies sound_patterns)
         <= fst (accumulate Py.unrounded Py.sum fault_name fault_info dominant_freq
                   band_energies (before ++ peak :: after) sound_patterns))
   /\ (forall richer_bands,
         band_amount Py.unrounded Py.sum fault_name band_energies
         <= band_amount Py.unrounded Py.sum fault_name richer_bands ->
         fst (accumulate Py.unrounded Py.sum fault_name fault_info dominant_freq
                band_energies peak_frequencies sound_patterns)
         <= fst (accumulate Py.unrounded Py.sum fault_name fault_info dominant_freq
                   richer_bands peak_frequencies sound_patterns))
   /\ (forall pattern before after,
         0 <= strength pattern ->
         sound_patterns = before ++ after ->
         fst (accumulate Py.unrounded Py.sum fault_name fault_info dominant_freq
                band_energies peak_frequencies sound_patterns)
         <= fst (accumulate Py.unrounded Py.sum fault_name fault_info dominant_freq
                   band_energies peak_frequencies
                   (before ++ pattern :: after)))
   /\ (forall features pattern before after,
         In pattern (_detect_sound_patterns features) ->
         sound_patterns = before ++ after ->
         fst (accumulate Py.unrounded Py.sum fault_name fault_info dominant_freq
                band_energies peak_frequencies sound_patterns)
         <= fst (accumulate Py.unrounded Py.sum fault_name fault_info dominant_freq
                   band_energies peak_frequencies
                   (before ++ pattern :: after)))
   /\ (forall st st' : Score,
         fst st <= fst st' -> Py.min (fst st) 1.0 <= Py.min (fst st') 1.0))
  /\ ((forall st,
         Py.binary64 (fst st) == fst st ->
         fst st <= fst (dominant_stage Py.binary64 fault_name
                          (fi_frequency_range fault_info) dominant_freq st))
      /\ (forall st,
            Py.binary64 (fst st) == fst st ->
            fst st <= fst (peak_stage Py.binary64 fault_name
                             (fi_frequency_range fault_info)
                             peak_frequencies st))
      /\ (forall st,
            Py.binary64 (fst st) == fst st ->
            fst st
            <= fst (band_stage Py.binary64 float_sum fault_name band_energies st))
      /\ (forall st pattern,
            Py.binary64 (fst st) == fst st ->
            0 <= strength pattern ->
            fst st <= fst (pattern_step Py.binary64 fault_name st pattern))
      /\ (forall st features pattern,
            Py.binary64 (fst st) == fst st ->
            In pattern (_detect_sound_patterns features) ->
            fst st <= fst (pattern_step Py.binary64 fault_name st pattern))
      /\ (forall matching_freq,
            in_range (fi_frequency_range fault_info)
              (Py.binary64 matching_freq) = true ->
            fst (accumulate Py.binary64 float_sum fault_name fault_info dominant_freq
                   band_energies peak_frequencies sound_patterns)
            <= fst (accumulate Py.binary64 float_sum fault_name fault_info
                      matching_freq band_energies peak_frequencies
                      sound_patterns))
      /\ (forall peak before after,
            peak_frequencies = before ++ after ->
            fst (accumulate Py.binary64 float_sum fault_name fault_info dominant_freq
                   band_energies peak_frequencies sound_patterns)
            <= fst (accumulate Py.binary64 float_sum fault_name fault_info
                      dominant_freq band_energies (before ++ peak :: after)
                      sound_patterns))
      /\ (forall richer_bands,
            band_amount Py.binary64 float_sum fault_name band_energies
            <= band_amount Py.binary64 float_sum fault_name richer_bands ->
            fst (accumulate Py.binary64 float_sum fault_name fault_info dominant_freq
                   band_energies peak_frequencies sound_patterns)
            <= fst (accumulate Py.binary64 float_sum fault_name fault_info
                      dominant_freq richer_bands peak_frequencies
                      sound_patterns))
      /\ (forall pattern before after,
            0 <= strength pattern ->
            sound_patterns = before ++ after ->
            fst (accumulate Py.binary64 float_sum fault_name fault_info dominant_freq
                   band_energies peak_frequencies sound_patterns)
            <= fst (accumulate Py.binary64 float_sum fault_name fault_info
                      dominant_freq band_energies peak_frequencies
                      (before ++ pattern :: after)))
      /\ (forall features pattern before after,
            In pattern (_detect_sound_patterns features) ->
            sound_patterns = before ++ after ->
            fst (accumulate Py.binary64 float_sum fault_name fault_info dominant_freq
                   band_energies peak_frequencies sound_patterns)
            <= fst (accumulate Py.binary64 float_sum fault_name fault_info
                      dominant_freq band_energies peak_frequencies
                      (before ++ pattern :: after)))
      /\ (forall st st' : Score,
            fst st <= fst st' ->
            Py.min (fst st) (Py.binary64 1.0)
            <= Py.min (fst st') (Py.binary64 1.0)))
  /\ (forall frequency_analysis fault,
        In fault
          (_detect_engine_faults float_sum frequency_analysis
             sound_patterns) ->
        confidence fault <= 1).
Proof.
  assert (Hpos : forall features pattern,
             In pattern (_detect_sound_patterns features) ->
             0 <= strength pattern).
  { intros features pattern Hin.
    pose proof (detected_patterns_positive features) as H.
    rewrite Forall_forall in H. apply Qlt_le_weak, H, Hin. }
  assert (Hexact : forall x : Q, Py.unrounded x == x) by reflexivity.
  pose proof unrounded_rounding as Hu.
  pose proof binary64_rounding as Hb.
  split; [| split]; repeat match goal with |- _ /\ _ => split end.
  - intro st. now apply dominant_stage_increases.
  - intro st. now apply peak_stage_increases.
  - intro st. now apply band_stage_increases.
  - intros st pattern H. now apply pattern_step_increases.
  - intros st features pattern Hin.
    apply pattern_step_increases; [assumption | apply Hexact |].
    now apply (Hpos features).
  - intros matching_freq H. now apply accumulate_dominant.
  - intros peak before after ->. now apply accumulate_peak.
  - intros richer_bands H. now apply accumulate_band.
  - intros pattern before after H ->. now apply accumulate_pattern.
  - intros features pattern before after Hin ->.
    apply accumulate_pattern; [assumption |]. now apply (Hpos features).
  - intros st st'. apply PyFacts.min_mono.
  - intros st H. now apply dominant_stage_increases.
  - intros st H. now apply peak_stage_increases.
  - intros st H. now apply band_stage_increases.
  - intros st pattern H Hs. now apply pattern_step_increases.
  - intros st features pattern H Hin.
    apply pattern_step_increases; [assumption | assumption |].
    now apply (Hpos features).
  - intros matching_freq H. now apply accumulate_dominant.
  - intros peak before after ->. now apply accumulate_peak.
  - intros richer_bands H. now apply accumulate_band.
  - intros pattern before after H ->. now apply accumulate_pattern.
  - intros features pattern before after Hin ->.
    apply accumulate_pattern; [assumption |]. now apply (Hpos features).
  - intros st st'. apply PyFacts.min_mono.
  - intros frequency_analysis fault Hin.
    apply detected_fault_iff in Hin. destruct Hin as [entry [_ E]].
    destruct (candidate_cases float_sum frequency_analysis sound_patterns entry)
      as [[_ [fault' [E' [_ [Hc _]]]]] | [_ E']];
      rewrite E in E'; [| discriminate].
    injection E' as <-. rewrite Hc.
    match goal with
    | |- Py.min ?c ?b <= _ => pose proof (PyFacts.min_le_r c b) as Hle
    end.
    apply (Qle_trans _ _ _ Hle). rewrite binary64_one. apply Qle_refl.
Qed.

Lemma confidence_accumulation_is_monotone_and_capped_witness :
  fst (accumulate Py.unrounded Py.sum "valve_lifter_noise"
         {| fi_frequency_range := (1000, 3000)%Z;
            fi_characteristics := ["ticking"; "rhythmic"; "top_end"];
            fi_severity := "warning"; fi_urgency := "warning";
            fi_keywords := ["valve lifter noise"; "hydraulic lifter repair";
                            "valve adjustment"] |}
         1500 (frequency_bands Examples.mid_profile) [1500; 1600] [])
  <= fst (accumulate Py.unrounded Py.sum "valve_lifter_noise"
            {| fi_frequency_range := (1000, 3000)%Z;
               fi_characteristics := ["ticking"; "rhythmic"; "top_end"];
               fi_severity := "warning"; fi_urgency := "warning";
               fi_keywords := ["valve lifter noise";
                               "hydraulic lifter repair";
                               "valve adjustment"] |}
            1500 (frequency_bands Examples.mid_profile) [1500; 1600]
            ([] ++ Audio.plain_pattern "rhythmic" 0.9 [] :: []))
  /\ fst (accumulate Py.binary64 (Py.float_sum Py.binary64) "valve_lifter_noise"
            {| fi_frequency_range := (1000, 3000)%Z;
               fi_characteristics := ["ticking"; "rhythmic"; "top_end"];
               fi_severity := "warning"; fi_urgency := "warning";
               fi_keywords := ["valve lifter noise";
                               "hydraulic lifter repair";
                               "valve adjustment"] |}
            1500 (frequency_bands Examples.mid_profile) [1500; 1600] [])
     <= fst (accumulate Py.binary64 (Py.float_sum Py.binary64) "valve_lifter_noise"
               {| fi_frequency_range := (1000, 3000)%Z;
                  fi_characteristics := ["ticking"; "rhythmic"; "top_end"];
                  fi_severity := "warning"; fi_urgency := "warning";
                  fi_keywords := ["valve lifter noise";
                                  "hydraulic lifter repair";
                                  "valve adjustment"] |}
               1500 (frequency_bands Examples.mid_profile) [1500; 1600]
               ([] ++ Audio.plain_pattern "rhythmic" 0.9 [] :: [])).
Proof.
  pose proof (confidence_accumulation_is_monotone_and_capped
                (Py.float_sum Py.binary64) "valve_lifter_noise"
                {| fi_frequency_range := (1000, 3000)%Z;
                   fi_characteristics := ["ticking"; "rhythmic"; "top_end"];
                   fi_severity := "warning"; fi_urgency := "warning";
                   fi_keywords := ["valve lifter noise";
                                   "hydraulic lifter repair";
                                   "valve adjustment"] |}
                1500 (frequency_bands Examples.mid_profile)
                [1500; 1600] [])
    as [(_ & _ & _ & _ & _ & _ & _ & _ & Hexact & _)
          [(_ & _ & _ & _ & _ & _ & _ & _ & Hdouble & _) _]].
  assert (Hs : 0 <= strength (Audio.plain_pattern "rhythmic" 0.9 []))
    by discriminate.
  split.
  - exact (Hexact (Audio.plain_pattern "rhythmic" 0.9 []) [] [] Hs eq_refl).
  - exact (Hdouble (Audio.plain_pattern "rhythmic" 0.9 []) [] [] Hs eq_refl).
Defined.

End FaultFacts.

(** ** Confidence and severity of a warning light *)

Module LightFacts.
Import Image.

(** The three scores in the words of the specification; every bound is
    exclusive. *)
Definition area_band_score (area : float) : float :=
  (if (50 <? area) && (area <? 500) then 0.4
   else if (20 <? area) && (area <? 1000) then 0.2
   else 0)%float.

Definition aspect_ratio_score (aspect_ratio : float) : float :=
  (if (0.5 <? aspect_ratio) && (aspect_ratio <? 2.0) then 0.3
   else if (0.3 <? aspect_ratio) && (aspect_ratio <? 3.0) then 0.1
   else 0)%float.

Definition brightness_score (brightness : float) : float :=
  (if 0.6 <? brightness then 0.3
   else if 0.4 <? brightness then 0.2
   else if 0.2 <? brightness then 0.1
   else 0)%float.

(** The aspect ratio and the confidence the source computes for a contour
    of a colour mask. *)
Definition contour_aspect_ratio (contour : Contour) : float :=
  let '(x, y, w, h) := bounding_rect contour in
  if (0 <? h)%Z then (Py.float_of_int w / Py.float_of_int h)%float
  else 0%float.

Definition contour_confidence (contour : Contour) : float :=
  _calculate_light_confidence (contour_area contour)
    (contour_aspect_ratio contour) (roi_brightness contour).

(** A contour that becomes a light: its area is between 20 and 2000 and its
    confidence exceeds 0.3. *)
Definition accepted (contour : Contour) : bool :=
  ((20 <? contour_area contour) && (contour_area contour <? 2000)
   && (0.3 <? contour_confidence contour))%float.

(** The decimal a score or a confidence is written as. *)
Definition decimal (x : float) : Q := Py.round (Py.exact x) 2.

Ltac split_scores area aspect_ratio brightness :=
  destruct ((50 <? area) && (area <? 500))%float;
  destruct ((20 <? area) && (area <? 1000))%float;
  destruct ((0.5 <? aspect_ratio) && (aspect_ratio <? 2.0))%float;
  destruct ((0.3 <? aspect_ratio) && (aspect_ratio <? 3.0))%float;
  destruct (0.6 <? brightness)%float;
  destruct (0.4 <? brightness)%float;
  destruct (0.2 <? brightness)%float.

Lemma light_confidence_sum (area aspect_ratio brightness : float) :
  _calculate_light_confidence area aspect_ratio brightness
  = (area_band_score area + aspect_ratio_score aspect_ratio
     + brightness_score brightness)%float.
Proof.
  unfold _calculate_light_confidence, area_band_score, aspect_ratio_score,
    brightness_score.
  split_scores area aspect_ratio brightness; reflexivity.
Qed.


Lemma contour_step_cases (color_name : string) (lights : list Light)
    (contour : Contour) :
  (accepted contour = true
   /\ exists light,
        contour_step color_name lights contour = lights ++ [light]
        /\ color light = color_name
        /\ bounding_box light = bounding_rect contour
        /\ confidence light = decimal (contour_confidence contour)
        /\ severity light = _map_color_to_severity color_name)
  \/ (accepted contour = false
      /\ contour_step color_name lights contour = lights).
Proof.
  unfold accepted, contour_confidence, contour_aspect_ratio, contour_step.
  destruct (bounding_rect contour) as [[[x y] w] h].
  destruct ((20 <? contour_area contour)
            && (contour_area contour <? 2000))%float;
    [| right; split; reflexivity].
  cbn [andb].
  match goal with
  | |- context [(0.3 <? ?c)%float] => destruct (0.3 <? c)%float
  end.
  - left. split; [reflexivity |]. eexists. split; [reflexivity |].
    cbn [color bounding_box confidence severity]. repeat split.
  - right. split; reflexivity.
Qed.





(** A red region of area 200 with a square bounding box and brightness 0.8
    gives one red light of confidence 1 and severity "critical". *)
Example red_region_is_one_critical_light :
  _detect_color_lights "red" (Py.Returned [Examples.red_contour])
  = [Examples.red_light]
  /\ color Examples.red_light = "red"
  /\ position Examples.red_light = (108, 68)%Z
  /\ confidence Examples.red_light = 1
  /\ severity Examples.red_light = "critical".
Proof.
  repeat split.
Qed.

(** X1.  Every region of an area between 20 and 2000 whose scores are 0.2,
    0.1 and 0 passes the test, whatever its colour: in binary64 the sum is
    0.30000000000000004.  The confidence it is recorded with is 0.3. *)
Theorem borderline_region_is_accepted
    (color_name : string) (contour : Contour) :
  (20 <? contour_area contour)%float = true ->
  (contour_area contour <? 2000)%float = true ->
  area_band_score (contour_area contour) = 0.2%float ->
  aspect_ratio_score (contour_aspect_ratio contour) = 0.1%float ->
  brightness_score (roi_brightness contour) = 0%float ->
  contour_confidence contour = 0.30000000000000004%float
  /\ accepted contour = true
  /\ map confidence
       (_detect_color_lights color_name (Py.Returned [contour]))
     = [3 # 10].
Proof.
  intros Hlow Hhigh Harea Haspect Hbright.
  assert (Hc : contour_confidence contour = 0.30000000000000004%float).
  { unfold contour_confidence.
    rewrite light_confidence_sum, Harea, Haspect, Hbright. reflexivity. }
  assert (Hacc : accepted contour = true).
  { unfold accepted. rewrite Hlow, Hhigh, Hc. reflexivity. }
  split; [assumption | split; [assumption |]].
  unfold _detect_color_lights. cbn [fold_left].
  destruct (contour_step_cases color_name [] contour)
    as [[_ [light [E [_ [_ [Hq _]]]]]] | [Hrej _]]; [| congruence].
  rewrite E. cbn [app map]. rewrite Hq, Hc. reflexivity.
Qed.

Lemma borderline_region_is_accepted_witness :
  contour_confidence Examples.faint_contour = 0.30000000000000004%float
  /\ accepted Examples.faint_contour = true
  /\ map confidence
       (_detect_color_lights "blue" (Py.Returned [Examples.faint_contour]))
     = [3 # 10].
Proof.
  apply (borderline_region_is_accepted "blue" Examples.faint_contour);
    reflexivity.
Defined.




End LightFacts.

(** ** Deduplication of warning lights *)

Module DedupFacts.
Import Image.

(** The squared distance between the centres of two lights. *)
Definition distance_squared (a b : Light) : Z :=
  let '(x1, y1) := position a in
  let '(x2, y2) := position b in
  ((x1 - x2) * (x1 - x2) + (y1 - y2) * (y1 - y2))%Z.

(** The centres are at least 30 pixels apart. *)
Definition apart (a b : Light) : Prop := (900 <= distance_squared a b)%Z.

(** Every two lights of the list are at least 30 pixels apart. *)
Definition separated (lights : list Light) : Prop :=
  ForallOrdPairs apart lights.

Definition descending (lights : list Light) : Prop :=
  StronglySorted (fun a b => confidence b <= confidence a) lights.

Lemma closer_than_30_spec (a b : Light) :
  closer_than_30 a b = true <-> (distance_squared a b < 900)%Z.
Proof.
  unfold closer_than_30, distance_squared.
  destruct (position a) as [x1 y1], (position b) as [x2 y2].
  apply Z.ltb_lt.
Qed.

Lemma closer_than_30_false (a b : Light) :
  closer_than_30 a b = false <-> apart a b.
Proof.
  unfold apart. rewrite <- Z.nlt_ge, <- closer_than_30_spec.
  destruct (closer_than_30 a b); split; congruence.
Qed.

Lemma distance_squared_sym (a b : Light) :
  distance_squared a b = distance_squared b a.
Proof.
  unfold distance_squared.
  destruct (position a) as [x1 y1], (position b) as [x2 y2]. ring.
Qed.

Lemma is_duplicate_true (light : Light) (filtered_lights : list Light) :
  is_duplicate light filtered_lights = true
  <-> exists existing_light,
        In existing_light filtered_lights
        /\ closer_than_30 light existing_light = true.
Proof.
  induction filtered_lights as [| e rest IH]; simpl.
  - split; [discriminate | intros [? [[] _]]].
  - destruct (closer_than_30 light e) eqn:E.
    + split; [intros _; exists e; split; [now left | assumption]
             | reflexivity].
    + rewrite IH. split; intros [k [Hin Hk]]; exists k.
      * split; [now right | assumption].
      * destruct Hin as [<- | Hin]; [congruence | now split].
Qed.

Lemma is_duplicate_false (light : Light) (filtered_lights : list Light) :
  is_duplicate light filtered_lights = false
  <-> Forall (fun existing_light => apart existing_light light)
        filtered_lights.
Proof.
  induction filtered_lights as [| e rest IH]; simpl.
  - split; [constructor | reflexivity].
  - destruct (closer_than_30 light e) eqn:E.
    + split; [discriminate |]. intro H. inversion H as [| ? ? He _]; subst.
      apply closer_than_30_spec in E. unfold apart in He.
      rewrite distance_squared_sym in He. lia.
    + rewrite IH. split; intro H.
      * constructor; [| assumption].
        apply closer_than_30_false in E. unfold apart in *.
        now rewrite distance_squared_sym.
      * now inversion H.
Qed.

Lemma separated_snoc (lights : list Light) (light : Light) :
  separated lights ->
  Forall (fun existing_light => apart existing_light light) lights ->
  separated (lights ++ [light]).
Proof.
  unfold separated. induction 1 as [| a l Ha Hl IH]; intro H; simpl.
  - repeat constructor.
  - inversion H as [| ? ? Hal Hrest]; subst.
    constructor.
    + rewrite Forall_app. split; [assumption | now constructor].
    + now apply IH.
Qed.

Lemma descending_snoc (lights : list Light) (light : Light) :
  descending lights ->
  Forall (fun kept => confidence light <= confidence kept) lights ->
  descending (lights ++ [light]).
Proof.
  unfold descending. induction 1 as [| a l Hl IH Ha]; intro H; simpl.
  - repeat constructor.
  - inversion H as [| ? ? Hal Hrest]; subst.
    constructor.
    + now apply IH.
    + rewrite Forall_app. split; [assumption | now constructor].
Qed.

(** What the greedy loop establishes, from any list of lights kept so far:
    the kept lights stay in front; nothing is invented; separation and
    descending order are preserved when the lights still to come are sorted
    below the kept ones; and every light of the input is kept or is closer
    than 30 pixels to a kept light of no lower confidence. *)
Lemma greedy_loop (lights filtered_lights : list Light) :
  separated filtered_lights ->
  descending filtered_lights ->
  descending lights ->
  Forall (fun kept =>
            Forall (fun light => confidence light <= confidence kept) lights)
    filtered_lights ->
  let result := fold_left keep_step lights filtered_lights in
  incl filtered_lights result
  /\ (forall light, In light result ->
                    In light filtered_lights \/ In light lights)
  /\ separated result
  /\ descending result
  /\ (forall light,
        In light lights ->
        In light result
        \/ exists kept,
             In kept result
             /\ closer_than_30 light kept = true
             /\ confidence light <= confidence kept).
Proof.
  revert filtered_lights.
  induction lights as [| x rest IH]; intros kept Hsep Hdesc Hsorted Hbelow;
    simpl.
  - repeat split; try assumption.
    + apply incl_refl.
    + intros light H. now left.
    + intros light [].
  - inversion Hsorted as [| ? ? Hsorted' Hx]; subst.
    assert (Hkx : Forall (fun k => confidence x <= confidence k) kept).
    { revert Hbelow. apply Forall_impl. intros k Hk.
      now inversion Hk. }
    assert (Hbelow' :
              Forall (fun k =>
                        Forall (fun light => confidence light <= confidence k)
                          rest)
                (keep_step kept x)).
    { unfold keep_step. destruct (is_duplicate x kept).
      - revert Hbelow. apply Forall_impl. intros k Hk. now inversion Hk.
      - rewrite Forall_app. split.
        + revert Hbelow. apply Forall_impl. intros k Hk. now inversion Hk.
        + constructor; [assumption | constructor]. }
    assert (Hsep' : separated (keep_step kept x)).
    { unfold keep_step. destruct (is_duplicate x kept) eqn:D;
        [assumption |].
      apply separated_snoc; [assumption | now apply is_duplicate_false]. }
    assert (Hdesc' : descending (keep_step kept x)).
    { unfold keep_step. destruct (is_duplicate x kept);
        [assumption | now apply descending_snoc]. }
    destruct (IH (keep_step kept x) Hsep' Hdesc' Hsorted' Hbelow')
      as [Hincl [Hfrom [Hs [Hd Hcover]]]].
    assert (Hkept : incl kept (keep_step kept x)).
    { unfold keep_step. destruct (is_duplicate x kept);
        [apply incl_refl | apply incl_appl, incl_refl]. }
    repeat split; try assumption.
    + eapply incl_tran; eassumption.
    + intros light Hin. destruct (Hfrom light Hin) as [H | H].
      * unfold keep_step in H. destruct (is_duplicate x kept).
        -- now left.
        -- apply in_app_or in H. destruct H as [H | [<- | []]];
             [now left | right; now left].
      * right. now right.
    + intros light [<- | Hin]; [| now apply Hcover].
      destruct (is_duplicate x kept) eqn:D.
      * right. apply is_duplicate_true in D. destruct D as [k [Hk Hclose]].
        exists k. repeat split; try assumption.
        -- now apply Hincl, Hkept.
        -- rewrite Forall_forall in Hkx. now apply Hkx.
      * left. apply Hincl. unfold keep_step. rewrite D.
        apply in_or_app. right. now left.
Qed.

Lemma sort_desc_descending_order (lights : list Light) :
  descending (Py.sort_desc confidence lights).
Proof.
  assert (H : StronglySorted (fun _ _ : Light => True) lights).
  { induction lights as [| a l IH]; constructor; [assumption |].
    apply Forall_forall. intros. exact I. }
  apply (PyFacts.sort_desc_sorted confidence) in H.
  revert H. apply PyFacts.StronglySorted_weaken.
  intros a b _ _ [Hlt | [Heq _]]; lra.
Qed.

(** The rule of one greedy step. *)
Lemma keep_step_rule (filtered_lights : list Light) (light : Light) :
  (Forall (fun kept => apart kept light) filtered_lights ->
   keep_step filtered_lights light = filtered_lights ++ [light])
  /\ (Exists (fun kept => (distance_squared kept light < 900)%Z)
        filtered_lights ->
      keep_step filtered_lights light = filtered_lights).
Proof.
  unfold keep_step. split; intro H.
  - apply is_duplicate_false in H. now rewrite H.
  - assert (D : is_duplicate light filtered_lights = true).
    { apply is_duplicate_true. rewrite Exists_exists in H.
      destruct H as [k [Hin Hk]]. exists k. split; [assumption |].
      apply closer_than_30_spec. now rewrite distance_squared_sym. }
    now rewrite D.
Qed.

Lemma two_close_lights (a b : Light) :
  (distance_squared a b < 900)%Z ->
  _remove_overlapping_lights [a; b]
  = if Py.ltb (confidence a) (confidence b) then [b] else [a].
Proof.
  intro H. unfold _remove_overlapping_lights. simpl.
  assert (Hab : closer_than_30 a b = true) by now apply closer_than_30_spec.
  assert (Hba : closer_than_30 b a = true).
  { apply closer_than_30_spec. now rewrite distance_squared_sym. }
  destruct (Py.ltb (confidence a) (confidence b)); simpl;
    unfold keep_step; simpl; now rewrite ?Hab, ?Hba.
Qed.

(** C7, as the source has it.  A list of at most one light is returned as
    it is.  A longer list is sorted by descending confidence, the sort being
    stable: whatever order the input respects, lights of equal confidence
    keep it.  The lights are then taken in that order, a light being kept
    exactly when its centre is at least 30 pixels from the centre of every
    light kept before it.
    The result only has lights of the input, in descending order of
    confidence, any two of them at least 30 pixels apart; every light of the
    input is in the result or is closer than 30 pixels to a light of the
    result whose confidence is not lower.  When the input is two lights
    closer than 30 pixels, exactly one survives: the second if its
    confidence is higher, else the first. *)
Theorem dedup_is_greedy_by_descending_confidence (lights : list Light) :
  ((List.length lights <= 1)%nat -> _remove_overlapping_lights lights = lights)
  /\ ((1 < List.length lights)%nat ->
      _remove_overlapping_lights lights
      = fold_left keep_step (Py.sort_desc confidence lights) [])
  /\ (Permutation (Py.sort_desc confidence lights) lights
      /\ descending (Py.sort_desc confidence lights)
      /\ (forall before : Light -> Light -> Prop,
            StronglySorted before lights ->
            StronglySorted
              (fun a b =>
                 confidence b < confidence a
                 \/ (confidence a == confidence b /\ before a b))
              (Py.sort_desc confidence lights)))
  /\ (forall filtered_lights light,
        (Forall (fun kept => apart kept light) filtered_lights ->
         keep_step filtered_lights light = filtered_lights ++ [light])
        /\ (Exists (fun kept => (distance_squared kept light < 900)%Z)
              filtered_lights ->
            keep_step filtered_lights light = filtered_lights))
  /\ (forall light,
        In light (_remove_overlapping_lights lights) -> In light lights)
  /\ separated (_remove_overlapping_lights lights)
  /\ descending (_remove_overlapping_lights lights)
  /\ (forall light,
        In light lights ->
        In light (_remove_overlapping_lights lights)
        \/ exists kept,
             In kept (_remove_overlapping_lights lights)
             /\ (distance_squared light kept < 900)%Z
             /\ confidence light <= confidence kept)
  /\ (forall a b,
        lights = [a; b] ->
        (distance_squared a b < 900)%Z ->
        _remove_overlapping_lights lights
        = if Py.ltb (confidence a) (confidence b) then [b] else [a]).
Proof.
  assert (Hshort : (List.length lights <= 1)%nat ->
                   _remove_overlapping_lights lights = lights).
  { intro H. unfold _remove_overlapping_lights.
    apply Nat.leb_le in H. now rewrite H. }
  assert (Hlong : (1 < List.length lights)%nat ->
                  _remove_overlapping_lights lights
                  = fold_left keep_step (Py.sort_desc confidence lights) []).
  { intro H. unfold _remove_overlapping_lights.
    apply Nat.leb_gt in H. now rewrite H. }
  pose proof (PyFacts.sort_desc_perm confidence lights) as Hperm.
  pose proof (sort_desc_descending_order lights) as Hsorted.
  split; [assumption |]. split; [assumption |].
  split.
  { split; [assumption | split; [assumption |]].
    intros before Hbefore.
    exact (PyFacts.sort_desc_sorted confidence before lights Hbefore). }
  split; [apply keep_step_rule |].
  destruct (Nat.le_gt_cases (List.length lights) 1) as [Hle | Hgt].
  - rewrite (Hshort Hle).
    split; [| split; [| split; [| split]]].
    + tauto.
    + destruct lights as [| a [| b l]]; simpl in Hle; try lia;
        repeat constructor.
    + destruct lights as [| a [| b l]]; simpl in Hle; try lia;
        repeat constructor.
    + intros light H. now left.
    + intros a b ->. simpl in Hle. lia.
  - rewrite (Hlong Hgt).
    destruct (greedy_loop (Py.sort_desc confidence lights) []
                (FOP_nil _) (SSorted_nil _) Hsorted (Forall_nil _))
      as [_ [Hfrom [Hsep [Hdesc Hcover]]]].
    split; [| split; [| split; [| split]]]; try assumption.
    + intros light H. destruct (Hfrom light H) as [[] | H'].
      now apply (PyFacts.sort_desc_In confidence).
    + intros light H.
      apply (PyFacts.sort_desc_In confidence) in H.
      destruct (Hcover light H) as [Hin | [k [Hk [Hclose Hconf]]]];
        [now left |].
      right. exists k. repeat split; try assumption.
      now apply closer_than_30_spec.
    + intros a b -> Hclose. rewrite <- (Hlong Hgt).
      now apply two_close_lights.
Qed.

Lemma dedup_is_greedy_by_descending_confidence_witness :
  _remove_overlapping_lights [Examples.light_b; Examples.light_a]
  = if Py.ltb (Image.confidence Examples.light_b)
         (Image.confidence Examples.light_a)
    then [Examples.light_a] else [Examples.light_b].
Proof.
  apply (dedup_is_greedy_by_descending_confidence
           [Examples.light_b; Examples.light_a]).
  - reflexivity.
  - reflexivity.
Defined.

(** C7 as the specification states it fails.  Of three lights in a row, 20
    pixels from one to the next, the middle one is dropped for the first and
    the last one is kept: of the middle and the last light, which are within
    30 pixels of each other, the survivor is the one of lower confidence.
    And a light whose centre is exactly 30 pixels from a kept light, not
    farther, is kept. *)
Lemma close_pair_survivor_has_lower_confidence :
  _remove_overlapping_lights
    [Examples.light_a; Examples.light_b; Examples.light_c]
  = [Examples.light_a; Examples.light_c]
  /\ distance_squared Examples.light_b Examples.light_c = 400%Z
  /\ confidence Examples.light_c < confidence Examples.light_b
  /\ _remove_overlapping_lights [Examples.light_a; Examples.light_d]
     = [Examples.light_a; Examples.light_d]
  /\ distance_squared Examples.light_a Examples.light_d = 900%Z.
Proof.
  repeat split.
Qed.

End DedupFacts.

(** ** Further properties of the detectors and of the validation *)

Module DetectorFacts.
Import Audio.

(** The threshold of each pattern type. *)
Definition thresholds : list (string * Q) :=
  [ ("rhythmic", 0.4); ("continuous", 0.6); ("impulsive", 0.3);
    ("harmonic", 0.3); ("noise", 0.5) ].

Ltac pick_threshold :=
  eexists; split;
  [ repeat (first [ left; reflexivity | right ]) | cbn [strength]; lra ].

(** X2.  Every sound pattern the detector reports has a strength above the
    threshold of its type, no type is reported twice, and nothing is
    reported when the feature computation raises. *)
Theorem reported_patterns_exceed_their_thresholds
    (features : Py.Exc PatternFeatures) :
  Forall (fun pattern =>
            exists threshold,
              In (pattern_type pattern, threshold) thresholds
              /\ threshold < strength pattern)
    (_detect_sound_patterns features)
  /\ NoDup (map pattern_type (_detect_sound_patterns features))
  /\ (forall e, _detect_sound_patterns (Py.Raised e) = []).
Proof.
  split; [| split; [| reflexivity]].
  - unfold _detect_sound_patterns, plain_pattern.
    destruct features as [f | e]; [| constructor].
    destruct (PyFacts.ltb_cases 0.4 (rhythmic_strength f))
      as [[-> H1] | [-> H1]];
    destruct (PyFacts.ltb_cases 0.6 (continuity f)) as [[-> H2] | [-> H2]];
    destruct (PyFacts.ltb_cases 0.3 (impulsiveness f)) as [[-> H3] | [-> H3]];
    destruct (PyFacts.ltb_cases 0.3 (harmonic_strength f))
      as [[-> H4] | [-> H4]];
    destruct (PyFacts.ltb_cases 0.5 (noise_level f)) as [[-> H5] | [-> H5]];
    cbn [app]; repeat (constructor; [pick_threshold |]); constructor.
  - unfold _detect_sound_patterns, plain_pattern.
    destruct features as [f | e]; [| constructor].
    destruct (Py.ltb 0.4 (rhythmic_strength f));
    destruct (Py.ltb 0.6 (continuity f));
    destruct (Py.ltb 0.3 (impulsiveness f));
    destruct (Py.ltb 0.3 (harmonic_strength f));
    destruct (Py.ltb 0.5 (noise_level f));
    cbn [app map pattern_type];
    repeat (constructor; [cbn [In]; intuition discriminate |]); constructor.
Qed.

Lemma contains_In (xs : list string) (x : string) :
  Py.contains xs x = true <-> In x xs.
Proof.
  unfold Py.contains. rewrite existsb_exists. split.
  - intros [y [Hin E]]. apply String.eqb_eq in E. now subst.
  - intro H. exists x. split; [assumption | apply String.eqb_refl].
Qed.

Lemma supported_types_are_audio (declared : string) :
  In declared (map fst supported_formats) ->
  Py.startswith declared "audio/" = true.
Proof.
  cbn [map fst supported_formats In].
  intros [<- | [<- | [<- | [<- | [<- | [<- | []]]]]]]; reflexivity.
Qed.

(** X3.  The format validation accepts an upload exactly when its declared
    content type is one of the supported ones and its file name is missing,
    empty, or has (in lower case) an extension listed for that type. *)
Theorem validation_accepts_exactly_supported_uploads
    (content_type filename : option string) :
  fst (validate_audio_format content_type filename) = true
  <-> exists declared,
        content_type = Some declared
        /\ In declared (map fst supported_formats)
        /\ (filename = None
            \/ filename = Some EmptyString
            \/ exists file,
                 filename = Some file
                 /\ In (Py.splitext_ext (Py.lower file))
                      (Py.get supported_formats declared [])).
Proof.
  unfold validate_audio_format.
  destruct content_type as [declared |].
  2: { split; [discriminate | intros [d [E _]]; discriminate]. }
  destruct (Py.contains (map fst supported_formats) declared) eqn:W.
  - apply contains_In in W.
    rewrite (supported_types_are_audio _ W). cbn [negb].
    destruct filename as [[| c file] |]; cbn [fst].
    + split; [| reflexivity]. intros _. exists declared. tauto.
    + destruct (Py.contains (Py.get supported_formats declared [])
                  (Py.splitext_ext (Py.lower (String c file)))) eqn:X;
        cbn [negb fst].
      * split; [| reflexivity]. intros _. exists declared.
        split; [reflexivity | split; [assumption |]].
        right. right. exists (String c file).
        split; [reflexivity | now apply contains_In].
      * split; [discriminate |].
        intros [d [[= <-] [_ [E | [E | [f [[= <-] Hin]]]]]]];
          try discriminate.
        apply contains_In in Hin. congruence.
    + split; [| reflexivity]. intros _. exists declared. tauto.
  - split.
    + destruct (Py.startswith declared "audio/"); discriminate.
    + intros [d [[= <-] [Hin _]]]. apply contains_In in Hin. congruence.
Qed.

End DetectorFacts.

(** ** Anomalous regions of a recording *)

Module AnomalyFacts.
Import Audio AudioFeatures.

(** Frame [j] of a list of flags; there is no anomaly outside the list. *)
Definition frame (frames : list bool) (j : Z) : bool :=
  nth (Z.to_nat j) frames false.

Definition frame_count (frames : list bool) : Z :=
  Z.of_nat (List.length frames).

(** [(s, e)] is a maximal run of anomalous frames: frames [s] to [e - 1] are
    anomalous, the frame in front of [s] and the frame [e] are not. *)
Definition is_run (frames : list bool) (run : Z * Z) : Prop :=
  (0 <= fst run < snd run)%Z
  /\ (snd run <= frame_count frames)%Z
  /\ (forall j, (fst run <= j < snd run)%Z -> frame frames j = true)
  /\ (fst run = 0%Z \/ frame frames (fst run - 1) = false)
  /\ frame frames (snd run) = false.

(** The runs in [runs] are maximal, in increasing order with a gap
    between neighbours, and every anomalous frame lies in one of them. *)
Definition maximal_runs (frames : list bool) (runs : list (Z * Z)) : Prop :=
  Forall (is_run frames) runs
  /\ StronglySorted (fun r1 r2 => (snd r1 < fst r2)%Z) runs
  /\ (forall j, (0 <= j)%Z -> frame frames j = true ->
      exists run, In run runs /\ (fst run <= j < snd run)%Z).

(** The region the source records for a run that a later frame closes. *)
Definition closed_region (sr : Z) (run : Z * Z) : AnomalyRegion :=
  {| start_time := frames_over_rate (fst run * hop_length) sr;
     duration := frames_over_rate ((snd run - fst run) * hop_length) sr;
     end_time := frames_over_rate (snd run * hop_length) sr |}.

(** The region of a run: a run that lasts to the final frame ends with the
    recording. *)
Definition region_of (y : list Q) (sr : Z) (frames : list bool)
    (run : Z * Z) : AnomalyRegion :=
  if (snd run =? frame_count frames)%Z then
    {| start_time := frames_over_rate (fst run * hop_length) sr;
       duration := frames_over_rate ((snd run - fst run) * hop_length) sr;
       end_time := frames_over_rate (Z.of_nat (List.length y)) sr |}
  else closed_region sr run.

Lemma frame_app_l (done rest : list bool) (j : Z) :
  (0 <= j < frame_count done)%Z -> frame (done ++ rest) j = frame done j.
Proof.
  unfold frame, frame_count. intros H. apply app_nth1. lia.
Qed.

Lemma frame_app_last (done : list bool) (b : bool) :
  frame (done ++ [b]) (frame_count done) = b.
Proof.
  unfold frame, frame_count. rewrite Nat2Z.id, app_nth2 by lia.
  now rewrite Nat.sub_diag.
Qed.

Lemma frame_outside (frames : list bool) (j : Z) :
  (frame_count frames <= j)%Z -> frame frames j = false.
Proof.
  unfold frame, frame_count. intros H. apply nth_overflow. lia.
Qed.

Lemma frame_count_snoc (done : list bool) (b : bool) :
  frame_count (done ++ [b]) = (frame_count done + 1)%Z.
Proof. unfold frame_count. rewrite length_app. simpl. lia. Qed.

Lemma frame_count_nonneg (frames : list bool) : (0 <= frame_count frames)%Z.
Proof. unfold frame_count. lia. Qed.

Lemma sorted_snoc {A} (R : A -> A -> Prop) (l : list A) (x : A) :
  StronglySorted R (l ++ [x]) <-> StronglySorted R l /\ Forall (fun y => R y x) l.
Proof.
  induction l as [| a l IH]; simpl.
  - split; [intros _; split; constructor | intros _; repeat constructor].
  - split.
    + intros H. inversion H as [| ? ? Hs Hf]; subst.
      apply IH in Hs as [Hs Hl]. apply Forall_app in Hf as [Hf Hx].
      inversion Hx; subst. split; constructor; assumption.
    + intros [H Hl]. inversion H as [| ? ? Hs Hf]; subst.
      inversion Hl; subst. constructor.
      * apply IH. now split.
      * apply Forall_app. split; [assumption | now constructor].
Qed.

(** A run that ends before the last frame is still a run when frames are
    appended. *)
Lemma is_run_extend (done rest : list bool) (run : Z * Z) :
  is_run done run -> (snd run < frame_count done)%Z ->
  is_run (done ++ rest) run.
Proof.
  intros (Hse & He & Hall & Hleft & Hright) Hlt.
  repeat split; try lia.
  - unfold frame_count in *. rewrite length_app. lia.
  - intros j Hj. rewrite frame_app_l by lia. now apply Hall.
  - destruct (Z.eq_dec (fst run) 0) as [E | E]; [now left | right].
    destruct Hleft as [Hleft | Hleft]; [contradiction |].
    rewrite frame_app_l by lia. exact Hleft.
  - rewrite frame_app_l by lia. exact Hright.
Qed.

(** The state of the loop after the frames of [done]: the closed runs, and
    the start of the open run if there is one. *)
Definition loop_invariant (done : list bool) (runs : list (Z * Z))
    (open : option Z) : Prop :=
  match open with
  | None =>
      maximal_runs done runs
      /\ Forall (fun r => (snd r < frame_count done)%Z) runs
  | Some s => maximal_runs done (runs ++ [(s, frame_count done)])
  end.

Lemma closed_before_open (done : list bool) (runs : list (Z * Z)) (s : Z) :
  maximal_runs done (runs ++ [(s, frame_count done)]) ->
  Forall (fun r => (snd r < s)%Z) runs
  /\ Forall (is_run done) runs
  /\ is_run done (s, frame_count done)
  /\ StronglySorted (fun r1 r2 => (snd r1 < fst r2)%Z) runs.
Proof.
  intros (Hruns & Hsorted & _).
  apply sorted_snoc in Hsorted as [Hsorted Hlast].
  apply Forall_app in Hruns as [Hruns Hopen].
  inversion Hopen; subst.
  split; [exact Hlast | split; [exact Hruns | split; assumption]].
Qed.

Lemma invariant_step (done : list bool) (runs : list (Z * Z))
    (open : option Z) (b : bool) :
  loop_invariant done runs open ->
  loop_invariant (done ++ [b])
    (match open, b with
     | Some s, false => runs ++ [(s, frame_count done)]
     | _, _ => runs
     end)
    (match open, b with
     | Some s, true => Some s
     | None, true => Some (frame_count done)
     | _, false => None
     end).
Proof.
  pose proof (frame_count_nonneg done) as Hn.
  destruct open as [s |]; destruct b; unfold loop_invariant.
  - (* the open run goes on *)
    intros H. pose proof (closed_before_open _ _ _ H) as (Hlt & Hruns & Hrun & Hs).
    destruct H as (_ & _ & Hcover).
    destruct Hrun as (Hse & _ & Hall & Hleft & _). simpl in *.
    rewrite frame_count_snoc. repeat split.
    + apply Forall_app. split.
      * rewrite Forall_forall in *. intros r Hr.
        apply is_run_extend; [now apply Hruns |].
        specialize (Hlt r Hr). lia.
      * constructor; [| constructor]. repeat split; simpl; try lia.
        -- rewrite frame_count_snoc. lia.
        -- intros j Hj. destruct (Z.eq_dec j (frame_count done)) as [-> | Hne].
           ++ apply frame_app_last.
           ++ rewrite frame_app_l by lia. apply Hall. lia.
        -- destruct (Z.eq_dec s 0) as [E | E]; [now left | right].
           destruct Hleft as [Hleft | Hleft]; [contradiction |].
           rewrite frame_app_l by lia. exact Hleft.
        -- apply frame_outside. rewrite frame_count_snoc. lia.
    + apply sorted_snoc. split; [assumption |].
      rewrite Forall_forall in *. intros r Hr. simpl. now apply Hlt.
    + intros j Hj Htrue.
      destruct (Z_lt_ge_dec j (frame_count done)) as [Hlt' | Hge].
      * rewrite frame_app_l in Htrue by lia.
        destruct (Hcover j Hj Htrue) as (run & Hin & Hrange).
        apply in_app_or in Hin as [Hin | [<- | []]].
        -- exists run. split; [apply in_or_app; now left | exact Hrange].
        -- exists (s, (frame_count done + 1)%Z).
           split; [apply in_or_app; right; now left | simpl in *; lia].
      * destruct (Z.eq_dec j (frame_count done)) as [-> | Hne].
        -- exists (s, (frame_count done + 1)%Z).
           split; [apply in_or_app; right; now left | simpl in *; lia].
        -- rewrite frame_outside in Htrue; [discriminate |].
           rewrite frame_count_snoc. lia.
  - (* the open run is closed *)
    intros H. pose proof (closed_before_open _ _ _ H) as (Hlt & Hruns & Hrun & Hs).
    destruct H as (_ & Hsorted & Hcover).
    destruct Hrun as (Hse & _ & Hall & Hleft & _). simpl in *.
    rewrite frame_count_snoc. repeat split.
    + apply Forall_app. split.
      * rewrite Forall_forall in *. intros r Hr.
        apply is_run_extend; [now apply Hruns |].
        specialize (Hlt r Hr). lia.
      * constructor; [| constructor]. repeat split; simpl; try lia.
        -- rewrite frame_count_snoc. lia.
        -- intros j Hj. rewrite frame_app_l by lia. apply Hall. lia.
        -- destruct (Z.eq_dec s 0) as [E | E]; [now left | right].
           destruct Hleft as [Hleft | Hleft]; [contradiction |].
           rewrite frame_app_l by lia. exact Hleft.
        -- apply frame_app_last.
    + exact Hsorted.
    + intros j Hj Htrue.
      destruct (Z_lt_ge_dec j (frame_count done)) as [Hlt' | Hge].
      * rewrite frame_app_l in Htrue by lia. now apply Hcover.
      * destruct (Z.eq_dec j (frame_count done)) as [-> | Hne].
        -- rewrite frame_app_last in Htrue. discriminate.
        -- rewrite frame_outside in Htrue; [discriminate |].
           rewrite frame_count_snoc. lia.
    + apply Forall_app. split.
      * rewrite Forall_forall in *. intros r Hr. specialize (Hlt r Hr). lia.
      * constructor; [simpl; lia | constructor].
  - (* a run starts *)
    intros ((Hruns & Hsorted & Hcover) & Hlt).
    rewrite frame_count_snoc. repeat split.
    + apply Forall_app. split.
      * rewrite Forall_forall in *. intros r Hr.
        apply is_run_extend; [now apply Hruns | now apply Hlt].
      * constructor; [| constructor]. repeat split; simpl; try lia.
        -- rewrite frame_count_snoc. lia.
        -- intros j Hj. assert (j = frame_count done) as -> by lia.
           apply frame_app_last.
        -- destruct (Z.eq_dec (frame_count done) 0) as [E | E];
             [now left | right].
           rewrite frame_app_l by lia.
           destruct (frame done (frame_count done - 1)) eqn:Hprev;
             [| reflexivity].
           destruct (Hcover (frame_count done - 1)%Z ltac:(lia) Hprev)
             as (run & Hin & Hrange).
           rewrite Forall_forall in Hlt. specialize (Hlt run Hin). lia.
        -- apply frame_outside. rewrite frame_count_snoc. lia.
    + apply sorted_snoc. split; [assumption |].
      rewrite Forall_forall in *. intros r Hr. simpl. now apply Hlt.
    + intros j Hj Htrue.
      destruct (Z_lt_ge_dec j (frame_count done)) as [Hlt' | Hge].
      * rewrite frame_app_l in Htrue by lia.
        destruct (Hcover j Hj Htrue) as (run & Hin & Hrange).
        exists run. split; [apply in_or_app; now left | exact Hrange].
      * destruct (Z.eq_dec j (frame_count done)) as [-> | Hne].
        -- exists (frame_count done, (frame_count done + 1)%Z).
           split; [apply in_or_app; right; now left | simpl; lia].
        -- rewrite frame_outside in Htrue; [discriminate |].
           rewrite frame_count_snoc. lia.
  - (* nothing happens *)
    intros ((Hruns & Hsorted & Hcover) & Hlt).
    rewrite frame_count_snoc. repeat split.
    + rewrite Forall_forall in *. intros r Hr.
      apply is_run_extend; [now apply Hruns | now apply Hlt].
    + exact Hsorted.
    + intros j Hj Htrue.
      destruct (Z_lt_ge_dec j (frame_count done)) as [Hlt' | Hge].
      * rewrite frame_app_l in Htrue by lia. now apply Hcover.
      * destruct (Z.eq_dec j (frame_count done)) as [-> | Hne].
        -- rewrite frame_app_last in Htrue. discriminate.
        -- rewrite frame_outside in Htrue; [discriminate |].
           rewrite frame_count_snoc. lia.
    + rewrite Forall_forall in *. intros r Hr. specialize (Hlt r Hr). lia.
Qed.

(** The frames of the runs, counted. *)
Definition run_frames (runs : list (Z * Z)) : Z :=
  fold_right (fun r n => (snd r - fst r + n)%Z) 0%Z runs.

Definition anomalous_frame_count (frames : list bool) : Z :=
  Z.of_nat (List.length (filter (fun b : bool => b) frames)).

Lemma run_frames_snoc (runs : list (Z * Z)) (r : Z * Z) :
  run_frames (runs ++ [r]) = (run_frames runs + (snd r - fst r))%Z.
Proof.
  induction runs as [| a runs IH]; simpl; [lia |]. rewrite IH. lia.
Qed.

Lemma anomalous_frame_count_snoc (done : list bool) (b : bool) :
  anomalous_frame_count (done ++ [b])
  = (anomalous_frame_count done + if b then 1 else 0)%Z.
Proof.
  unfold anomalous_frame_count. rewrite filter_app, length_app.
  destruct b; simpl; lia.
Qed.

(** Every anomalous frame is counted once: in a closed run or in the open
    one. *)
Definition counted (done : list bool) (runs : list (Z * Z))
    (open : option Z) : Prop :=
  anomalous_frame_count done
  = (run_frames runs
     + match open with Some s => frame_count done - s | None => 0 end)%Z.

Lemma counted_step (done : list bool) (runs : list (Z * Z))
    (open : option Z) (b : bool) :
  counted done runs open ->
  counted (done ++ [b])
    (match open, b with
     | Some s, false => runs ++ [(s, frame_count done)]
     | _, _ => runs
     end)
    (match open, b with
     | Some s, true => Some s
     | None, true => Some (frame_count done)
     | _, false => None
     end).
Proof.
  unfold counted. intros Hcount.
  rewrite anomalous_frame_count_snoc, frame_count_snoc, Hcount.
  destruct open, b; rewrite ?run_frames_snoc; simpl; lia.
Qed.

(** The start of the run the loop is in, if any. *)
Definition open_run (st : RegionLoop) : option Z :=
  if in_anomaly st then Some (start_frame st) else None.

Lemma region_step_runs (sr : Z) (st : RegionLoop) (runs : list (Z * Z))
    (i : Z) (b : bool) :
  regions st = map (closed_region sr) runs ->
  regions (region_step sr st (i, b))
  = map (closed_region sr)
      (match open_run st, b with
       | Some s, false => runs ++ [(s, i)]
       | _, _ => runs
       end)
  /\ open_run (region_step sr st (i, b))
     = match open_run st, b with
       | Some s, true => Some s
       | None, true => Some i
       | _, false => None
       end.
Proof.
  intros Hregions. unfold region_step, open_run.
  destruct b, (in_anomaly st) eqn:Hin; cbn [andb negb];
    rewrite ?Hin; cbn [regions in_anomaly start_frame];
    rewrite ?Hin; split; try reflexivity; try assumption.
  rewrite map_app, Hregions. reflexivity.
Qed.

Lemma region_loop (sr : Z) (rest : list bool) :
  forall (done : list bool) (st : RegionLoop) (runs : list (Z * Z)),
  regions st = map (closed_region sr) runs ->
  loop_invariant done runs (open_run st) ->
  counted done runs (open_run st) ->
  exists runs',
    let st' :=
      fold_left (region_step sr) (enumerate_from (frame_count done) rest) st in
    regions st' = map (closed_region sr) runs'
    /\ loop_invariant (done ++ rest) runs' (open_run st')
    /\ counted (done ++ rest) runs' (open_run st').
Proof.
  induction rest as [| b rest IH]; intros done st runs Hregions Hinv Hcount.
  - exists runs. simpl. rewrite app_nil_r. now repeat split.
  - cbn [enumerate_from fold_left].
    destruct (region_step_runs sr st runs (frame_count done) b Hregions)
      as [Hregions' Hopen'].
    pose proof (invariant_step done runs (open_run st) b Hinv) as Hinv'.
    pose proof (counted_step done runs (open_run st) b Hcount) as Hcount'.
    rewrite <- Hopen' in Hinv', Hcount'.
    specialize (IH (done ++ [b]) _ _ Hregions' Hinv' Hcount').
    rewrite frame_count_snoc, <- app_assoc in IH. exact IH.
Qed.

Lemma closed_regions (y : list Q) (sr : Z) (frames : list bool)
    (runs : list (Z * Z)) :
  Forall (fun r => (snd r < frame_count frames)%Z) runs ->
  map (closed_region sr) runs = map (region_of y sr frames) runs.
Proof.
  intros H. apply map_ext_in. intros r Hr.
  rewrite Forall_forall in H. specialize (H r Hr).
  unfold region_of. destruct (Z.eqb_spec (snd r) (frame_count frames)); [lia |].
  reflexivity.
Qed.

(** The regions of the source are the maximal runs of anomalous frames, and
    their frames add up to the number of anomalous frames. *)
Lemma regions_runs (y : list Q) (sr : Z) (anomalous_frames : list bool) :
  exists runs,
    find_anomaly_regions y sr anomalous_frames
    = map (region_of y sr anomalous_frames) runs
    /\ maximal_runs anomalous_frames runs
    /\ run_frames runs = anomalous_frame_count anomalous_frames.
Proof.
  unfold find_anomaly_regions, enumerate.
  destruct (region_loop sr anomalous_frames []
              {| regions := []; in_anomaly := false; start_frame := 0 |} [])
    as (runs & Hregions & Hinv & Hcount).
  - reflexivity.
  - unfold open_run, loop_invariant. simpl.
    repeat split; try constructor.
    intros j Hj Htrue. unfold frame in Htrue.
    destruct (Z.to_nat j); discriminate.
  - reflexivity.
  - cbn zeta in *. cbn [app] in *.
    change (frame_count []) with 0%Z in *.
    set (st := fold_left (region_step sr) (enumerate_from 0 anomalous_frames) _)
      in *.
    unfold open_run in Hinv, Hcount. unfold counted in Hcount.
    destruct (in_anomaly st).
    + exists (runs ++ [(start_frame st, frame_count anomalous_frames)]).
      pose proof (closed_before_open _ _ _ Hinv) as (Hlt & _ & Hrun & _).
      destruct Hrun as (Hse & _). simpl in Hse.
      split; [| split].
      * rewrite map_app, Hregions. f_equal.
        -- apply closed_regions. rewrite Forall_forall in *.
           intros r Hr. specialize (Hlt r Hr). lia.
        -- cbn [map]. unfold region_of. cbn [fst snd].
           rewrite Z.eqb_refl. reflexivity.
      * exact Hinv.
      * rewrite run_frames_snoc. cbn [fst snd]. lia.
    + exists runs. destruct Hinv as [Hinv Hlt]. split; [| split].
      * rewrite Hregions. now apply closed_regions.
      * exact Hinv.
      * lia.
Qed.

(** X4. [_analyze_anomaly_duration], for a positive sample rate: the
    regions the loop finds are exactly the maximal runs of anomalous
    frames, in increasing order and with at least one quiet frame between
    two of them, and the frames of the runs add up to the number of
    anomalous frames; a region starts at [start * 512 / sr], lasts
    [(stop - start) * 512 / sr] and ends at [stop * 512 / sr], except that
    a run lasting to the final frame ends at [len(y) / sr]. *)
Theorem anomaly_regions_are_the_maximal_runs
    (y : list Q) (sr : Z) (anomalous_frames : list bool) :
  (0 < sr)%Z ->
  exists runs,
    maximal_runs anomalous_frames runs
    /\ find_anomaly_regions y sr anomalous_frames
       = map (region_of y sr anomalous_frames) runs
    /\ run_frames runs = anomalous_frame_count anomalous_frames.
Proof.
  intros _.
  destruct (regions_runs y sr anomalous_frames) as (runs & H & Hmax & Hcount).
  exists runs. split; [exact Hmax | split; [exact H | exact Hcount]].
Qed.

Lemma anomaly_regions_are_the_maximal_runs_witness :
  exists runs,
    maximal_runs [false; true; true; false; true] runs
    /\ find_anomaly_regions [0; 0; 0] 22050 [false; true; true; false; true]
       = map (region_of [0; 0; 0] 22050 [false; true; true; false; true])
           runs
    /\ run_frames runs
       = anomalous_frame_count [false; true; true; false; true].
Proof.
  apply (anomaly_regions_are_the_maximal_runs [0; 0; 0] 22050
           [false; true; true; false; true]).
  reflexivity.
Defined.

End AnomalyFacts.

(** ** Conversion of numpy values *)

Module ConvertFacts.
Import Obj Router.

Section ValueInduction.
Variable P : Value -> Prop.
Hypothesis HNone : P VNone.
Hypothesis HBool : forall b, P (VBool b).
Hypothesis HInt : forall z, P (VInt z).
Hypothesis HFloat : forall q, P (VFloat q).
Hypothesis HStr : forall s, P (VStr s).
Hypothesis HList : forall items, Forall P items -> P (VList items).
Hypothesis HTuple : forall items, Forall P items -> P (VTuple items).
Hypothesis HDict :
  forall entries, Forall (fun entry => P (snd entry)) entries ->
                  P (VDict entries).
Hypothesis HNpBool : forall b, P (NpBool b).
Hypothesis HNpInteger : forall z, P (NpInteger z).
Hypothesis HNpFloating : forall q, P (NpFloating q).
Hypothesis HArray : forall a, P (VArray a).

Fixpoint value_induction (v : Value) : P v :=
  match v with
  | VNone => HNone
  | VBool b => HBool b
  | VInt z => HInt z
  | VFloat q => HFloat q
  | VStr s => HStr s
  | VList items =>
      HList items
        ((fix all (l : list Value) : Forall P l :=
            match l with
            | [] => Forall_nil _
            | x :: rest => Forall_cons _ (value_induction x) (all rest)
            end) items)
  | VTuple items =>
      HTuple items
        ((fix all (l : list Value) : Forall P l :=
            match l with
            | [] => Forall_nil _
            | x :: rest => Forall_cons _ (value_induction x) (all rest)
            end) items)
  | VDict entries =>
      HDict entries
        ((fix all (l : list (string * Value))
            : Forall (fun entry => P (snd entry)) l :=
            match l with
            | [] => Forall_nil _
            | (k, x) :: rest =>
                Forall_cons (k, x) (value_induction x) (all rest)
            end) entries)
  | NpBool b => HNpBool b
  | NpInteger z => HNpInteger z
  | NpFloating q => HNpFloating q
  | VArray a => HArray a
  end.
End ValueInduction.

Section ArrayInduction.
Variable P : NdArray -> Prop.
Hypothesis HItem : forall x, P (NdItem x).
Hypothesis HAxis : forall rows, Forall P rows -> P (NdAxis rows).

Fixpoint array_induction (a : NdArray) : P a :=
  match a with
  | NdItem x => HItem x
  | NdAxis rows =>
      HAxis rows
        ((fix all (l : list NdArray) : Forall P l :=
            match l with
            | [] => Forall_nil _
            | x :: rest => Forall_cons _ (array_induction x) (all rest)
            end) rows)
  end.
End ArrayInduction.

(** No numpy scalar and no array occurs in the value. *)
Fixpoint native (v : Value) : bool :=
  match v with
  | NpBool _ | NpInteger _ | NpFloating _ | VArray _ => false
  | VList items | VTuple items => forallb native items
  | VDict entries =>
      forallb (fun entry => match entry with (_, x) => native x end) entries
  | _ => true
  end.

(** No numpy scalar and no array occurs inside a tuple of the value. *)
Fixpoint native_tuples (v : Value) : bool :=
  match v with
  | VTuple items => forallb native items
  | VList items => forallb native_tuples items
  | VDict entries =>
      forallb (fun entry => match entry with (_, x) => native_tuples x end)
        entries
  | _ => true
  end.

Lemma forallb_over_map {A B} (f : B -> bool) (g : A -> B) (l : list A) :
  forallb f (map g l) = forallb (fun x => f (g x)) l.
Proof.
  induction l as [| a l IH]; [reflexivity |]. cbn [map forallb].
  now rewrite IH.
Qed.

Lemma tolist_native (a : NdArray) : native (tolist a) = true.
Proof.
  induction a as [[b | z | q] | rows IH] using array_induction;
    try reflexivity.
  cbn [tolist native]. rewrite forallb_over_map.
  apply forallb_forall. rewrite Forall_forall in IH. exact IH.
Qed.

Lemma native_fixed (v : Value) :
  native v = true -> convert_numpy_types v = v.
Proof.
  induction v as [| | | | | items IH | items IH | entries IH | | | |]
    using value_induction; cbn [native convert_numpy_types];
    try reflexivity; try discriminate.
  - intros H. f_equal. rewrite forallb_forall in H.
    rewrite Forall_forall in IH.
    rewrite <- (map_id items) at 2. apply map_ext_in.
    intros x Hx. apply IH; [exact Hx | now apply H].
  - intros H. f_equal. rewrite forallb_forall in H.
    rewrite Forall_forall in IH.
    rewrite <- (map_id entries) at 2. apply map_ext_in.
    intros [k x] Hx. f_equal.
    apply (IH (k, x) Hx). exact (H (k, x) Hx).
Qed.

Lemma forallb_ext_in {A} (f g : A -> bool) (l : list A) :
  (forall x, In x l -> f x = g x) -> forallb f l = forallb g l.
Proof.
  induction l as [| a l IH]; intros H; [reflexivity |].
  cbn [forallb]. rewrite (H a (or_introl eq_refl)). f_equal.
  apply IH. intros x Hx. apply H. now right.
Qed.

Lemma converted_native (v : Value) :
  native (convert_numpy_types v) = native_tuples v.
Proof.
  induction v as [| | | | | items IH | items IH | entries IH | | | | a]
    using value_induction; cbn [native native_tuples convert_numpy_types];
    try reflexivity.
  - rewrite forallb_over_map. apply forallb_ext_in.
    rewrite Forall_forall in IH. exact IH.
  - rewrite forallb_over_map. apply forallb_ext_in.
    rewrite Forall_forall in IH. intros [k x] Hx. exact (IH (k, x) Hx).
  - apply tolist_native.
Qed.

Lemma native_tuples_of_native (v : Value) :
  native v = true -> native_tuples v = true.
Proof.
  induction v as [| | | | | items IH | items IH | entries IH | | | |]
    using value_induction; cbn [native native_tuples];
    try reflexivity; try discriminate.
  - rewrite !forallb_forall. rewrite Forall_forall in IH.
    intros H x Hx. apply IH; [exact Hx | now apply H].
  - tauto.
  - rewrite !forallb_forall. rewrite Forall_forall in IH.
    intros H [k x] Hx. apply (IH (k, x) Hx). exact (H (k, x) Hx).
Qed.

Lemma converted_twice (v : Value) :
  convert_numpy_types (convert_numpy_types v) = convert_numpy_types v.
Proof.
  induction v as [| | | | | items IH | items IH | entries IH | | | | a]
    using value_induction; cbn [convert_numpy_types]; try reflexivity.
  - f_equal. rewrite map_map. apply map_ext_in.
    rewrite Forall_forall in IH. exact IH.
  - f_equal. rewrite map_map. apply map_ext_in.
    rewrite Forall_forall in IH. intros [k x] Hx. f_equal.
    exact (IH (k, x) Hx).
  - apply native_fixed, tolist_native.
Qed.

(** X5. [convert_numpy_types]: converting twice is converting once; a
    value without numpy scalars and arrays is returned as it is; and the
    result is free of numpy scalars and arrays exactly when none of them
    sits inside a tuple of the argument, because tuples are not looked
    into. *)
Theorem conversion_reaches_all_but_tuples (obj : Value) :
  convert_numpy_types (convert_numpy_types obj) = convert_numpy_types obj
  /\ (native obj = true -> convert_numpy_types obj = obj)
  /\ (native (convert_numpy_types obj) = true <-> native_tuples obj = true)
  /\ (forall items,
        convert_numpy_types (VTuple items) = VTuple items).
Proof.
  split; [apply converted_twice |].
  split; [apply native_fixed |].
  split; [now rewrite converted_native | reflexivity].
Qed.

Lemma conversion_reaches_all_but_tuples_witness :
  convert_numpy_types (VList [VInt 1; VStr "red"]) = VList [VInt 1; VStr "red"].
Proof.
  apply (conversion_reaches_all_but_tuples (VList [VInt 1; VStr "red"])).
  reflexivity.
Defined.

End ConvertFacts.

(** ** Urgency and confidence of the narration *)

Module NarrationFacts.
Import Obj Gemini.

Lemma lookup_assign_same (entries : list (string * Value)) (k : string)
    (v : Value) :
  lookup (assign entries k v) k = Some v.
Proof.
  induction entries as [| [k' v'] rest IH]; cbn [assign lookup].
  - now rewrite String.eqb_refl.
  - destruct (String.eqb k' k) eqn:E; cbn [lookup].
    + now rewrite String.eqb_refl.
    + now rewrite E.
Qed.

Lemma lookup_assign_other (entries : list (string * Value)) (k k' : string)
    (v : Value) :
  k <> k' -> lookup (assign entries k v) k' = lookup entries k'.
Proof.
  intros Hne. induction entries as [| [k0 v0] rest IH]; cbn [assign lookup].
  - destruct (String.eqb_spec k k'); [contradiction | reflexivity].
  - destruct (String.eqb_spec k0 k) as [-> | Hk]; cbn [lookup].
    + destruct (String.eqb_spec k k'); [contradiction | reflexivity].
    + now rewrite IH.
Qed.

(** The urgency the faults call for, whatever the urgency so far. *)
Definition raised_urgency (so_far : string)
    (detected_faults : list Audio.Fault) : string :=
  if Audio.has_urgency "critical" detected_faults then "critical"
  else if String.eqb so_far "critical" then "critical"
  else if Audio.has_urgency "warning" detected_faults then "warning"
  else so_far.

Lemma raised_urgency_level (detected_faults : list Audio.Fault) :
  raised_urgency "normal" detected_faults
  = Audio._determine_urgency_level detected_faults.
Proof.
  unfold raised_urgency, Audio._determine_urgency_level.
  destruct detected_faults; reflexivity.
Qed.

Lemma faults_urgency_raised (detected_faults : list Audio.Fault) :
  forall so_far,
    so_far <> "critical" ->
    faults_urgency so_far detected_faults
    = raised_urgency so_far detected_faults.
Proof.
  unfold raised_urgency.
  induction detected_faults as [| fault rest IH]; intros so_far Hne;
    cbn [faults_urgency Audio.has_urgency].
  - destruct (String.eqb_spec so_far "critical"); [contradiction |].
    reflexivity.
  - destruct (String.eqb_spec (Audio.urgency fault) "critical") as [E | E];
      [reflexivity |].
    destruct (String.eqb_spec so_far "critical"); [contradiction |].
    cbn [negb andb].
    destruct (String.eqb_spec (Audio.urgency fault) "warning") as [W | W];
      cbn [andb].
    + rewrite IH by discriminate. cbn.
      destruct (Audio.has_urgency "critical" rest); [reflexivity |].
      now destruct (Audio.has_urgency "warning" rest).
    + rewrite IH by assumption.
      destruct (String.eqb_spec so_far "critical"); [contradiction |].
      reflexivity.
Qed.

Lemma fallback_faults_urgency (detected_faults : list Audio.Fault) :
  forall st,
    faults_urgency_level (fold_left fallback_fault_step detected_faults st)
    = raised_urgency (faults_urgency_level st) detected_faults.
Proof.
  unfold raised_urgency.
  induction detected_faults as [| fault rest IH]; intros st;
    cbn [fold_left Audio.has_urgency].
  - now destruct (String.eqb_spec (faults_urgency_level st) "critical").
  - rewrite IH. unfold fallback_fault_step.
    destruct (String.eqb_spec (Audio.urgency fault) "critical") as [E | E].
    + cbn [faults_urgency_level].
      now destruct (Audio.has_urgency "critical" rest).
    + destruct (String.eqb_spec (Audio.urgency fault) "warning") as [W | W];
        cbn [andb].
      * destruct (String.eqb_spec (faults_urgency_level st) "critical")
          as [C | C]; cbn [negb faults_urgency_level].
        -- rewrite C. cbn.
           now destruct (Audio.has_urgency "critical" rest).
        -- cbn. destruct (Audio.has_urgency "critical" rest); [reflexivity |].
           now destruct (Audio.has_urgency "warning" rest).
      * cbn [faults_urgency_level]. reflexivity.
Qed.

Lemma validated_engine_urgency
    (list_of_set : list string -> list string) (float_sum : list Q -> Q)
    (analysis result : Value) (detected_faults : list Audio.Fault)
    (audio_analysis : Audio.AudioAnalysisResult) :
  detected_faults <> [] ->
  _validate_and_enhance_engine_analysis list_of_set float_sum analysis detected_faults
    audio_analysis = Py.Returned result ->
  exists gemini_analysis,
    result = VDict gemini_analysis
    /\ lookup gemini_analysis "urgency_level"
       = Some (VStr (Audio._determine_urgency_level detected_faults)).
Proof.
  intros Hfaults Hv.
  unfold _validate_and_enhance_engine_analysis in Hv.
  destruct analysis as [| | | | | | | entries | | | |]; try discriminate.
  rewrite <- raised_urgency_level, <- faults_urgency_raised by discriminate.
  destruct detected_faults as [| fault rest]; [contradiction |].
  cbv zeta in Hv.
  set (level := faults_urgency "normal" (fault :: rest)) in *.
  destruct (confidence_is_low (assign entries "urgency_level" (VStr level))
              0.5) as [low |]; cbn [Py.bind] in Hv; [| discriminate].
  injection Hv as <-. eexists. split; [reflexivity |].
  repeat match goal with
         | |- context [if ?c then _ else _] => destruct c
         end;
    rewrite ?lookup_assign_other by discriminate;
    apply lookup_assign_same.
Qed.

Lemma fallback_engine_urgency
    (list_of_set : list string -> list string)
    (detected_faults : list Audio.Fault)
    (audio_analysis : Audio.AudioAnalysisResult) :
  detected_faults <> [] ->
  exists gemini_analysis,
    _create_enhanced_fallback_engine_analysis list_of_set detected_faults
      audio_analysis = VDict gemini_analysis
    /\ lookup gemini_analysis "urgency_level"
       = Some (VStr (Audio._determine_urgency_level detected_faults)).
Proof.
  intros Hfaults.
  rewrite <- raised_urgency_level.
  unfold _create_enhanced_fallback_engine_analysis.
  destruct detected_faults as [| fault rest]; [contradiction |].
  eexists. split; [reflexivity |].
  cbn [lookup String.eqb Ascii.eqb Bool.eqb].
  now rewrite fallback_faults_urgency.
Qed.

(** The urgency level of the narration of an engine sound with detected
    faults. *)
Lemma engine_narration_urgency
    (list_of_set : list string -> list string) (float_sum : list Q -> Q)
    (audio_analysis : Audio.AudioAnalysisResult)
    (generated : Py.Exc (option Value)) :
  Audio.detected_faults audio_analysis <> [] ->
  exists gemini_analysis,
    analyze_engine_sound list_of_set float_sum audio_analysis generated
    = VDict gemini_analysis
    /\ lookup gemini_analysis "urgency_level"
       = Some (VStr (Audio._determine_urgency_level
                       (Audio.detected_faults audio_analysis))).
Proof.
  intros Hfaults. unfold analyze_engine_sound. cbv zeta.
  pose proof (fallback_engine_urgency list_of_set _ audio_analysis Hfaults)
    as Hfallback.
  destruct generated as [[analysis |] | e]; try exact Hfallback.
  destruct (_validate_and_enhance_engine_analysis list_of_set float_sum analysis
              (Audio.detected_faults audio_analysis) audio_analysis)
    as [result | e] eqn:Hv; [| exact Hfallback].
  destruct (validated_engine_urgency _ _ _ _ _ _ Hfaults Hv)
    as (gemini_analysis & -> & Hu).
  now exists gemini_analysis.
Qed.

(** X6. [GeminiService.analyze_engine_sound]: when the analyzer detected
    at least one fault, the urgency level of the narration is the
    analyzer's own urgency level, whatever the model answered and also when
    it failed to answer: the validation overwrites the level of the reply,
    and the fallback computes the same level. *)
Theorem narration_urgency_is_the_urgency_of_the_faults
    (list_of_set : list string -> list string) (float_sum : list Q -> Q)
    (audio_analysis : Audio.AudioAnalysisResult)
    (generated : Py.Exc (option Value)) :
  Audio.detected_faults audio_analysis <> [] ->
  exists gemini_analysis,
    analyze_engine_sound list_of_set float_sum audio_analysis generated
    = VDict gemini_analysis
    /\ lookup gemini_analysis "urgency_level"
       = Some (VStr (Audio._determine_urgency_level
                       (Audio.detected_faults audio_analysis))).
Proof. apply engine_narration_urgency. Qed.

(** X7. The engine-sound route with detected faults: the answer reports
    the analyzer's urgency as "immediate", "soon" or "monitoring", while
    [db.save_diagnostic_result] maps the same level through
    [_map_urgency_level], which knows "critical" but neither "warning" nor
    "normal": a diagnosis of urgency "warning" is answered as "soon" and
    stored as "monitoring", and this is the only level on which the two
    disagree. *)
Theorem warning_is_answered_soon_but_stored_as_monitoring
    (list_of_set : list string -> list string) (float_sum : list Q -> Q)
    (audio_analysis : Audio.AudioAnalysisResult)
    (generated : Py.Exc (option Value)) :
  Audio.detected_faults audio_analysis <> [] ->
  exists gemini_analysis,
    analyze_engine_sound list_of_set float_sum audio_analysis generated
    = VDict gemini_analysis
    /\ let level :=
         Audio._determine_urgency_level
           (Audio.detected_faults audio_analysis) in
       let reported := Router.get_urgency_level gemini_analysis "normal" in
       let answered :=
         if String.eqb level "critical" then Router.IMMEDIATE
         else if String.eqb level "warning" then Router.SOON
         else Router.MONITORING in
       reported = VStr level
       /\ Router.response_urgency Router.engine_urgency_mapping reported
          = Py.Returned answered
       /\ Router.stored_urgency reported
          = Some (if String.eqb level "critical" then "immediate"
                  else "monitoring")
       /\ (Router.stored_urgency reported = Some (Router.value answered)
           <-> level <> "warning").
Proof.
  intros Hfaults.
  destruct (engine_narration_urgency list_of_set float_sum audio_analysis generated
              Hfaults) as (gemini_analysis & Hg & Hu).
  exists gemini_analysis. split; [exact Hg |]. cbv zeta.
  unfold Router.get_urgency_level. rewrite Hu.
  rewrite UrgencyFacts.level_cases.
  destruct (Audio.has_urgency "critical" _);
    [| destruct (Audio.has_urgency "warning" _)];
    cbn; repeat split; try discriminate; try reflexivity;
    intros H; try discriminate; now contradiction H.
Qed.

Lemma clamp_range (confidence_score : Q) :
  let clamped := Router.max 0.0 (Py.min 1.0 confidence_score) in
  0 <= clamped /\ clamped <= 1
  /\ (confidence_score <= 0 -> clamped == 0)
  /\ (1 <= confidence_score -> clamped == 1)
  /\ (0 <= confidence_score -> confidence_score <= 1 ->
      clamped == confidence_score).
Proof.
  cbv zeta. unfold Router.max, Py.min.
  destruct (PyFacts.ltb_cases confidence_score 1.0) as [[-> H1] | [-> H1]].
  - destruct (PyFacts.ltb_cases 0.0 confidence_score) as [[-> H2] | [-> H2]];
      repeat split; intros; lra.
  - destruct (PyFacts.ltb_cases 0.0 1.0) as [[-> H2] | [-> H2]];
      repeat split; intros; lra.
Qed.

Lemma decimal_0 : 0 == inject_Z 0 / RoundingFacts.scale 3.
Proof. reflexivity. Qed.

Lemma decimal_1 : 1 == inject_Z 1000 / RoundingFacts.scale 3.
Proof. reflexivity. Qed.

Lemma decimal_0_6 : 0.6 == inject_Z 600 / RoundingFacts.scale 3.
Proof. reflexivity. Qed.

(** X8. The confidence of a response: whatever number the narration
    gives, [round(max(0.0, min(1.0, confidence_score)), 3)] lies between 0
    and 1, the bounds of the response schema; it is 0 for a number that is
    not positive, 1 for a number of at least 1, and the number rounded to
    three decimals otherwise. *)
Theorem response_confidence_is_within_the_schema_bounds
    (confidence_score : Q) :
  0 <= Router.response_confidence confidence_score
  /\ Router.response_confidence confidence_score <= 1
  /\ (confidence_score <= 0 ->
      Router.response_confidence confidence_score == 0)
  /\ (1 <= confidence_score ->
      Router.response_confidence confidence_score == 1)
  /\ (0 <= confidence_score -> confidence_score <= 1 ->
      Router.response_confidence confidence_score
      = Py.round confidence_score 3).
Proof.
  unfold Router.response_confidence. cbv zeta.
  destruct (clamp_range confidence_score) as (Hlo & Hhi & Hzero & Hone & Hid).
  cbv zeta in *.
  set (clamped := Router.max 0.0 (Py.min 1.0 confidence_score)) in *.
  destruct (RoundingFacts.round_between 0 1000 clamped 3) as [Hlo' Hhi'].
  { rewrite <- decimal_0. exact Hlo. }
  { rewrite <- decimal_1. exact Hhi. }
  rewrite <- decimal_0 in Hlo'. rewrite <- decimal_1 in Hhi'.
  split; [exact Hlo' | split; [exact Hhi' | split; [| split]]].
  - intros H. rewrite (RoundingFacts.round_proper _ 0 3 (Hzero H)). reflexivity.
  - intros H. rewrite (RoundingFacts.round_proper _ 1 3 (Hone H)). reflexivity.
  - intros H0 H1. apply RoundingFacts.round_proper. now apply Hid.
Qed.

(** The three classes of colours the narration knows. *)
Definition is_red (light : Image.Light) : bool :=
  Py.contains ["red"] (Py.lower (Image.color light)).

Definition is_caution (light : Image.Light) : bool :=
  Py.contains ["yellow"; "orange"; "amber"] (Py.lower (Image.color light)).

Definition is_indicator (light : Image.Light) : bool :=
  Py.contains ["green"; "blue"] (Py.lower (Image.color light)).

(** The last light of the list that is a caution or an indicator light. *)
Definition deciding_light (detected_lights : list Image.Light)
  : option Image.Light :=
  find (fun light => is_caution light || is_indicator light)
    (rev detected_lights).

(** The urgency after the validation of a reply: a red light makes it
    critical; otherwise the last caution or indicator light decides. *)
Definition validated_urgency (detected_lights : list Image.Light) : string :=
  if existsb is_red detected_lights then "critical"
  else
    match deciding_light detected_lights with
    | Some light => if is_caution light then "warning" else "normal"
    | None => "normal"
    end.

(** The urgency of the fallback: the highest urgency of any light. *)
Definition fallback_urgency (detected_lights : list Image.Light) : string :=
  if existsb is_red detected_lights then "critical"
  else if existsb is_caution detected_lights then "warning"
  else "normal".

Lemma find_snoc {A} (test : A -> bool) (l : list A) (x : A) :
  find test (l ++ [x])
  = match find test l with
    | Some y => Some y
    | None => if test x then Some x else None
    end.
Proof.
  induction l as [| a l IH]; cbn [app find]; [reflexivity |].
  destruct (test a); [reflexivity | exact IH].
Qed.

Lemma lights_urgency_decided (detected_lights : list Image.Light) :
  forall so_far,
    lights_urgency so_far detected_lights
    = if existsb is_red detected_lights then "critical"
      else
        match deciding_light detected_lights with
        | Some light => if is_caution light then "warning" else "normal"
        | None => so_far
        end.
Proof.
  unfold deciding_light.
  induction detected_lights as [| light rest IH]; intros so_far;
    [reflexivity |].
  cbn [lights_urgency existsb rev]. rewrite find_snoc.
  fold (is_red light). fold (is_caution light). fold (is_indicator light).
  destruct (is_red light); [reflexivity |]. cbn [orb].
  destruct (is_caution light) eqn:Hc; cbn [orb].
  - rewrite IH. destruct (existsb is_red rest); [reflexivity |].
    destruct (find _ (rev rest)); [reflexivity |]. now rewrite Hc.
  - destruct (is_indicator light) eqn:Hi.
    + rewrite IH. destruct (existsb is_red rest); [reflexivity |].
      destruct (find _ (rev rest)); [reflexivity |]. now rewrite Hc.
    + rewrite IH. destruct (existsb is_red rest); [reflexivity |].
      now destruct (find _ (rev rest)).
Qed.

Lemma red_is_no_caution (light : Image.Light) :
  is_red light = true -> is_caution light = false.
Proof.
  unfold is_red, is_caution, Py.contains. cbn [existsb].
  rewrite orb_false_r. intros H. apply String.eqb_eq in H. now rewrite H.
Qed.

Lemma fallback_lights_urgency (detected_lights : list Image.Light) :
  forall st,
    lights_urgency_level (fold_left fallback_light_step detected_lights st)
    = if existsb is_red detected_lights then "critical"
      else if String.eqb (lights_urgency_level st) "critical" then "critical"
      else if existsb is_caution detected_lights then "warning"
      else lights_urgency_level st.
Proof.
  induction detected_lights as [| light rest IH]; intros st;
    cbn [fold_left existsb].
  - now destruct (String.eqb_spec (lights_urgency_level st) "critical").
  - rewrite IH. unfold fallback_light_step.
    assert (Hred : String.eqb (Py.lower (Image.color light)) "red"
                   = is_red light).
    { unfold is_red, Py.contains. cbn [existsb]. now rewrite orb_false_r. }
    rewrite Hred. fold (is_caution light).
    destruct (is_red light) eqn:R; cbn [orb].
    + cbn [lights_urgency_level].
      now destruct (existsb is_red rest).
    + destruct (is_caution light) eqn:C; cbn [orb lights_urgency_level].
      * destruct (String.eqb_spec (lights_urgency_level st) "critical")
          as [E | E]; cbn [negb].
        -- rewrite E. cbn. now destruct (existsb is_red rest).
        -- cbn. destruct (existsb is_red rest); [reflexivity |].
           now destruct (existsb is_caution rest).
      * reflexivity.
Qed.

Lemma deciding_light_found (detected_lights : list Image.Light) :
  existsb is_caution detected_lights = true ->
  exists light, deciding_light detected_lights = Some light.
Proof.
  intros H. apply existsb_exists in H as (light & Hin & Hc).
  unfold deciding_light.
  destruct (find _ (rev detected_lights)) as [found |] eqn:E;
    [now exists found |].
  apply in_rev in Hin.
  pose proof (find_none _ _ E light Hin) as Hnone. cbv beta in Hnone.
  rewrite Hc in Hnone. discriminate.
Qed.

Lemma deciding_caution (detected_lights : list Image.Light)
    (light : Image.Light) :
  deciding_light detected_lights = Some light -> is_caution light = true ->
  existsb is_caution detected_lights = true.
Proof.
  intros E Hc. apply find_some in E as [Hin _].
  apply existsb_exists. exists light. split; [| exact Hc].
  now apply in_rev.
Qed.

(** X9. The urgency of a dashboard narration with detected lights.  After
    the validation of a reply it is "critical" when a light is red, and
    otherwise the class of the last caution (yellow, orange, amber) or
    indicator (green, blue) light of the list; the fallback takes the
    highest urgency of any light.  The two differ exactly when no light is
    red, some light is a caution light, and the last caution or indicator
    light is an indicator: then a parsed reply gives "normal" where the
    fallback gives "warning". *)
Theorem dashboard_urgency_is_decided_by_the_last_light
    (list_of_set : list string -> list string)
    (detected_lights : list Image.Light) :
  detected_lights <> [] ->
  (forall analysis result,
      _validate_and_enhance_dashboard_analysis analysis detected_lights
      = Py.Returned result ->
      exists gemini_analysis,
        result = VDict gemini_analysis
        /\ lookup gemini_analysis "urgency_level"
           = Some (VStr (validated_urgency detected_lights)))
  /\ (exists gemini_analysis,
        _create_enhanced_fallback_dashboard_analysis list_of_set
          detected_lights = VDict gemini_analysis
        /\ lookup gemini_analysis "urgency_level"
           = Some (VStr (fallback_urgency detected_lights)))
  /\ (validated_urgency detected_lights <> fallback_urgency detected_lights
      <-> existsb is_red detected_lights = false
          /\ existsb is_caution detected_lights = true
          /\ exists light,
               deciding_light detected_lights = Some light
               /\ is_caution light = false).
Proof.
  intros Hlights. split; [| split].
  - intros analysis result Hv.
    unfold _validate_and_enhance_dashboard_analysis in Hv.
    destruct analysis as [| | | | | | | entries | | | |]; try discriminate.
    destruct detected_lights as [| light rest]; [contradiction |].
    cbv zeta in Hv.
    rewrite lights_urgency_decided in Hv.
    fold (validated_urgency (light :: rest)) in Hv.
    set (level := validated_urgency (light :: rest)) in *.
    destruct (confidence_is_low (assign entries "urgency_level" (VStr level))
                0.6) as [low |]; cbn [Py.bind] in Hv; [| discriminate].
    injection Hv as <-. eexists. split; [reflexivity |].
    repeat match goal with
           | |- context [if ?c then _ else _] => destruct c
           end;
      rewrite ?lookup_assign_other by discriminate;
      apply lookup_assign_same.
  - unfold _create_enhanced_fallback_dashboard_analysis.
    destruct detected_lights as [| light rest]; [contradiction |].
    eexists. split; [reflexivity |].
    cbn [lookup String.eqb Ascii.eqb Bool.eqb].
    now rewrite fallback_lights_urgency.
  - unfold validated_urgency, fallback_urgency.
    destruct (existsb is_red detected_lights).
    { split; [intros H; now contradiction H | intros [H _]; discriminate]. }
    destruct (existsb is_caution detected_lights) eqn:Hc.
    + destruct (deciding_light_found _ Hc) as [light E]. rewrite E.
      destruct (is_caution light) eqn:Hl.
      * split; [intros H; now contradiction H |].
        intros (_ & _ & light' & [= <-] & H). congruence.
      * split; [| discriminate]. intros _.
        split; [reflexivity | split; [reflexivity |]].
        now exists light.
    + destruct (deciding_light detected_lights) as [light |] eqn:E.
      * destruct (is_caution light) eqn:Hl.
        -- pose proof (deciding_caution _ _ E Hl). congruence.
        -- split; [intros H; now contradiction H |].
           intros (_ & H & _). discriminate.
      * split; [intros H; now contradiction H |].
        intros (_ & H & _). discriminate.
Qed.



Lemma narration_urgency_is_the_urgency_of_the_faults_witness :
  exists gemini_analysis,
    analyze_engine_sound (nodup string_dec) (Py.float_sum Py.binary64)
      Examples.ticking_analysis (Py.Returned None)
    = VDict gemini_analysis
    /\ lookup gemini_analysis "urgency_level"
       = Some (VStr (Audio._determine_urgency_level
                       (Audio.detected_faults Examples.ticking_analysis))).
Proof.
  apply (narration_urgency_is_the_urgency_of_the_faults
           (nodup string_dec) (Py.float_sum Py.binary64)
           Examples.ticking_analysis (Py.Returned None)).
  discriminate.
Defined.

Lemma warning_is_answered_soon_but_stored_as_monitoring_witness :
  exists gemini_analysis,
    analyze_engine_sound (nodup string_dec) (Py.float_sum Py.binary64)
      Examples.ticking_analysis (Py.Returned None)
    = VDict gemini_analysis
    /\ Router.get_urgency_level gemini_analysis "normal" = VStr "warning"
    /\ Router.response_urgency Router.engine_urgency_mapping
         (Router.get_urgency_level gemini_analysis "normal")
       = Py.Returned Router.SOON
    /\ Router.stored_urgency
         (Router.get_urgency_level gemini_analysis "normal")
       = Some "monitoring".
Proof.
  assert (Hfaults : Audio.detected_faults Examples.ticking_analysis <> [])
    by discriminate.
  destruct (warning_is_answered_soon_but_stored_as_monitoring
              (nodup string_dec) (Py.float_sum Py.binary64)
              Examples.ticking_analysis (Py.Returned None) Hfaults)
    as (gemini_analysis & Hg & Hreported & Hanswered & Hstored & _).
  exists gemini_analysis.
  split; [exact Hg | split; [exact Hreported |]].
  split; [exact Hanswered | exact Hstored].
Defined.

Lemma response_confidence_is_within_the_schema_bounds_witness :
  Router.response_confidence 1.7 == 1.
Proof.
  apply (response_confidence_is_within_the_schema_bounds 1.7).
  discriminate.
Defined.

Lemma dashboard_urgency_is_decided_by_the_last_light_witness :
  validated_urgency [Examples.colored "yellow"; Examples.colored "green"]
  <> fallback_urgency [Examples.colored "yellow"; Examples.colored "green"].
Proof.
  assert (Hlights : [Examples.colored "yellow"; Examples.colored "green"]
                    <> []) by discriminate.
  apply (proj2 (proj2 (dashboard_urgency_is_decided_by_the_last_light
                         (nodup string_dec)
                         [Examples.colored "yellow"; Examples.colored "green"]
                         Hlights))).
  split; [reflexivity | split; [reflexivity |]].
  exists (Examples.colored "green"). split; reflexivity.
Defined.

End NarrationFacts.

(** ** Repair keywords and audio quality *)

Module KeywordFacts.
Import Audio.

Lemma keywords_loop (detected_faults : list Fault) (so_far : list string) :
  fold_left (fun keywords' fault => keywords' ++ keywords fault)
    detected_faults so_far
  = so_far ++ flat_map keywords detected_faults.
Proof.
  revert so_far. induction detected_faults as [| fault rest IH];
    intros so_far; cbn [fold_left flat_map].
  - now rewrite app_nil_r.
  - now rewrite IH, app_assoc.
Qed.

Lemma firstn_incl {A} (n : nat) (l : list A) (x : A) :
  In x (firstn n l) -> In x l.
Proof.
  intros H. rewrite <- (firstn_skipn n l). apply in_or_app. now left.
Qed.

Lemma firstn_nodup {A} (n : nat) (l : list A) : NoDup l -> NoDup (firstn n l).
Proof.
  intros H. rewrite <- (firstn_skipn n l) in H.
  now apply NoDup_app_remove_r in H.
Qed.

(** [list(set(xs))]: every element of [xs] once, in some order. *)
Definition enumerates_sets (list_of_set : list string -> list string) : Prop :=
  forall xs,
    NoDup (list_of_set xs) /\ forall x, In x (list_of_set xs) <-> In x xs.

(** X11. [_extract_repair_keywords]: at most eight keywords are returned,
    without duplicates, each of them a keyword of a detected fault; and
    when the detected faults have at most eight distinct keywords, none
    is left out. *)
Theorem repair_keywords_are_at_most_eight_fault_keywords
    (w : World) (detected_faults : list Fault) :
  enumerates_sets (list_of_set w) ->
  let repair_keywords := _extract_repair_keywords w detected_faults in
  (List.length repair_keywords <= 8)%nat
  /\ NoDup repair_keywords
  /\ (forall keyword,
        In keyword repair_keywords ->
        exists fault, In fault detected_faults /\ In keyword (keywords fault))
  /\ ((List.length (list_of_set w (flat_map keywords detected_faults)) <= 8)%nat
      -> forall fault keyword,
           In fault detected_faults -> In keyword (keywords fault) ->
           In keyword repair_keywords).
Proof.
  intros Hset. cbv zeta. unfold _extract_repair_keywords.
  rewrite keywords_loop. cbn [app].
  destruct (Hset (flat_map keywords detected_faults)) as [Hnodup Hin].
  split; [apply firstn_le_length |].
  split; [now apply firstn_nodup |].
  split.
  - intros keyword H. apply firstn_incl, Hin, in_flat_map in H.
    exact H.
  - intros Hshort fault keyword Hfault Hkeyword.
    rewrite firstn_all2 by exact Hshort.
    apply Hin, in_flat_map. now exists fault.
Qed.

Lemma repair_keywords_are_at_most_eight_fault_keywords_witness :
  (List.length
     (_extract_repair_keywords Examples.example_world
        (_detect_engine_faults (Py.float_sum Py.binary64)
           (Computed Examples.mid_profile) Examples.rhythmic_patterns))
   <= 8)%nat.
Proof.
  assert (Hset : enumerates_sets (list_of_set Examples.example_world)).
  { intros xs. split; [apply NoDup_nodup | intros x; apply nodup_In]. }
  exact (proj1 (repair_keywords_are_at_most_eight_fault_keywords
                  Examples.example_world
                  (_detect_engine_faults (Py.float_sum Py.binary64)
                     (Computed Examples.mid_profile)
                     Examples.rhythmic_patterns)
                  Hset)).
Defined.

End KeywordFacts.

(** ** The dashboard route *)

Module RouteFacts.
Import Router.

(** X12. The dashboard route, for a known user.  An upload without a
    content type is answered 500: the test of the content type raises
    [AttributeError].  An upload whose content type does not begin with
    "image/" is answered 400.  Both happen before the upload is read.  Once
    the image is read and stored, the route goes on with whatever the
    analysis returns: a buffer that cannot be decoded is not refused, its
    failed analysis is handed to the narration. *)
Theorem undecodable_dashboard_image_is_not_refused
    (w : Image.World) (image : Request) (user_id : string) :
  verify_user_id image user_id = true ->
  (content_type image = None ->
   diagnose_dashboard_image w image user_id
   = (HTTPException 500
        "Dashboard diagnosis failed: 'NoneType' object has no attribute 'startswith'",
      [VerifyUser]))
  /\ (forall declared,
        content_type image = Some declared ->
        Py.startswith declared "image/" = false ->
        diagnose_dashboard_image w image user_id
        = (HTTPException 400 "File must be an image", [VerifyUser]))
  /\ (forall declared image_data,
        content_type image = Some declared ->
        Py.startswith declared "image/" = true ->
        read image = Py.Returned image_data ->
        upload_dashboard_image image image_data = Py.Returned tt ->
        exists image_analysis,
          Image.analyze_dashboard_image w image_data
          = Py.Returned image_analysis
          /\ diagnose_dashboard_image w image user_id
             = (Analysed image_analysis,
                [VerifyUser; ReadImage; UploadDashboardImage;
                 AnalyzeDashboardImage])
          /\ (ImageFailureFacts.not_decodable w image_data ->
              exists e, image_analysis = Image.failed_analysis e)).
Proof.
  intros Huser. unfold diagnose_dashboard_image. rewrite Huser. cbn [negb].
  split; [| split].
  - intros ->. reflexivity.
  - intros declared -> ->. reflexivity.
  - intros declared image_data -> -> -> ->. cbn [negb].
    destruct (ImageFailureFacts.analyze_returns w image_data)
      as [image_analysis E].
    exists image_analysis. rewrite E.
    split; [reflexivity | split; [reflexivity |]].
    intros Hnot.
    destruct (ImageFailureFacts.not_decodable_result w image_data Hnot)
      as [e E'].
    exists e. congruence.
Qed.

Lemma undecodable_dashboard_image_is_not_refused_witness :
  exists image_analysis,
    Image.analyze_dashboard_image Examples.no_decoder [x6e; x6f]
    = Py.Returned image_analysis
    /\ diagnose_dashboard_image Examples.no_decoder
         (Examples.png_upload [x6e; x6f]) "driver"
       = (Analysed image_analysis,
          [VerifyUser; ReadImage; UploadDashboardImage;
           AnalyzeDashboardImage])
    /\ (ImageFailureFacts.not_decodable Examples.no_decoder [x6e; x6f] ->
        exists e, image_analysis = Image.failed_analysis e).
Proof.
  apply (undecodable_dashboard_image_is_not_refused Examples.no_decoder
           (Examples.png_upload [x6e; x6f]) "driver" eq_refl)
    with (declared := "image/png"); reflexivity.
Defined.

End RouteFacts.
